(** * Promotion dashboard: the data layer behind the Streamlit pages

    A shallow embedding of [scripts/data_loader.py], of the KPI block of
    [dashboard.py] and of the Sankey, facet and Sunburst blocks of
    [pages/1_Advanced_Analytics.py], followed by the properties of the
    filter engine, the KPI aggregator, the rollup and the flow graph.

    Conventions of the embedding.
    - A pandas table is a list of column names and a list of rows; a row is
      the list of its cells, in column order.
    - A cell is a text, a number, a timestamp or missing ([NaN], which also
      stands for [NaT] and [None]).  Numbers are exact rationals in lowest
      terms ([Qc]): float64 rounding is not modelled, the non-finite results
      of a division are ([npfloat] below).  Measure columns are numeric
      columns: a text or timestamp cell met by a sum, a mean or a maximum is
      read as missing.
    - Streamlit calls are recorded in a log, in program order; an uncaught
      Python exception ends the run with [Raise].  What a widget returns is
      an argument of the block that reads it. *)

From Stdlib Require Import Ascii String QArith Qcanon ZArith.
From stdpp Require Import base gmap strings list numbers sorting.

Local Open Scope string_scope.
Local Open Scope list_scope.
Local Open Scope Qc_scope.
Local Open Scope nat_scope.

(** ** Python values and effects *)

Module Py.

(** An exception: its class and the text of its argument. *)
Inductive exn := Exn (cls : string) (arg : string).

Inductive result (A : Type) :=
| Ok (a : A)
| Raise (e : exn).
Arguments Ok {A} a.
Arguments Raise {A} e.

(** The pieces of an f-string: literal text, and the [repr] of a set or
    of a list of column names. *)
Inductive fmt :=
| Text (s : string)
| SetRepr (s : gset string)
| ListRepr (l : list string).

(** Control flow of a function body: a statement either falls through to
    the next one with the updated locals or returns. *)
Inductive flow (L R : Type) :=
| Continue (l : L)
| Return (r : R).
Arguments Continue {L R} l.
Arguments Return {L R} r.

(** Runs the statements in order; a body that falls off its end returns
    [fall] (Python's [None]). *)
Fixpoint exec {L R : Type} (body : list (L → flow L R)) (fall : R) (l : L) : R :=
  match body with
  | [] => fall
  | s :: body' =>
      match s l with
      | Return r => r
      | Continue l' => exec body' fall l'
      end
  end.

End Py.

Global Instance exn_eq_dec : EqDecision Py.exn.
Proof. solve_decision. Defined.

Global Instance result_eq_dec {A} `{EqDecision A} : EqDecision (Py.result A).
Proof. solve_decision. Defined.

(** ** Tables *)

Inductive cell :=
| Str (s : string)
| Num (q : Qc)
| Date (t : Z)
| NaN.

Global Instance cell_eq_dec : EqDecision cell.
Proof. solve_decision. Defined.

Definition cell_to_sum (c : cell) : string + Qc + Z + unit :=
  match c with
  | Str s => inl (inl (inl s))
  | Num q => inl (inl (inr q))
  | Date t => inl (inr t)
  | NaN => inr ()
  end.

Definition cell_of_sum (x : string + Qc + Z + unit) : cell :=
  match x with
  | inl (inl (inl s)) => Str s
  | inl (inl (inr q)) => Num q
  | inl (inr t) => Date t
  | inr _ => NaN
  end.

Global Instance cell_countable : Countable cell.
Proof.
  refine (inj_countable' cell_to_sum cell_of_sum _).
  intros []; reflexivity.
Defined.

(** [pd.isna] *)
Definition isna (c : cell) : bool :=
  match c with NaN => true | _ => false end.

Record DataFrame := {
  columns : list string;
  rows : list (list cell)
}.

Global Instance DataFrame_eq_dec : EqDecision DataFrame.
Proof. solve_decision. Defined.

(** [pd.DataFrame()] *)
Definition DataFrame_new : DataFrame := {| columns := []; rows := [] |}.

(** [df.empty]: an axis of length zero. *)
Definition empty (df : DataFrame) : bool :=
  bool_decide (columns df = []) || bool_decide (rows df = []).

(** Position of a column label (the first one carrying it). *)
Definition get_loc (df : DataFrame) (col : string) : option nat :=
  fst <$> list_find (λ c, c = col) (columns df).

(** The cell of a row at a position; a row shorter than the header is
    padded with missing cells, as [read_csv] does. *)
Definition cell_at (i : nat) (r : list cell) : cell := default NaN (r !! i).

(** The cell of a row under a column label; missing under a label the
    table does not have (the blocks test for the labels they read before
    they read them). *)
Definition cell_of (df : DataFrame) (col : string) (r : list cell) : cell :=
  match get_loc df col with
  | Some i => cell_at i r
  | None => NaN
  end.

(** [df[col]] where the label is known to be present. *)
Definition column (df : DataFrame) (col : string) : list cell :=
  cell_of df col <$> rows df.

(** [df[col]]: [KeyError] naming the label when it is absent. *)
Definition getitem (df : DataFrame) (col : string) : Py.result (list cell) :=
  if decide (col ∈ columns df) then Py.Ok (column df col)
  else Py.Raise (Py.Exn "KeyError" col).

(** [df[col] = series]: the column is overwritten in place, or appended
    when the label is new. *)
Definition setitem (df : DataFrame) (col : string) (s : list cell) : DataFrame :=
  match get_loc df col with
  | Some i =>
      {| columns := columns df;
         rows := zip_with (λ r c, <[i:=c]> (r ++ replicate (S i - length r) NaN))
                          (rows df) s |}
  | None =>
      {| columns := columns df ++ [col];
         rows := zip_with (λ r c, r ++ replicate (length (columns df) - length r) NaN ++ [c])
                          (rows df) s |}
  end.

(** [df.rename(columns={old: new}, inplace=True)] *)
Definition rename (df : DataFrame) (old new : string) : DataFrame :=
  {| columns := (λ c, if decide (c = old) then new else c) <$> columns df;
     rows := rows df |}.

(** [series.isin(values)] *)
Definition isin (s : list cell) (values : list cell) : list bool :=
  (λ c, bool_decide (c ∈ values)) <$> s.

(** [series == value] *)
Definition series_eq (s : list cell) (v : cell) : list bool :=
  (λ c, bool_decide (c = v)) <$> s.

(** Elementwise [&] of two boolean series. *)
Definition mask_and (m1 m2 : list bool) : list bool := zip_with andb m1 m2.

(** [np.logical_and.reduce(filters)] on a non-empty list of masks. *)
Definition logical_and_reduce (filters : list (list bool)) : list bool :=
  match filters with
  | [] => []
  | f :: fs => foldl mask_and f fs
  end.

(** Keeps the entries whose mask bit is set. *)
Fixpoint compress {A : Type} (mask : list bool) (l : list A) : list A :=
  match mask, l with
  | b :: mask', x :: l' => if b then x :: compress mask' l' else compress mask' l'
  | _, _ => []
  end.

(** [df[mask]]: boolean indexing, a new table with the same header. *)
Definition boolean_index (df : DataFrame) (mask : list bool) : DataFrame :=
  {| columns := columns df; rows := compress mask (rows df) |}.

(** ** The selection state

    The entries of [st.session_state] the data layer reads.  A key that is
    absent reads as the default of [state.get], so an absent selection and
    an empty one are the same value here. *)

Record State := {
  campaigns : list cell;
  categories : list cell;
  products : list cell;
  promo_types : list cell;
  cities : list cell;
  date_start : option Z;
  date_end : option Z;
  selected_city : option string;
  kpi_focus : string
}.

(** [state.get(key, [])] for the five selection keys. *)
Definition state_get (state : State) (key : string) : list cell :=
  if decide (key = "campaigns") then campaigns state
  else if decide (key = "categories") then categories state
  else if decide (key = "products") then products state
  else if decide (key = "promo_types") then promo_types state
  else if decide (key = "cities") then cities state
  else [].

(** Truth value of a list. *)
Definition truthy {A : Type} (l : list A) : bool :=
  match l with [] => false | _ => true end.


(** ** Series reductions *)

(** The number held by a cell of a measure column. *)
Definition numeric (c : cell) : option Qc :=
  match c with Num q => Some q | _ => None end.

(** [series.sum()]: missing cells are skipped, an empty sum is 0. *)
Definition series_sum (s : list cell) : Qc :=
  foldl (λ acc c, match numeric c with Some q => (acc + q)%Qc | None => acc end)
        (Q2Qc 0) s.

(** [series.mean()]: the mean of the cells that are present, missing when
    there is none. *)
Definition series_mean (s : list cell) : cell :=
  match omap numeric s with
  | [] => NaN
  | vals => Num (series_sum s / Q2Qc (inject_Z (Z.of_nat (length vals))))%Qc
  end.

(** [series.max()]: the largest cell that is present, missing when there
    is none. *)
Definition series_max (s : list cell) : cell :=
  foldl (λ acc c,
           match numeric c, acc with
           | Some q, Num m => if bool_decide (m < q)%Qc then Num q else acc
           | Some q, _ => Num q
           | None, _ => acc
           end)
        NaN s.

(** [series >= threshold] against an integer; a missing cell compares
    false. *)
Definition series_ge (s : list cell) (threshold : Z) : list bool :=
  (λ c, match numeric c with
        | Some q => bool_decide (Q2Qc (inject_Z threshold) ≤ q)%Qc
        | None => false
        end) <$> s.

(** [series.unique().tolist()]: the distinct cells in order of first
    appearance, a missing cell included. *)
Fixpoint unique_from (seen : list cell) (s : list cell) : list cell :=
  match s with
  | [] => []
  | c :: s' =>
      if decide (c ∈ seen) then unique_from seen s'
      else c :: unique_from (c :: seen) s'
  end.

Definition unique (s : list cell) : list cell := unique_from [] s.

(** ** Group-by *)

(** Order of two cells under a sort: numbers, then timestamps, then texts
    by code point. *)
Definition cell_compare (a b : cell) : comparison :=
  match a, b with
  | Num p, Num q => (p ?= q)%Qc
  | Num _, _ => Lt
  | _, Num _ => Gt
  | Date s, Date t => (s ?= t)%Z
  | Date _, _ => Lt
  | _, Date _ => Gt
  | Str s, Str t => String.compare s t
  | Str _, NaN => Lt
  | NaN, Str _ => Gt
  | NaN, NaN => Eq
  end.

(** Group keys are ordered as tuples. *)
Definition key_le (a b : list cell) : Prop :=
  list_compare cell_compare a b ≠ Gt.

Global Instance key_le_dec : RelDecision key_le.
Proof. intros a b. unfold key_le. apply _. Defined.

(** The key of a row under the grouping columns [by_]; a row with a missing
    key cell belongs to no group ([dropna=True]). *)
Definition group_key (df : DataFrame) (by_ : list string) (r : list cell)
    : option (list cell) :=
  let k := (λ col, cell_of df col r) <$> by_ in
  if forallb (λ c, negb (isna c)) k then Some k else None.

(** Adds a row to the group of its key, opening the group on the key's
    first appearance. *)
Fixpoint add_to_group (k : list cell) (r : list cell)
    (groups : list (list cell * list (list cell))) : list (list cell * list (list cell)) :=
  match groups with
  | [] => [(k, [r])]
  | (k', g) :: groups' =>
      if decide (k = k') then (k', g ++ [r]) :: groups'
      else (k', g) :: add_to_group k r groups'
  end.

(** The groups in order of first appearance, each with its rows in table
    order. *)
Definition factorize (df : DataFrame) (by_ : list string)
    : list (list cell * list (list cell)) :=
  foldl (λ groups r,
           match group_key df by_ r with
           | Some k => add_to_group k r groups
           | None => groups
           end)
        [] (rows df).

(** [df.groupby(by_)] with the default [sort=True]: the groups by
    ascending key. *)
Definition groupby (df : DataFrame) (by_ : list string)
    : list (list cell * list (list cell)) :=
  merge_sort (λ a b : list cell * list (list cell), key_le a.1 b.1) (factorize df by_).

(** An aggregation of a named column over the rows of a group. *)
Definition agg_sum (df : DataFrame) (col : string) (g : list (list cell)) : cell :=
  Num (series_sum (cell_of df col <$> g)).

Definition agg_mean (df : DataFrame) (col : string) (g : list (list cell)) : cell :=
  series_mean (cell_of df col <$> g).

(** [df.groupby(by_, as_index=False).agg(name=(col, how), ...)] and
    [df.groupby(by_)[col].sum().reset_index()]: one row per group, the key
    cells followed by the aggregates. *)
Definition groupby_agg (df : DataFrame) (by_ : list string)
    (aggs : list (string * (list (list cell) → cell))) : DataFrame :=
  {| columns := by_ ++ aggs.*1;
     rows := (λ kg : list cell * list (list cell),
                kg.1 ++ ((λ a : string * (list (list cell) → cell), a.2 kg.2) <$> aggs))
             <$> groupby df by_ |}.

(** Places an entry of a series behind every entry at least as large. *)
Fixpoint insert_desc (x : cell * Qc) (l : list (cell * Qc)) : list (cell * Qc) :=
  match l with
  | [] => [x]
  | y :: l' =>
      if bool_decide (y.2 < x.2)%Qc then x :: l else y :: insert_desc x l'
  end.

(** The entries by descending value, equal values in series order. *)
Definition sort_desc (s : list (cell * Qc)) : list (cell * Qc) :=
  foldl (λ acc x, insert_desc x acc) [] s.

(** [series.nlargest(n)] with the default [keep='first']. *)
Definition nlargest (n : nat) (s : list (cell * Qc)) : list (cell * Qc) :=
  take n (sort_desc s).

(** [Series.map(dict)]: the value under each cell, missing when the cell is
    not a key. *)
Definition series_map (d : gmap cell nat) (s : list cell) : list (option nat) :=
  (λ c, d !! c) <$> s.

(** [{label: i for i, label in enumerate(labels)}]: a later position
    overwrites an earlier one. *)
Definition enumerate_dict (labels : list cell) : gmap cell nat :=
  foldl (λ d il, <[il.2 := il.1]> d) ∅ (zip (seq 0 (length labels)) labels).


(** ** numpy scalars and Streamlit calls *)

(** A float64 scalar: a finite value or one of the three non-finite ones. *)
Inductive npfloat :=
| Fin (q : Qc)
| PosInf
| NegInf
| NotANumber.

Global Instance npfloat_eq_dec : EqDecision npfloat.
Proof. solve_decision. Defined.

(** [x / y] on numpy scalars: a zero divisor gives a signed infinity, or
    not-a-number for [0 / 0], with a warning and no exception. *)
Definition np_truediv (x y : Qc) : npfloat :=
  if decide (y = Q2Qc 0) then
    if decide (Q2Qc 0 < x)%Qc then PosInf
    else if decide (x < Q2Qc 0)%Qc then NegInf
    else NotANumber
  else Fin (x / y)%Qc.

(** [x * 100] *)
Definition np_times_100 (x : npfloat) : npfloat :=
  match x with
  | Fin q => Fin (q * Q2Qc 100)%Qc
  | other => other
  end.

(** Truth value of a number: zero is false. *)
Definition nonzero (q : Qc) : bool := negb (bool_decide (q = Q2Qc 0)).

(** What a chart is drawn from. *)
Inductive figure :=
| KpiBars (y_values : list Qc) (y_label ir_label : string) (ir_value : npfloat)
| Sankey (label : list cell) (source target : list (option nat)) (value : list cell)
| FacetBars (df_melt : DataFrame) (y : string)
| Sunburst (agg : DataFrame) (path : list string) (values color : string).

(** The calls that reach the page. *)
Inductive st_call :=
| st_warning (msg : list Py.fmt)
| st_error (msg : list Py.fmt)
| metric_card (label : string) (value : npfloat)
| plotly_chart (fig : figure).

Global Instance fmt_eq_dec : EqDecision Py.fmt.
Proof. solve_decision. Defined.

Global Instance figure_eq_dec : EqDecision figure.
Proof. solve_decision. Defined.

Global Instance st_call_eq_dec : EqDecision st_call.
Proof. solve_decision. Defined.

(** A page block: the calls it made, and its value or the exception that
    ended it. *)
Definition page (A : Type) : Type := list st_call * Py.result A.

Definition page_bind {A B} (k : A → page B) (m : page A) : page B :=
  match m with
  | (log, Py.Ok a) => let '(log', r) := k a in (log ++ log', r)
  | (log, Py.Raise e) => (log, Py.Raise e)
  end.

Global Instance page_mret : MRet page := λ A a, ([], Py.Ok a).
Global Instance page_mbind : MBind page := λ A B, page_bind.

Definition call (c : st_call) : page unit := ([c], Py.Ok ()).

Definition lift {A} (r : Py.result A) : page A := ([], r).


(** ** scripts/data_loader.py *)

Module data_loader.

Definition CSV_ALIASES : list (string * string) :=
  [ ("campaign_data", "dim_campaigns.csv");
    ("product_data", "dim_products.csv");
    ("stores_data", "dim_stores.csv");
    ("event_data", "fact_events.csv");
    ("clean_revenue", "clean_revenue.csv");
    ("city_sales", "city_sales.csv");
    ("clean_all", "clean_all.csv") ].

(** [CSV_ALIASES[alias]] *)
Definition alias_file (alias : string) : option string :=
  (λ hit : nat * (string * string), hit.2.2)
    <$> list_find (λ p : string * string, p.1 = alias) CSV_ALIASES.

(** What the loader reads from outside: the data directory, the file
    system, the CSV parser (its table or the exception it raised) and
    the timestamp parser with [errors="coerce"]. *)
Record env := {
  DATA_DIR : string;
  path_exists : string → bool;
  read_csv : string → Py.result DataFrame;
  to_datetime : cell → cell
}.

(** [os.path.join(a, b)] on POSIX paths. *)
Definition path_join (a b : string) : string :=
  match b with
  | String "/"%char _ => b
  | _ =>
      match String.rev a with
      | "" => b
      | String "/"%char _ => (a +:+ b)%string
      | _ => (a +:+ "/" +:+ b)%string
      end
  end.

(** ASCII white space, as [str.strip] removes it. *)
Definition is_space (a : ascii) : bool :=
  let n := nat_of_ascii a in
  (bool_decide (9 ≤ n) && bool_decide (n ≤ 13))
  || (bool_decide (28 ≤ n) && bool_decide (n ≤ 32)).

Fixpoint lstrip (s : string) : string :=
  match s with
  | String a s' => if is_space a then lstrip s' else s
  | EmptyString => EmptyString
  end.

(** [c.strip()] *)
Definition strip (s : string) : string :=
  String.rev (lstrip (String.rev (lstrip s))).

Definition rename_map : list (string * string) :=
  [ ("quantity_sold(before_promo)", "quantity_sold (before_promo)");
    ("quantity_sold(after_promo)", "quantity_sold (after_promo)");
    ("Incremental Revenue", "incremental_revenue");
    ("IR%", "ir%");
    ("ISU%", "isu%");
    ("incremental_margin %", "incremental_margin%") ].

(** The date columns, parsed where present (lines 112-114). *)
Definition parse_dates (e : env) (df : DataFrame) : DataFrame :=
  foldl (λ df col,
           if bool_decide (col ∈ columns df)
           then setitem df col (to_datetime e <$> column df col)
           else df)
        df ["start_date"; "end_date"].

(** [df.columns = [c.strip() for c in df.columns]] *)
Definition strip_columns (df : DataFrame) : DataFrame :=
  {| columns := strip <$> columns df; rows := rows df |}.

(** The renaming loop (lines 129-131). *)
Definition harmonize (df : DataFrame) : DataFrame :=
  foldl (λ df kv,
           if bool_decide (kv.1 ∈ columns df) && negb (bool_decide (kv.2 ∈ columns df))
           then rename df kv.1 kv.2
           else df)
        df rename_map.

(** [load_csv(alias)].  The cache decorator returns the stored table on a
    repeated call and stores nothing when the call raises; it does not
    change what a call computes. *)
Definition load_csv (e : env) (alias : string) : page DataFrame :=
  match alias_file alias with
  | None =>
      lift (Py.Raise (Py.Exn "KeyError" ("Unknown dataset alias: " +:+ alias)))
  | Some filename =>
      let path := path_join (DATA_DIR e) filename in
      if negb (path_exists e path) then
        call (st_warning [Py.Text "Missing data file: "; Py.Text filename;
                          Py.Text " under "; Py.Text (DATA_DIR e)]);;
        mret DataFrame_new
      else
        match read_csv e path with
        | Py.Raise (Py.Exn _ exc) =>
            call (st_error [Py.Text "Failed reading "; Py.Text filename;
                            Py.Text ": "; Py.Text exc]);;
            mret DataFrame_new
        | Py.Ok df => mret (harmonize (strip_columns (parse_dates e df)))
        end
  end.

(** [get_all_datasets()]: every alias of the registry, in its order. *)
Definition get_all_datasets (e : env) : page (list (string * DataFrame)) :=
  foldr (λ alias rest,
           df ← load_csv e alias;
           datasets ← rest;
           mret ((alias, df) :: datasets))
        (mret []) CSV_ALIASES.*1.

(** *** apply_global_filters *)

Definition filter_map : list (string * string) :=
  [ ("campaign_id", "campaigns");
    ("category", "categories");
    ("product_code", "products");
    ("promo_type", "promo_types");
    ("city", "cities") ].

(** The local variables of [apply_global_filters]. *)
Record locals := {
  l_df : DataFrame;
  l_filters : list (list bool)
}.

(** [if df.empty: return df] *)
Definition s_empty (l : locals) : Py.flow locals (option DataFrame) :=
  if empty (l_df l) then Py.Return (Some (l_df l)) else Py.Continue l.

(** One turn of the loop over [filter_map.items()]. *)
Definition loop_body (state : State) (df : DataFrame)
    (filters : list (list bool)) (item : string * string) : list (list bool) :=
  let selected_values := state_get state item.2 in
  if bool_decide (item.1 ∈ columns df) && truthy selected_values
  then filters ++ [isin (column df item.1) selected_values]
  else filters.

(** [filters = []] and the [for] loop. *)
Definition s_collect (state : State) (l : locals) : Py.flow locals (option DataFrame) :=
  Py.Continue {| l_df := l_df l;
                 l_filters := foldl (loop_body state (l_df l)) [] filter_map |}.

(** [if filters: df = df[np.logical_and.reduce(filters)]] *)
Definition s_combine (l : locals) : Py.flow locals (option DataFrame) :=
  if truthy (l_filters l)
  then Py.Continue {| l_df := boolean_index (l_df l) (logical_and_reduce (l_filters l));
                      l_filters := l_filters l |}
  else Py.Continue l.

(** [return df] (line 181) *)
Definition s_return (l : locals) : Py.flow locals (option DataFrame) :=
  Py.Return (Some (l_df l)).

(** [series <= end] and [series >= start] against a timestamp; a missing
    cell compares false. *)
Definition date_le (t : Z) (c : cell) : bool :=
  match c with Date d => bool_decide (d ≤ t)%Z | _ => false end.
Definition date_ge (t : Z) (c : cell) : bool :=
  match c with Date d => bool_decide (t ≤ d)%Z | _ => false end.

(** The date-range statement that follows the [return]. *)
Definition s_date_range (state : State) (l : locals) : Py.flow locals (option DataFrame) :=
  match date_start state, date_end state with
  | Some start, Some end_ =>
      if bool_decide ("start_date" ∈ columns (l_df l))
         && bool_decide ("end_date" ∈ columns (l_df l))
      then Py.Continue
             {| l_df := l_df l;
                l_filters := l_filters l ++
                  [mask_and (date_le end_ <$> column (l_df l) "start_date")
                            (date_ge start <$> column (l_df l) "end_date")] |}
      else Py.Continue l
  | _, _ => Py.Continue l
  end.

(** [if not filters: return df], then the [mask &= f] loop and
    [return df[mask]]. *)
Definition s_mask (l : locals) : Py.flow locals (option DataFrame) :=
  match l_filters l with
  | [] => Py.Return (Some (l_df l))
  | mask :: fs => Py.Return (Some (boolean_index (l_df l) (foldl mask_and mask fs)))
  end.

(** The body of the function, statement by statement, in source order. *)
Definition body (state : State) : list (locals → Py.flow locals (option DataFrame)) :=
  [ s_empty; s_collect state; s_combine; s_return; s_date_range state; s_mask ].

(** [apply_global_filters(df, state)]; [None] is Python's [None], which
    [if df is None ...: return df] hands back. *)
Definition apply_global_filters (df : option DataFrame) (state : State)
    : option DataFrame :=
  match df with
  | None => None
  | Some df => Py.exec (body state) None {| l_df := df; l_filters := [] |}
  end.

End data_loader.


(** ** dashboard.py: the KPI summary *)

Module dashboard.

(** The city drill-down and the category filter on the filtered
    [clean_all] (lines 165-174). *)
Definition scope_df (filtered_clean_all : DataFrame) (state : State)
    : Py.result DataFrame :=
  let scope := filtered_clean_all in
  let scope :=
    match selected_city state with
    | Some focus_city =>
        if negb (bool_decide (focus_city = "")) && negb (bool_decide (focus_city = "All"))
           && bool_decide ("city" ∈ columns scope)
        then boolean_index scope (series_eq (column scope "city") (Str focus_city))
        else scope
    | None => scope
    end in
  if truthy (categories state) then
    match getitem scope "category" with
    | Py.Ok category => Py.Ok (boolean_index scope (isin category (categories state)))
    | Py.Raise e => Py.Raise e
    end
  else Py.Ok scope.

(** [scope_df[col].sum()] *)
Definition total (scope : DataFrame) (col : string) : page Qc :=
  s ← lift (getitem scope col); mret (series_sum s).

(** The guarded percentage of the cards (lines 181-183 and 192-196). *)
Definition percent_guarded (before after : Qc) : npfloat :=
  if nonzero before then np_times_100 (np_truediv (after - before)%Qc before)
  else Fin (Q2Qc 0).

(** The percentage as lines 205 and 208 compute it. *)
Definition percent (before after : Qc) : npfloat :=
  np_times_100 (np_truediv (after - before)%Qc before).

(** The three cards of the chosen metric family (lines 176-200). *)
Definition kpi_cards (scope : DataFrame) (focus : string) : page unit :=
  if decide (focus = "Revenue") then
    total_before ← total scope "revenue_before_promo";
    total_after ← total scope "revenue_after_promo";
    let ir_percent := percent_guarded total_before total_after in
    call (metric_card "Revenue Before" (Fin total_before));;
    call (metric_card "Revenue After" (Fin total_after));;
    call (metric_card "Incremental Revenue %" ir_percent)
  else if decide (focus = "Units") then
    total_units_before ← total scope "quantity_sold (before_promo)";
    total_units_after ← total scope "quantity_sold (after_promo)";
    let isu_percent := percent_guarded total_units_before total_units_after in
    call (metric_card "Units Before" (Fin total_units_before));;
    call (metric_card "Units After" (Fin total_units_after));;
    call (metric_card "Incremental Sold Units %" isu_percent)
  else mret ().

(** The module-level variables after lines 203-208. *)
Record kpi := {
  total_before : Qc;
  total_after : Qc;
  ir_percent : npfloat;
  total_units_before : Qc;
  total_units_after : Qc;
  isu_percent : npfloat
}.

Global Instance kpi_eq_dec : EqDecision kpi.
Proof. solve_decision. Defined.

(** Lines 203-208: both families recomputed, whatever the focus. *)
Definition recompute (scope : DataFrame) : page kpi :=
  total_before ← total scope "revenue_before_promo";
  total_after ← total scope "revenue_after_promo";
  let ir_percent := percent total_before total_after in
  total_units_before ← total scope "quantity_sold (before_promo)";
  total_units_after ← total scope "quantity_sold (after_promo)";
  let isu_percent := percent total_units_before total_units_after in
  mret {| total_before := total_before; total_after := total_after;
         ir_percent := ir_percent;
         total_units_before := total_units_before;
         total_units_after := total_units_after;
         isu_percent := isu_percent |}.

(** The bar chart of lines 225-298: the Units values unless the focus is
    Revenue. *)
Definition fig_kpi (focus : string) (v : kpi) : figure :=
  if decide (focus = "Revenue")
  then KpiBars [total_before v; total_after v] "Revenue (₹)"
               "Incremental Revenue %" (ir_percent v)
  else KpiBars [total_units_before v; total_units_after v] "Units Sold"
               "Incremental Sold Units %" (isu_percent v).

(** The KPI part of the page, from the filtered table to the chart. *)
Definition kpi_summary (filtered_clean_all : DataFrame) (state : State) : page kpi :=
  scope ← lift (scope_df filtered_clean_all state);
  kpi_cards scope (kpi_focus state);;
  v ← recompute scope;
  call (plotly_chart (fig_kpi (kpi_focus state) v));;
  mret v.

End dashboard.


(** ** pages/1_Advanced_Analytics.py *)

(** [required_cols - set(df.columns)] *)
Definition missing_columns (required_cols : gset string) (df : DataFrame) : gset string :=
  required_cols ∖ list_to_set (columns df).

(** [int(x)] on the result of a reduction: truncation towards zero, and
    [ValueError] on a missing value. *)
Definition int (c : cell) : Py.result Z :=
  match numeric c with
  | Some q => Py.Ok (Z.quot (Qnum q) (Zpos (Qden q)))
  | None => Py.Raise (Py.Exn "ValueError" "cannot convert float NaN to integer")
  end.

(** *** Sankey: Campaign → Promo Type → Category (lines 174-253) *)

Module sankey.

Definition required_cols : gset string :=
  {[ "campaign_id"; "promo_type"; "category"; "revenue_after_promo";
     "total_quantity_sold" ]}.

Definition value_col (metric : string) : string :=
  if decide (metric = "Revenue") then "revenue_after_promo" else "total_quantity_sold".

(** The node list (lines 206-209). *)
Definition labels (df_sankey : DataFrame) : list cell :=
  let campaigns := unique (column df_sankey "campaign_id") in
  let promos := unique (column df_sankey "promo_type") in
  let categories := unique (column df_sankey "category") in
  campaigns ++ promos ++ categories.

Definition label_indices (df_sankey : DataFrame) : gmap cell nat :=
  enumerate_dict (labels df_sankey).

(** The links of one hop: a row per pair of labels with the summed
    value. *)
Definition df_links (df_sankey : DataFrame) (from to col : string) : DataFrame :=
  groupby_agg df_sankey [from; to] [(col, agg_sum df_sankey col)].

Definition df_links1 (df_sankey : DataFrame) (col : string) : DataFrame :=
  df_links df_sankey "campaign_id" "promo_type" col.

Definition df_links2 (df_sankey : DataFrame) (col : string) : DataFrame :=
  df_links df_sankey "promo_type" "category" col.

Definition sources (df_sankey : DataFrame) (col : string) : list (option nat) :=
  series_map (label_indices df_sankey) (column (df_links1 df_sankey col) "campaign_id")
  ++ series_map (label_indices df_sankey) (column (df_links2 df_sankey col) "promo_type").

Definition targets (df_sankey : DataFrame) (col : string) : list (option nat) :=
  series_map (label_indices df_sankey) (column (df_links1 df_sankey col) "promo_type")
  ++ series_map (label_indices df_sankey) (column (df_links2 df_sankey col) "category").

Definition values (df_sankey : DataFrame) (col : string) : list cell :=
  column (df_links1 df_sankey col) col ++ column (df_links2 df_sankey col) col.

Definition fig_sankey (df_sankey : DataFrame) (col : string) : figure :=
  Sankey (labels df_sankey) (sources df_sankey col) (targets df_sankey col)
         (values df_sankey col).

(** The block.  [metric] is what the radio returned; [slider] is the
    slider widget: from its bounds, the value the user set or the
    widget's own exception. *)
Definition run (slider : Z → Z → Py.result Z) (filtered_clean_all : DataFrame)
    (metric : string) : page unit :=
  if bool_decide (required_cols ⊆ list_to_set (columns filtered_clean_all)) then
    let df_sankey := filtered_clean_all in
    let col := value_col metric in
    max_value ← lift (int (series_max (column df_sankey col)));
    min_value ← lift (slider 0%Z max_value);
    let df_sankey := boolean_index df_sankey (series_ge (column df_sankey col) min_value) in
    call (plotly_chart (fig_sankey df_sankey col))
  else
    call (st_warning [Py.Text "Missing columns: ";
                      Py.SetRepr (missing_columns required_cols filtered_clean_all)]).

End sankey.

(** *** Faceted before/after KPI per campaign (lines 271-327) *)

Module facet.

Definition before_col (kpi_option : string) : string :=
  if decide (kpi_option = "Revenue") then "revenue_before_promo"
  else "quantity_sold (before_promo)".

Definition after_col (kpi_option : string) : string :=
  if decide (kpi_option = "Revenue") then "revenue_after_promo"
  else "quantity_sold (after_promo)".

Definition required_cols (kpi_option : string) : gset string :=
  {[ "campaign_id"; "product_code"; before_col kpi_option; after_col kpi_option ]}.

(** [df.melt(id_vars, value_vars, var_name, value_name)]: for each value
    column in turn, a row per table row. *)
Definition melt (df : DataFrame) (id_vars value_vars : list string)
    (var_name value_name : string) : DataFrame :=
  {| columns := id_vars ++ [var_name; value_name];
     rows := v ← value_vars;
             (λ r, ((λ c, cell_of df c r) <$> id_vars) ++ [Str v; cell_of df v r])
               <$> rows df |}.

(** [series.map({before_col: "Before", after_col: "After"})] *)
Definition period (kpi_option : string) (c : cell) : cell :=
  if decide (c = Str (after_col kpi_option)) then Str "After"
  else if decide (c = Str (before_col kpi_option)) then Str "Before"
  else NaN.

Definition df_melt (df_facet : DataFrame) (kpi_option : string) : DataFrame :=
  let m := melt df_facet ["campaign_id"; "product_code"]
                [before_col kpi_option; after_col kpi_option] "Period" kpi_option in
  setitem m "Period" (period kpi_option <$> column m "Period").

Definition run (filtered_clean_all : DataFrame) (kpi_option : string) : page unit :=
  let missing_cols := missing_columns (required_cols kpi_option) filtered_clean_all in
  if bool_decide (missing_cols ≠ ∅) then
    call (st_warning [Py.Text "Missing columns: "; Py.SetRepr missing_cols])
  else
    call (plotly_chart (FacetBars (df_melt filtered_clean_all kpi_option) kpi_option)).

End facet.

(** *** Sunburst: the hierarchy rollup (lines 329-407) *)

Module sunburst.

Definition required_cols : gset string :=
  {[ "campaign_id"; "promo_type"; "category"; "product_code";
     "incremental_margin%"; "revenue_after_promo"; "total_quantity_sold" ]}.

Definition path : list string :=
  [ "campaign_id"; "promo_type"; "category"; "product_code" ].

Definition value_col (focus : string) : string :=
  if decide (focus = "Revenue") then "revenue_after_promo" else "total_quantity_sold".

(** The city drill-down (lines 350-352). *)
Definition df_sb (filtered_clean_all : DataFrame) (state : State) : DataFrame :=
  match selected_city state with
  | Some focus_city =>
      if negb (bool_decide (focus_city = "")) && negb (bool_decide (focus_city = "All"))
         && bool_decide ("city" ∈ columns filtered_clean_all)
      then boolean_index filtered_clean_all
             (series_eq (column filtered_clean_all "city") (Str focus_city))
      else filtered_clean_all
  | None => filtered_clean_all
  end.

(** The rollup (lines 373-377): per path, the summed value and the mean
    margin. *)
Definition agg (df : DataFrame) (col : string) : DataFrame :=
  groupby_agg df path
    [ (col, agg_sum df col);
      ("incremental_margin_pct", agg_mean df "incremental_margin%") ].

(** [agg.groupby("product_code")[col].sum()]: the total of each leaf,
    indexed by the leaf. *)
Definition leaf_totals (agg : DataFrame) (col : string) : list (cell * Qc) :=
  (λ kg : list cell * list (list cell),
     (default NaN (head kg.1), series_sum (cell_of agg col <$> kg.2)))
  <$> groupby agg ["product_code"].

Definition top_leaves (agg : DataFrame) (col : string) (top_n : Z) : list cell :=
  (nlargest (Z.to_nat top_n) (leaf_totals agg col)).*1.

(** The pruning of lines 380-384. *)
Definition prune (agg : DataFrame) (col : string) (top_n : Z) : DataFrame :=
  if negb (bool_decide (top_n = 0%Z)) && bool_decide (0 < top_n)%Z then
    boolean_index agg (isin (column agg "product_code") (top_leaves agg col top_n))
  else agg.

(** The block; [top_n] is what the number input returned. *)
Definition run (filtered_clean_all : DataFrame) (state : State) (top_n : Z)
    : page unit :=
  let missing := missing_columns required_cols filtered_clean_all in
  if bool_decide (missing ≠ ∅) then
    call (st_warning
            [Py.Text "Sunburst requires these columns in filtered_clean_all: ";
             Py.ListRepr (merge_sort String.le (elements missing))])
  else
    let df := df_sb filtered_clean_all state in
    let col := value_col (kpi_focus state) in
    let agg := prune (agg df col) col top_n in
    call (plotly_chart (Sunburst agg path col "incremental_margin_pct")).

End sunburst.


(** ** Notions used to state the properties *)

(** The selections that take part in filtering a table with header
    [cols]: the column is in the table and the selection is not empty. *)
Definition active (cols : list string) (state : State) : list (string * list cell) :=
  omap (λ item : string * string,
          if bool_decide (item.1 ∈ cols) && truthy (state_get state item.2)
          then Some (item.1, state_get state item.2) else None)
       data_loader.filter_map.

(** A row passes when, for every active selection, its cell is one of the
    selected values. *)
Definition keeps (df : DataFrame) (state : State) (r : list cell) : bool :=
  forallb (λ a : string * list cell, bool_decide (cell_of df a.1 r ∈ a.2))
          (active (columns df) state).

(** A value set accepts a value when it is empty (no restriction) or holds
    the value. *)
Definition accepts (values : list cell) (v : cell) : Prop :=
  values = [] ∨ v ∈ values.

(** [narrows l2 l1]: the selection [l2] accepts no more than [l1] does,
    that is, [l1] is empty, or [l2] is not and its values are values of
    [l1]. *)
Definition narrows (l2 l1 : list cell) : bool :=
  match l1 with
  | [] => true
  | _ => truthy l2 && forallb (λ v, bool_decide (v ∈ l1)) l2
  end.

(** [s2] is at least as restrictive as [s1] on every dimension. *)
Definition more_restrictive (s2 s1 : State) : bool :=
  forallb (λ item : string * string,
             narrows (state_get s2 item.2) (state_get s1 item.2))
          data_loader.filter_map.

(** Two states with the same five selections. *)
Definition same_selections (s1 s2 : State) : Prop :=
  campaigns s1 = campaigns s2 ∧ categories s1 = categories s2 ∧
  products s1 = products s2 ∧ promo_types s1 = promo_types s2 ∧
  cities s1 = cities s2.

(** The rows of a table that carry the group key [k]. *)
Definition keyed (df : DataFrame) (by_ : list string) (k : list cell)
    : list (list cell) :=
  filter (λ r, group_key df by_ r = Some k) (rows df).

(** The path of a row: its cells under the hierarchy columns. *)
Definition path_of (df : DataFrame) (r : list cell) : list cell :=
  (λ col, cell_of df col r) <$> sunburst.path.

(** The rows of a table that lie on the path [p]. *)
Definition rows_with_path (df : DataFrame) (p : list cell) : list (list cell) :=
  filter (λ r, path_of df r = p) (rows df).

(** The leaf of a rollup row: its last path segment. *)
Definition leaf_of (agg : DataFrame) (r : list cell) : cell :=
  cell_of agg "product_code" r.

(** A leaf value of a rollup. *)
Definition is_leaf (agg : DataFrame) (x : cell) : Prop :=
  x ≠ NaN ∧ ∃ r, r ∈ rows agg ∧ leaf_of agg r = x.

(** The measure of a leaf summed across all of its groups. *)
Definition leaf_total (agg : DataFrame) (col : string) (x : cell) : Qc :=
  series_sum (cell_of agg col <$> filter (λ r, leaf_of agg r = x) (rows agg)).

(** Descending order of the entries of a series by value. *)
Definition desc : relation (cell * Qc) := λ x y, (y.2 ≤ x.2)%Qc.

(** The labels at the two ends of the links, in link order. *)
Definition source_labels (df_sankey : DataFrame) (col : string) : list cell :=
  column (sankey.df_links1 df_sankey col) "campaign_id"
  ++ column (sankey.df_links2 df_sankey col) "promo_type".

Definition target_labels (df_sankey : DataFrame) (col : string) : list cell :=
  column (sankey.df_links1 df_sankey col) "promo_type"
  ++ column (sankey.df_links2 df_sankey col) "category".

(** An index resolves to a label of the node list. *)
Definition resolves (labels : list cell) (index : option nat) (label : cell) : Prop :=
  ∃ i, index = Some i ∧ labels !! i = Some label.

(** The union of the three levels with every value listed once, at its
    first appearance. *)
Definition ordered_union (level1 level2 level3 : list cell) : list cell :=
  unique (level1 ++ level2 ++ level3).

(** The aggregations of the Advanced Analytics page, each with what its
    widgets returned. *)
Inductive aggregation :=
| KpiPair (kpi_option : string)
| Rollup (state : State) (top_n : Z)
| FlowGraph (slider : Z → Z → Py.result Z) (metric : string).

Definition required_columns (a : aggregation) : gset string :=
  match a with
  | KpiPair kpi_option => facet.required_cols kpi_option
  | Rollup _ _ => sunburst.required_cols
  | FlowGraph _ _ => sankey.required_cols
  end.

Definition run_aggregation (a : aggregation) (df : DataFrame) : page unit :=
  match a with
  | KpiPair kpi_option => facet.run df kpi_option
  | Rollup state top_n => sunburst.run df state top_n
  | FlowGraph slider metric => sankey.run slider df metric
  end.

(** The column names a message shows. *)
Definition named (msg : list Py.fmt) : gset string :=
  ⋃ ((λ piece, match piece with
               | Py.Text _ => ∅
               | Py.SetRepr s => s
               | Py.ListRepr l => list_to_set l
               end) <$> msg).

(** A block ended by an exception of the class [cls]. *)
Definition raises {A} (p : page A) (cls : string) : Prop :=
  ∃ arg, p.2 = Py.Raise (Py.Exn cls arg).


(** ** Notions used to state the further properties *)

(** A row passes the selections of [state] on the table [df]: under every
    filtered column the table has and the state selects values for, its
    cell is one of the selected values. *)
Definition passes (df : DataFrame) (state : State) (r : list cell) : Prop :=
  Forall (λ item : string * string,
            item.1 ∈ columns df → state_get state item.2 ≠ [] →
            cell_of df item.1 r ∈ state_get state item.2)
         data_loader.filter_map.

Global Instance passes_dec df state r : Decision (passes df state r).
Proof. unfold passes. apply _. Defined.

(** The city drill-down of the dashboard blocks: the rows of the focus
    city, when one is set, is not "All" and the table has a city column. *)
Definition city_scope (df : DataFrame) (state : State) : DataFrame :=
  match selected_city state with
  | Some focus_city =>
      if negb (bool_decide (focus_city = "")) && negb (bool_decide (focus_city = "All"))
         && bool_decide ("city" ∈ columns df)
      then boolean_index df (series_eq (column df "city") (Str focus_city))
      else df
  | None => df
  end.

(** A finite float. *)
Definition finite (x : npfloat) : Prop := ∃ q, x = Fin q.

(** The renaming loop of the loader over a rename table [rm]. *)
Definition harmonize_with (rm : list (string * string)) (df : DataFrame) : DataFrame :=
  foldl (λ df kv,
           if bool_decide (kv.1 ∈ columns df) && negb (bool_decide (kv.2 ∈ columns df))
           then rename df kv.1 kv.2
           else df)
        df rm.

(** A row with no missing cell under the grouping columns [by_]. *)
Definition complete (df : DataFrame) (by_ : list string) (r : list cell) : Prop :=
  Forall (λ col, cell_of df col r ≠ NaN) by_.

Global Instance complete_dec df by_ r : Decision (complete df by_ r).
Proof. unfold complete. apply _. Defined.

(** The sum of the group sums of a column. *)
Definition groups_total (df : DataFrame) (col : string)
    (groups : list (list cell * list (list cell))) : Qc :=
  foldr (λ kg acc, (series_sum (cell_of df col <$> kg.2) + acc)%Qc) (Q2Qc 0) groups.


(** ** The session defaults ([scripts/ui_utils.py] lines 15-36,
       [dashboard.py] lines 57-67 and 133-154) *)

Module session.

(** The values the default tables hold. *)
Inductive value :=
| VList (l : list cell)
| VStr (s : string)
| VBool (b : bool)
| VNone
| VInt (n : Z)
| VRange (lo hi : Z)
| VDict.

(** [for k, v in defaults.items(): if k not in st.session_state:
    st.session_state[k] = v], with [st.session_state] as a dictionary. *)
Definition setdefaults (defaults : list (string * value)) (s : gmap string value)
    : gmap string value :=
  foldl (λ s kv, if decide (is_Some (s !! kv.1)) then s else <[kv.1 := kv.2]> s)
        s defaults.

(** [init_session_state] of [ui_utils.py]. *)
Definition ui_defaults : list (string * value) :=
  [ ("campaigns", VList []);
    ("categories", VList []);
    ("products", VList []);
    ("promo_types", VList []);
    ("cities", VList []);
    ("kpi_focus", VStr "Revenue");
    ("compare_mode", VBool false);
    ("date_start", VNone);
    ("date_end", VNone);
    ("annotations", VDict);
    ("selected_city", VNone);
    ("top_n", VInt 10);
    ("discount_range", VRange 0 1);
    ("price_range", VRange 0 1000);
    ("ir_range", VRange 0 1);
    ("inc_rev_range", VRange 0 10000) ].

Definition init_session_state : gmap string value → gmap string value :=
  setdefaults ui_defaults.

(** The first default table of [dashboard.py] (lines 57-64). *)
Definition default_state_1 : list (string * value) :=
  [ ("campaigns", VList []);
    ("categories", VList []);
    ("products", VList []);
    ("promo_types", VList []);
    ("cities", VList []);
    ("kpi_focus", VStr "Revenue") ].

(** The second default table of [dashboard.py] (lines 133-150). *)
Definition default_state_2 : list (string * value) :=
  [ ("campaigns", VList []);
    ("categories", VList []);
    ("products", VList []);
    ("promo_types", VList []);
    ("cities", VList []);
    ("kpi_focus", VStr "Revenue");
    ("discount_range", VRange 0 1);
    ("price_range", VRange 0 1000);
    ("inc_rev_range", VRange 0 100000);
    ("ir_range", VRange 0 1);
    ("show_before", VBool true);
    ("show_after", VBool true);
    ("positive_only", VBool false);
    ("normalize_store", VBool false);
    ("top_n", VInt 10);
    ("selected_city", VStr "All") ].

End session.

Global Instance session_value_eq_dec : EqDecision session.value.
Proof. solve_decision. Defined.

(** The entries of the second default table that [init_session_state] does
    not set. *)
Definition dashboard_only_defaults : list (string * session.value) :=
  [ ("show_before", session.VBool true);
    ("show_after", session.VBool true);
    ("positive_only", session.VBool false);
    ("normalize_store", session.VBool false) ].


(** ** Further blocks of the pages *)

(** [str] of a list of column names, as the argument of a [KeyError]
    shows it; exact for names without a quote or a backslash, which all
    the names of this program are. *)
Definition str_of_list (l : list string) : string :=
  String.append "["
    (String.append (String.concat ", " ((λ s, String.append "'" (String.append s "'")) <$> l))
                   "]").

(** [df.dropna(subset=subset)]: the rows with no missing cell under the
    columns of [subset]; [KeyError] with the list of the labels of
    [subset] the table does not have. *)
Definition dropna (df : DataFrame) (subset : list string) : Py.result DataFrame :=
  match filter (λ col, col ∉ columns df) subset with
  | [] => Py.Ok {| columns := columns df;
                   rows := filter (complete df subset) (rows df) |}
  | absent => Py.Raise (Py.Exn "KeyError" (str_of_list absent))
  end.

(** [series.dropna()] *)
Definition series_dropna (s : list cell) : list cell :=
  filter (λ c, c ≠ NaN) s.

(** *** The option lists of the pickers ([dashboard.py] lines 50-53) *)

(** The Python type of a cell that is present. *)
Inductive kind := KStr | KNum | KDate.

Global Instance kind_eq_dec : EqDecision kind.
Proof. solve_decision. Defined.

Definition kind_of (c : cell) : option kind :=
  match c with
  | Str _ => Some KStr
  | Num _ => Some KNum
  | Date _ => Some KDate
  | NaN => None
  end.

(** [a <= b] between two cells of one type. *)
Definition cell_le (a b : cell) : Prop := cell_compare a b ≠ Gt.

Global Instance cell_le_dec : RelDecision cell_le.
Proof. intros a b. unfold cell_le. apply _. Defined.

(** All the cells have the type of the first one. *)
Definition one_kind (l : list cell) : bool :=
  match l with
  | [] => true
  | c :: l' => forallb (λ c', bool_decide (kind_of c' = kind_of c)) l'
  end.

(** [sorted(l)] on distinct cells that are present: the cells in
    ascending order, and [None] for the [TypeError] of a comparison
    between two types (a text and a number, say), which a sort of two
    types or more always meets. *)
Definition sorted (l : list cell) : option (list cell) :=
  if one_kind l then Some (merge_sort cell_le l) else None.

(** [safe_unique(series)] *)
Definition safe_unique (series : option (list cell)) : option (list cell) :=
  match series with
  | None => Some []
  | Some [] => Some []
  | Some s => sorted (unique (series_dropna s))
  end.

(** *** Treemap ([dashboard.py] lines 308-357) *)

Module treemap.

Definition required_cols : list string :=
  [ "campaign_id"; "product_name"; "promo_type"; "incremental_margin%" ].

Definition value_col (kpi_focus : string) : string :=
  if decide (kpi_focus = "Revenue") then "revenue_after_promo"
  else "quantity_sold (after_promo)".

Definition title_metric (kpi_focus : string) : string :=
  if decide (kpi_focus = "Revenue") then "Revenue (₹)" else "Units Sold".

(** What the block does last: it hands a table to [px.treemap] with the
    column of the box sizes, or it shows the caption of the missing
    columns. *)
Inductive outcome :=
| px_treemap (data_frame : DataFrame) (values : string) (metric : string)
| st_caption.

Definition run (filtered_clean_all : DataFrame) (state : State) : Py.result outcome :=
  if negb (empty filtered_clean_all)
     && bool_decide (required_cols ⊆ columns filtered_clean_all)
  then
    let treemap_df := filtered_clean_all in
    let treemap_df :=
      match selected_city state with
      | Some focus_city =>
          if negb (bool_decide (focus_city = "")) && negb (bool_decide (focus_city = "All"))
             && bool_decide ("city" ∈ columns treemap_df)
          then boolean_index treemap_df
                 (series_eq (column treemap_df "city") (Str focus_city))
          else treemap_df
      | None => treemap_df
      end in
    let value_col := value_col (kpi_focus state) in
    match dropna treemap_df [value_col; "incremental_margin%"] with
    | Py.Ok treemap_df =>
        Py.Ok (px_treemap treemap_df value_col (title_metric (kpi_focus state)))
    | Py.Raise e => Py.Raise e
    end
  else Py.Ok st_caption.

End treemap.

Global Instance treemap_outcome_eq_dec : EqDecision treemap.outcome.
Proof. solve_decision. Defined.

(** *** Violin plot: the promotion types plotted
        ([pages/1_Advanced_Analytics.py] lines 123-128) *)

Module violin.

(** The options of the picker, which are also its default. *)
Definition promo_options (filtered_clean_all : DataFrame) : list cell :=
  unique (series_dropna (column filtered_clean_all "promo_type")).

(** The rows plotted, for the promotion types the picker returned. *)
Definition df_plot (filtered_clean_all : DataFrame) (selected_promos : list cell)
    : DataFrame :=
  boolean_index filtered_clean_all
    (isin (column filtered_clean_all "promo_type") selected_promos).

End violin.


(** *** Parallel categories: the combinations drawn
        ([pages/1_Advanced_Analytics.py] lines 35-95) *)

(** A row as a table of [n] columns holds it: cut to the header, short
    rows padded with missing cells. *)
Definition fit (n : nat) (r : list cell) : list cell :=
  take n r ++ replicate (n - length r) NaN.

(** The key of a row under the columns [on]; unlike a group key it may
    hold missing cells. *)
Definition merge_key (df : DataFrame) (on : list string) (r : list cell) : list cell :=
  (λ col, cell_of df col r) <$> on.

(** [pd.merge(left, right, on=on, how="left")] where both tables have the
    columns of [on]: the rows of [left] in order, each followed by the
    other cells of every row of [right] with its key, or by missing cells
    when [right] has none.  A column name the two tables share outside
    [on] gets the suffixes [_x] and [_y]; pandas 2 refuses with a
    [MergeError] a suffix that makes a duplicate (the text is exact for
    one duplicate, which is all this program can meet). *)
Definition merge_left (left right : DataFrame) (on : list string)
    : Py.result DataFrame :=
  let others := filter (λ c, c ∉ on) (columns right) in
  let llabels := (λ c, if decide (c ∈ others) then String.append c "_x" else c)
                   <$> columns left in
  let rlabels := (λ c, if decide (c ∈ columns left) then String.append c "_y" else c)
                   <$> others in
  let dups :=
    ((λ c, String.append c "_x")
       <$> filter (λ c, c ∈ others ∧ String.append c "_x" ∈ columns left) (columns left))
    ++ ((λ c, String.append c "_y")
          <$> filter (λ c, c ∈ columns left ∧ String.append c "_y" ∈ others) others) in
  match dups with
  | [] =>
      Py.Ok
        {| columns := llabels ++ rlabels;
           rows := r ← rows left;
                   match filter (λ r', merge_key right on r' = merge_key left on r)
                                (rows right) with
                   | [] => [ fit (length (columns left)) r
                             ++ replicate (length others) NaN ]
                   | matches =>
                       (λ r', fit (length (columns left)) r
                              ++ ((λ c, cell_of right c r') <$> others)) <$> matches
                   end |}
  | _ =>
      Py.Raise
        (Py.Exn "MergeError"
           (String.append "Passing 'suffixes' which cause duplicate columns {"
              (String.append
                 (String.concat ", "
                    ((λ c, String.append "'" (String.append c "'")) <$> dups))
                 "} is not allowed.")))
  end.

Module parallel.

Definition required_cols : list string :=
  [ "campaign_id"; "promo_type"; "category"; "incremental_margin%"; "city" ].

Definition dimensions : list string := [ "campaign_id"; "promo_type"; "category" ].

(** [group.size()] *)
Definition size (g : list (list cell)) : cell :=
  Num (Q2Qc (inject_Z (Z.of_nat (length g)))).

(** [df_para.groupby(dimensions, as_index=False).size()
      .rename(columns={"size": "count"})] *)
Definition combo_counts (df_para : DataFrame) : DataFrame :=
  rename (groupby_agg df_para dimensions [ ("size", size) ]) "size" "count".

(** What the block does last: it hands a table to
    [px.parallel_categories], or it warns that columns are missing. *)
Inductive outcome :=
| px_parallel_categories (data_frame : DataFrame)
| warned.

(** The options of the city widget (line 44); [None] for the
    [TypeError] of the sort. *)
Definition cities (filtered_clean_all : DataFrame) : option (list cell) :=
  (λ l, Str "All" :: l)
    <$> sorted (unique (series_dropna (column filtered_clean_all "city"))).

(** Lines 48-90, for the city and the threshold the two widgets
    returned. *)
Definition draw (filtered_clean_all : DataFrame) (selected_city : cell) (min_count : Z)
    : Py.result outcome :=
  let df_para := filtered_clean_all in
  let df_para :=
    if decide (selected_city ≠ Str "All")
    then boolean_index df_para (series_eq (column df_para "city") selected_city)
    else df_para in
  match merge_left df_para (combo_counts df_para) dimensions with
  | Py.Ok df_para =>
      match getitem df_para "count" with
      | Py.Ok count => Py.Ok (px_parallel_categories
                                (boolean_index df_para (series_ge count min_count)))
      | Py.Raise e => Py.Raise e
      end
  | Py.Raise e => Py.Raise e
  end.

(** The block.  [selectbox] is what the city widget returns for its
    options and [min_count] what the slider returns; [type_error] is the
    text of the [TypeError] Python raises when it sorts a list of two
    types, which names the first two values it compares. *)
Definition run (filtered_clean_all : DataFrame) (type_error : list cell → string)
    (selectbox : list cell → cell) (min_count : Z) : Py.result outcome :=
  if bool_decide (required_cols ⊆ columns filtered_clean_all)
     && negb (empty filtered_clean_all)
  then
    match cities filtered_clean_all with
    | Some cities => draw filtered_clean_all (selectbox cities) min_count
    | None =>
        Py.Raise (Py.Exn "TypeError"
                    (type_error (unique (series_dropna
                                           (column filtered_clean_all "city")))))
    end
  else Py.Ok warned.

End parallel.

Global Instance parallel_outcome_eq_dec : EqDecision parallel.outcome.
Proof. solve_decision. Defined.

(** The city drill-down of the block. *)
Definition parallel_scope (df : DataFrame) (selected_city : cell) : DataFrame :=
  if decide (selected_city ≠ Str "All")
  then boolean_index df (series_eq (column df "city") selected_city)
  else df.

(** The number of rows of a table that carry the combination of a row. *)
Definition combination_size (df : DataFrame) (r : list cell) : nat :=
  length (keyed df parallel.dimensions (merge_key df parallel.dimensions r)).

(** The count a row gets from the merge. *)
Definition merged_count (df : DataFrame) (r : list cell) : cell :=
  if decide (complete df parallel.dimensions r)
  then parallel.size (keyed df parallel.dimensions (merge_key df parallel.dimensions r))
  else NaN.

(** A row is drawn: its combination is complete and has [min_count] rows
    or more. *)
Definition drawn (df : DataFrame) (min_count : Z) (r : list cell) : Prop :=
  complete df parallel.dimensions r ∧ (min_count ≤ Z.of_nat (combination_size df r))%Z.

Global Instance drawn_dec df min_count r : Decision (drawn df min_count r).
Proof. unfold drawn. apply _. Defined.


(** ** Sample data *)

Module sample.

Definition header : list string :=
  [ "campaign_id"; "promo_type"; "category"; "product_code"; "city";
    "revenue_before_promo"; "revenue_after_promo";
    "quantity_sold (before_promo)"; "quantity_sold (after_promo)";
    "total_quantity_sold"; "incremental_margin%" ].

Definition num (z : Z) : cell := Num (Q2Qc (inject_Z z)).

Definition row (campaign promo category product city : string)
    (rev_before rev_after qty_before qty_after qty_total margin : Z) : list cell :=
  [ Str campaign; Str promo; Str category; Str product; Str city;
    num rev_before; num rev_after; num qty_before; num qty_after;
    num qty_total; num margin ].

(** Four events of two campaigns. *)
Definition clean_all : DataFrame :=
  {| columns := header;
     rows := [ row "CAMP_DIW_01" "BOGOF" "Grocery" "P01" "Delhi" 100 150 10 15 25 40;
               row "CAMP_DIW_01" "25% OFF" "Home Care" "P02" "Pune" 200 180 20 18 38 (-5);
               row "CAMP_SAN_01" "BOGOF" "Grocery" "P01" "Pune" 300 420 30 42 72 35;
               row "CAMP_SAN_01" "Cashback" "Grocery" "P03" "Delhi" 50 90 5 9 14 20 ] |}.

(** Two events on one path, with measures 10 and 20. *)
Definition two_rows : DataFrame :=
  {| columns := header;
     rows := [ row "C1" "BOGOF" "Grocery" "P01" "Delhi" 8 10 1 2 3 30;
               row "C1" "BOGOF" "Grocery" "P01" "Pune" 15 20 2 3 5 50 ] |}.

(** Three products with revenue totals A: 5, B: 50 (over two paths) and
    C: 20. *)
Definition three_leaves : DataFrame :=
  {| columns := header;
     rows := [ row "C1" "BOGOF" "Grocery" "A" "Delhi" 4 5 1 1 2 10;
               row "C1" "BOGOF" "Grocery" "B" "Delhi" 25 30 3 4 7 20;
               row "C2" "Cashback" "Grocery" "B" "Pune" 18 20 2 3 5 30;
               row "C2" "BOGOF" "Home Care" "C" "Pune" 16 20 2 2 4 15 ] |}.

(** A clearance campaign: "Clearance" is both a promotion type and a
    category. *)
Definition clearance : DataFrame :=
  {| columns := header;
     rows := [ row "CAMP_EOS" "Clearance" "Clearance" "P09" "Delhi" 60 80 6 8 14 12 ] |}.

(** A product launched with the promotion: nothing sold before it. *)
Definition launch : DataFrame :=
  {| columns := header;
     rows := [ row "CAMP_NEW" "BOGOF" "Grocery" "P10" "Delhi" 0 50 0 5 5 10 ] |}.

(** The filtered table of a selection that matches no event. *)
Definition no_match : DataFrame := {| columns := header; rows := [] |}.

(** An extract without the [revenue_before_promo] column. *)
Definition no_revenue_before : DataFrame :=
  {| columns := [ "campaign_id"; "promo_type"; "category"; "product_code"; "city";
                  "revenue_after_promo"; "quantity_sold (before_promo)";
                  "quantity_sold (after_promo)"; "total_quantity_sold";
                  "incremental_margin%" ];
     rows := [ [ Str "CAMP_DIW_01"; Str "BOGOF"; Str "Grocery"; Str "P01"; Str "Delhi";
                 num 150; num 10; num 15; num 25; num 40 ] ] |}.

(** An extract with the revenue columns and without the unit columns. *)
Definition revenue_only : DataFrame :=
  {| columns := [ "campaign_id"; "category"; "city";
                  "revenue_before_promo"; "revenue_after_promo" ];
     rows := [ [ Str "CAMP_DIW_01"; Str "Grocery"; Str "Delhi"; num 100; num 150 ] ] |}.

(** Grocery selected, with the focus on Delhi. *)
Definition grocery_in_delhi : State :=
  {| campaigns := []; categories := [ Str "Grocery" ]; products := [];
     promo_types := []; cities := []; date_start := None; date_end := None;
     selected_city := Some "Delhi"; kpi_focus := "Revenue" |}.

(** A data directory where every file exists and reads as one campaign
    whose date headers are padded with a blank. *)
Definition padded_headers : data_loader.env :=
  {| data_loader.DATA_DIR := "data";
     data_loader.path_exists := λ _, true;
     data_loader.read_csv := λ _,
       Py.Ok {| columns := [ "campaign_id"; " start_date"; "end_date " ];
                rows := [ [ Str "CAMP_DIW_01"; Str "2023-11-10"; Str "2023-11-16" ] ] |};
     data_loader.to_datetime := λ _, Date 0 |}.

(** A data directory where every file exists and none can be parsed. *)
Definition unreadable : data_loader.env :=
  {| data_loader.DATA_DIR := "data";
     data_loader.path_exists := λ _, true;
     data_loader.read_csv := λ _, Py.Raise (Py.Exn "ParserError" "Error tokenizing data");
     data_loader.to_datetime := λ c, c |}.

(** A data directory with no file in it. *)
Definition no_files : data_loader.env :=
  {| data_loader.DATA_DIR := "data";
     data_loader.path_exists := λ _, false;
     data_loader.read_csv := λ _, Py.Raise (Py.Exn "FileNotFoundError" "");
     data_loader.to_datetime := λ c, c |}.

(** A campaigns table with its two date columns. *)
Definition campaign_data : DataFrame :=
  {| columns := [ "campaign_id"; "campaign_name"; "start_date"; "end_date" ];
     rows := [ [ Str "CAMP_DIW_01"; Str "Diwali"; Date 19300; Date 19306 ];
               [ Str "CAMP_SAN_01"; Str "Sankranti"; Date 19367; Date 19373 ] ] |}.

(** Nothing selected. *)
Definition no_selection : State :=
  {| campaigns := []; categories := []; products := []; promo_types := [];
     cities := []; date_start := None; date_end := None;
     selected_city := Some "All"; kpi_focus := "Revenue" |}.

(** Two campaigns and two cities selected. *)
Definition wide : State :=
  {| campaigns := [ Str "CAMP_DIW_01"; Str "CAMP_SAN_01" ]; categories := [];
     products := []; promo_types := [];
     cities := [ Str "Delhi"; Str "Pune" ]; date_start := None; date_end := None;
     selected_city := Some "All"; kpi_focus := "Revenue" |}.

(** One campaign, one promotion type and one city selected. *)
Definition narrow : State :=
  {| campaigns := [ Str "CAMP_SAN_01" ]; categories := [];
     products := []; promo_types := [ Str "BOGOF" ];
     cities := [ Str "Pune" ]; date_start := None; date_end := None;
     selected_city := Some "All"; kpi_focus := "Revenue" |}.

(** A selection no event satisfies: the Diwali campaign with Cashback. *)
Definition disjoint : State :=
  {| campaigns := [ Str "CAMP_DIW_01" ]; categories := [];
     products := []; promo_types := [ Str "Cashback" ];
     cities := []; date_start := None; date_end := None;
     selected_city := Some "All"; kpi_focus := "Revenue" |}.

(** One campaign selected, with and without a date range that excludes
    it. *)
Definition diwali : State :=
  {| campaigns := [ Str "CAMP_DIW_01" ]; categories := []; products := [];
     promo_types := []; cities := []; date_start := None; date_end := None;
     selected_city := None; kpi_focus := "Revenue" |}.

Definition diwali_in_january : State :=
  {| campaigns := [ Str "CAMP_DIW_01" ]; categories := []; products := [];
     promo_types := []; cities := []; date_start := Some 19360%Z;
     date_end := Some 19380%Z; selected_city := None; kpi_focus := "Revenue" |}.

(** A catalogue extract where products carry a code and a name. *)
Definition catalogue : DataFrame :=
  {| columns := [ "campaign_id"; "product_code"; "product_name"; "revenue_after_promo" ];
     rows := [ [ Str "CAMP_DIW_01"; Str "P01"; Str "Atta (10KG)"; num 150 ];
               [ Str "CAMP_DIW_01"; Str "P02"; Str "Body milk (120ML)"; num 180 ] ] |}.

(** One product picked by its name. *)
Definition atta_picked : State :=
  {| campaigns := []; categories := []; products := [ Str "Atta (10KG)" ];
     promo_types := []; cities := []; date_start := None; date_end := None;
     selected_city := None; kpi_focus := "Revenue" |}.


(** Three events, the second without a margin and the third without a
    promotion type. *)
Definition with_gaps : DataFrame :=
  {| columns := [ "campaign_id"; "product_name"; "promo_type"; "incremental_margin%";
                  "revenue_after_promo" ];
     rows := [ [ Str "CAMP_DIW_01"; Str "Atta (10KG)"; Str "BOGOF"; num 40; num 150 ];
               [ Str "CAMP_DIW_01"; Str "Body milk (120ML)"; Str "BOGOF"; NaN; num 180 ];
               [ Str "CAMP_SAN_01"; Str "Atta (10KG)"; NaN; num 35; num 420 ] ] |}.

(** A city column as read, with a gap and a repetition. *)
Definition city_series : list cell :=
  [ Str "Pune"; NaN; Str "Delhi"; Str "Pune" ].

(** The two events of one combination, with the size of the combination
    in a [count] column. *)
Definition two_rows_counted : DataFrame :=
  {| columns := header ++ [ "count" ];
     rows := [ row "C1" "BOGOF" "Grocery" "P01" "Delhi" 8 10 1 2 3 30 ++ [ num 2 ];
               row "C1" "BOGOF" "Grocery" "P01" "Pune" 15 20 2 3 5 50 ++ [ num 2 ] ] |}.

End sample.


(** * Properties *)

(** Closes a decidable goal on closed terms by evaluating its decision. *)
Ltac by_evaluation := apply (bool_decide_unpack _); by vm_compute.

(** ** The filter engine *)

Section filter_engine.
Import data_loader.

Lemma compress_fmap {A} (p : A → bool) (l : list A) :
  compress (p <$> l) l = filter (λ x, p x) l.
Proof.
  induction l as [|x l IH]; [done|]. cbn [fmap list_fmap compress].
  rewrite filter_cons, IH. by destruct (p x).
Qed.

Lemma mask_and_fmap {A} (p q : A → bool) (l : list A) :
  mask_and (p <$> l) (q <$> l) = (λ x, p x && q x) <$> l.
Proof. unfold mask_and. induction l; [done|]. cbn. by f_equal. Qed.

Lemma foldl_mask_and_fmap {A B} (p : B → A → bool) (q : A → bool)
    (bs : list B) (l : list A) :
  foldl mask_and (q <$> l) ((λ b, p b <$> l) <$> bs)
  = (λ x, q x && forallb (λ b, p b x) bs) <$> l.
Proof.
  revert q. induction bs as [|b bs IH]; intros q; cbn [fmap list_fmap foldl].
  - apply list_fmap_ext. intros ? x _. simpl. by rewrite andb_true_r.
  - rewrite mask_and_fmap, IH. apply list_fmap_ext. intros ? x _. simpl.
    by rewrite andb_assoc.
Qed.

(** The masks the loop collects, one per active selection. *)
Lemma collect_filters state df acc items :
  foldl (loop_body state df) acc items
  = acc ++ ((λ a : string * list cell, isin (column df a.1) a.2) <$>
            omap (λ item : string * string,
                    if bool_decide (item.1 ∈ columns df) && truthy (state_get state item.2)
                    then Some (item.1, state_get state item.2) else None) items).
Proof.
  revert acc. induction items as [|it items IH]; intros acc.
  - cbn. by rewrite app_nil_r.
  - cbn [foldl omap list_omap]. rewrite IH. unfold loop_body. cbn zeta.
    destruct (bool_decide (it.1 ∈ columns df) && truthy (state_get state it.2));
      cbn [fmap list_fmap]; [|done].
    by rewrite <- app_assoc.
Qed.

Lemma reduce_filters df (acts : list (string * list cell)) :
  acts ≠ [] →
  logical_and_reduce ((λ a : string * list cell, isin (column df a.1) a.2) <$> acts)
  = (λ r, forallb (λ a : string * list cell, bool_decide (cell_of df a.1 r ∈ a.2)) acts)
      <$> rows df.
Proof.
  destruct acts as [|a acts]; [done|]. intros _. cbn [fmap list_fmap logical_and_reduce].
  unfold isin, column. rewrite <- list_fmap_compose.
  assert (Hmasks :
    (λ a0 : string * list cell,
       (λ c, bool_decide (c ∈ a0.2)) <$> (cell_of df a0.1 <$> rows df)) <$> acts
    = (λ a0 : string * list cell,
       (λ r, bool_decide (cell_of df a0.1 r ∈ a0.2)) <$> rows df) <$> acts).
  { apply list_fmap_ext. intros ? a0 _. by rewrite <- list_fmap_compose. }
  rewrite Hmasks.
  exact (foldl_mask_and_fmap
           (λ (a0 : string * list cell) r, bool_decide (cell_of df a0.1 r ∈ a0.2))
           (λ r, bool_decide (cell_of df a.1 r ∈ a.2)) acts (rows df)).
Qed.

Lemma truthy_fmap {A B} (f : A → B) (l : list A) : truthy (f <$> l) = truthy l.
Proof. by destruct l. Qed.

Lemma truthy_nil {A} (l : list A) : truthy l = false → l = [].
Proof. by destruct l. Qed.

(** What the function computes, in closed form. *)
Lemma apply_global_filters_eq df state :
  apply_global_filters (Some df) state
  = Some (if empty df then df
          else if truthy (active (columns df) state)
               then {| columns := columns df;
                       rows := filter (λ r, keeps df state r) (rows df) |}
               else df).
Proof.
  unfold apply_global_filters, body. cbn [Py.exec]. unfold s_empty. cbn [l_df].
  destruct (empty df); [done|].
  unfold s_collect, s_combine, s_return. cbn [l_df l_filters].
  rewrite collect_filters, app_nil_l. fold (active (columns df) state).
  rewrite truthy_fmap.
  destruct (truthy (active (columns df) state)) eqn:Hact; cbn [l_df]; [|done].
  f_equal. unfold boolean_index. f_equal.
  rewrite reduce_filters by (by intros Hnil; rewrite Hnil in Hact).
  apply (compress_fmap (keeps df state)).
Qed.

Lemma keeps_same_header df df' state r :
  columns df' = columns df → keeps df' state r = keeps df state r.
Proof.
  intros Hc. unfold keeps, cell_of, get_loc. by rewrite Hc.
Qed.

Lemma filter_twice {A} (P Q : A → Prop)
    `{!∀ x, Decision (P x)} `{!∀ x, Decision (Q x)} (l : list A) :
  (∀ x, Q x → P x) → filter P (filter Q l) = filter Q l.
Proof.
  intros HQP. induction l as [|x l IH]; [done|]. rewrite filter_cons.
  destruct (decide (Q x)) as [HQ|HQ]; [|done].
  rewrite filter_cons. destruct (decide (P x)) as [|HP]; [by rewrite IH|].
  destruct HP. by apply HQP.
Qed.

Lemma filter_sublist_impl {A} (P Q : A → Prop)
    `{!∀ x, Decision (P x)} `{!∀ x, Decision (Q x)} (l : list A) :
  (∀ x, P x → Q x) → filter P l `sublist_of` filter Q l.
Proof.
  intros HPQ. induction l as [|x l IH]; [done|]. rewrite !filter_cons.
  destruct (decide (P x)) as [HP|HP].
  - destruct (decide (Q x)) as [|HQ]; [by constructor|]. by destruct HQ; auto.
  - destruct (decide (Q x)); [by constructor|done].
Qed.

(** [narrows] is the inclusion of what the two selections accept. *)
Lemma narrows_accepts l2 l1 :
  narrows l2 l1 = true ↔ ∀ v, accepts l2 v → accepts l1 v.
Proof.
  unfold narrows, accepts. split.
  - destruct l1 as [|c l1]; [by left|]. intros [Ht Hall]%andb_prop v Hv.
    right. destruct Hv as [->|Hv]; [done|].
    rewrite forallb_forall in Hall. apply list_elem_of_In, Hall in Hv.
    by apply bool_decide_eq_true in Hv.
  - intros H. destruct l1 as [|c l1]; [done|].
    apply andb_true_intro. split.
    + destruct l2 as [|c2 l2]; [|done]. exfalso.
      pose (strs := omap (λ x, match x with Str s => Some s | _ => None end) (c :: l1)).
      destruct (H (Str (fresh strs))) as [?|Hin]; [by left|done|].
      apply (infinite_is_fresh strs). apply list_elem_of_omap.
      by exists (Str (fresh strs)).
    + apply forallb_forall. intros v Hv%list_elem_of_In. apply bool_decide_eq_true.
      destruct (H v) as [?|?]; [by right|done..].
Qed.

Lemma more_restrictive_keeps df s2 s1 r :
  more_restrictive s2 s1 = true → keeps df s2 r = true → keeps df s1 r = true.
Proof.
  unfold more_restrictive, keeps, active.
  induction filter_map as [|it items IH]; [done|]. cbn [forallb omap list_omap].
  intros [Hn Hrest]%andb_prop.
  specialize (IH Hrest).
  destruct (bool_decide (it.1 ∈ columns df)) eqn:Hcol; cbn [andb]; [|exact IH].
  unfold narrows in Hn.
  destruct (state_get s1 it.2) as [|c1 l1] eqn:H1; cbn [truthy]; [|].
  - destruct (truthy (state_get s2 it.2)); cbn [forallb]; [|exact IH].
    intros [_ ?]%andb_prop. by apply IH.
  - apply andb_prop in Hn as [Ht Hall]. rewrite Ht. cbn [forallb fst snd].
    intros [Hin Hk]%andb_prop. apply andb_true_intro. split; [|by apply IH].
    apply bool_decide_eq_true. apply bool_decide_eq_true in Hin.
    rewrite forallb_forall in Hall. apply list_elem_of_In, Hall in Hin.
    by apply bool_decide_eq_true in Hin.
Qed.

Lemma more_restrictive_active cols s2 s1 :
  more_restrictive s2 s1 = true →
  truthy (active cols s1) = true → truthy (active cols s2) = true.
Proof.
  unfold more_restrictive, active.
  induction filter_map as [|it items IH]; [done|]. cbn [forallb omap list_omap].
  intros [Hn Hrest]%andb_prop. specialize (IH Hrest).
  destruct (bool_decide (it.1 ∈ cols)); cbn [andb]; [|exact IH].
  unfold narrows in Hn.
  destruct (state_get s1 it.2) as [|c1 l1]; cbn [truthy].
  - destruct (truthy (state_get s2 it.2)); [done|exact IH].
  - apply andb_prop in Hn as [-> _]. done.
Qed.

End filter_engine.


Section filter_claims.
Import data_loader.

Lemma empty_filter_result df state :
  empty df = false →
  empty {| columns := columns df; rows := filter (λ r, keeps df state r) (rows df) |} = true
  → filter (λ r : list cell, keeps df state r) (rows df) = [].
Proof.
  unfold empty. cbn [columns rows]. intros Hne He.
  apply orb_false_elim in Hne as [Hc _]. rewrite Hc in He.
  by apply bool_decide_eq_true in He.
Qed.

Lemma same_selections_get s1 s2 key :
  same_selections s1 s2 → state_get s1 key = state_get s2 key.
Proof.
  intros (H1 & H2 & H3 & H4 & H5). unfold state_get.
  repeat case_decide; done.
Qed.

Lemma same_selections_active cols s1 s2 :
  same_selections s1 s2 → active cols s1 = active cols s2.
Proof.
  intros H. unfold active.
  induction filter_map as [|item items IH]; [done|]. cbn [omap list_omap].
  by rewrite IH, (same_selections_get s1 s2 item.2 H).
Qed.

End filter_claims.

(** C5. Filtering twice with one selection state gives the same table as
    filtering once: [apply(apply(D, S), S) = apply(D, S)], with the same
    header and the same rows in the same order. *)
Theorem apply_global_filters_idempotent (D : option DataFrame) (S : State) :
  data_loader.apply_global_filters (data_loader.apply_global_filters D S) S
  = data_loader.apply_global_filters D S.
Proof.
  destruct D as [df|]; [|done].
  rewrite (apply_global_filters_eq df S).
  destruct (empty df) eqn:He.
  { rewrite apply_global_filters_eq. by rewrite He. }
  destruct (truthy (active (columns df) S)) eqn:Hact.
  - rewrite apply_global_filters_eq. cbn [columns rows]. rewrite Hact.
    f_equal. destruct (empty {| columns := _; rows := _ |}); [done|].
    f_equal. apply filter_twice. intros r Hr.
    by rewrite (keeps_same_header df _ S r).
  - rewrite apply_global_filters_eq. by rewrite He, Hact.
Qed.

(** C6. When [S2] is at least as restrictive as [S1] on every dimension,
    the rows of [apply(D, S2)] are a sub-sequence of the rows of
    [apply(D, S1)], under the same header. *)
Theorem apply_global_filters_monotone (D : DataFrame) (S1 S2 : State) :
  more_restrictive S2 S1 = true →
  ∃ D1 D2,
    data_loader.apply_global_filters (Some D) S1 = Some D1 ∧
    data_loader.apply_global_filters (Some D) S2 = Some D2 ∧
    columns D2 = columns D1 ∧
    rows D2 `sublist_of` rows D1.
Proof.
  intros Hmr. rewrite !apply_global_filters_eq. eexists _, _.
  split; [done|]. split; [done|].
  destruct (empty D); [done|].
  destruct (truthy (active (columns D) S1)) eqn:H1.
  - rewrite (more_restrictive_active _ S2 S1 Hmr H1). cbn [columns rows].
    split; [done|]. apply filter_sublist_impl. intros r Hr.
    apply Is_true_true. apply Is_true_true in Hr.
    by apply (more_restrictive_keeps D S2 S1).
  - destruct (truthy (active (columns D) S2)); cbn [columns rows]; [|done].
    split; [done|]. apply sublist_filter.
Qed.

Lemma apply_global_filters_monotone_witness :
  ∃ D1 D2,
    data_loader.apply_global_filters (Some sample.clean_all) sample.wide = Some D1 ∧
    data_loader.apply_global_filters (Some sample.clean_all) sample.narrow = Some D2 ∧
    columns D2 = columns D1 ∧
    rows D2 `sublist_of` rows D1.
Proof.
  apply (apply_global_filters_monotone sample.clean_all sample.wide sample.narrow).
  vm_compute. reflexivity.
Defined.

(** C10. Two selection states with the same campaign, category, product,
    promotion-type and city selections give the same result whatever their
    [date_start] and [date_end]: the date-range statement comes after the
    [return] and is never run. *)
Theorem date_range_never_applied (df : option DataFrame) (S1 S2 : State) :
  same_selections S1 S2 →
  data_loader.apply_global_filters df S1 = data_loader.apply_global_filters df S2.
Proof.
  intros Hsame. destruct df as [df|]; [|done].
  rewrite !apply_global_filters_eq.
  unfold keeps. by rewrite (same_selections_active (columns df) S1 S2 Hsame).
Qed.

Lemma date_range_never_applied_witness :
  data_loader.apply_global_filters (Some sample.campaign_data) sample.diwali
  = data_loader.apply_global_filters (Some sample.campaign_data) sample.diwali_in_january.
Proof.
  apply (date_range_never_applied (Some sample.campaign_data)
           sample.diwali sample.diwali_in_january).
  unfold same_selections. simpl. repeat split; reflexivity.
Defined.


(** ** Group-by *)

Section groupby_facts.
Implicit Types (k : list cell) (r : list cell) (g : list (list cell)).
Implicit Types (groups : list (list cell * list (list cell))).

Lemma add_to_group_keys k r groups k0 :
  k0 ∈ (add_to_group k r groups).*1 ↔ k0 = k ∨ k0 ∈ groups.*1.
Proof.
  induction groups as [|[k' g] groups IH]; simpl.
  - rewrite list_elem_of_singleton, elem_of_nil. tauto.
  - case_decide as Hk; simpl; rewrite !elem_of_cons; [subst; tauto|].
    rewrite IH. tauto.
Qed.

Lemma add_to_group_NoDup k r groups :
  NoDup groups.*1 → NoDup (add_to_group k r groups).*1.
Proof.
  induction groups as [|[k' g] groups IH]; simpl.
  - intros _. apply NoDup_singleton.
  - rewrite NoDup_cons. intros [Hk' Hnd]. case_decide as Hk; simpl.
    + by apply NoDup_cons.
    + apply NoDup_cons. split; [|by apply IH].
      rewrite add_to_group_keys. intros [?|?]; by subst.
Qed.

Lemma add_to_group_lookup k r groups k0 :
  (list_to_map (add_to_group k r groups) : gmap (list cell) (list (list cell))) !! k0
  = if decide (k0 = k)
    then Some (default [] ((list_to_map groups : gmap _ _) !! k) ++ [r])
    else (list_to_map groups : gmap _ _) !! k0.
Proof.
  induction groups as [|[k' g] groups IH]; simpl.
  - case_decide as H0; [subst; by rewrite lookup_insert_eq|].
    by rewrite lookup_insert_ne.
  - destruct (decide (k = k')) as [->|Hk]; simpl.
    + rewrite lookup_insert_eq. case_decide as H0;
        [subst; by rewrite lookup_insert_eq|by rewrite !lookup_insert_ne].
    + rewrite (lookup_insert_ne _ k' k) by done.
      destruct (decide (k0 = k')) as [->|H0'].
      * rewrite !lookup_insert_eq. by rewrite decide_False by done.
      * rewrite !lookup_insert_ne by done. apply IH.
Qed.

Lemma factorize_snoc_invariant df by_ (rs : list (list cell)) :
  let groups := foldl (λ groups r,
                         match group_key df by_ r with
                         | Some k => add_to_group k r groups
                         | None => groups
                         end) [] rs in
  NoDup groups.*1 ∧
  ∀ k, (list_to_map groups : gmap (list cell) (list (list cell))) !! k
       = match filter (λ r, group_key df by_ r = Some k) rs with
         | [] => None
         | g => Some g
         end.
Proof.
  induction rs as [|r rs IH] using rev_ind; simpl.
  - split; [constructor|]. intros k. by rewrite lookup_empty.
  - rewrite foldl_app. simpl. destruct IH as [Hnd Hlk].
    destruct (group_key df by_ r) as [kr|] eqn:Hkr.
    + split; [by apply add_to_group_NoDup|]. intros k.
      rewrite add_to_group_lookup, filter_app, filter_cons, filter_nil.
      destruct (decide (k = kr)) as [->|Hne].
      * rewrite decide_True by done. rewrite Hlk.
        destruct (filter _ rs); done.
      * rewrite decide_False by congruence. rewrite app_nil_r. apply Hlk.
    + split; [done|]. intros k.
      rewrite filter_app, filter_cons, filter_nil.
      rewrite decide_False by congruence. rewrite app_nil_r. apply Hlk.
Qed.

Lemma factorize_NoDup df by_ : NoDup (factorize df by_).*1.
Proof. apply (factorize_snoc_invariant df by_ (rows df)). Qed.

Lemma factorize_lookup df by_ k :
  (list_to_map (factorize df by_) : gmap (list cell) (list (list cell))) !! k
  = match keyed df by_ k with [] => None | g => Some g end.
Proof. apply (factorize_snoc_invariant df by_ (rows df)). Qed.

Lemma groupby_Permutation df by_ : groupby df by_ ≡ₚ factorize df by_.
Proof. apply merge_sort_Permutation. Qed.

(** No key has two groups. *)
Lemma groupby_NoDup df by_ : NoDup (groupby df by_).*1.
Proof.
  rewrite (fmap_Permutation fst _ _ (groupby_Permutation df by_)).
  apply factorize_NoDup.
Qed.

(** The groups are the non-empty sets of rows that share a key. *)
Lemma elem_of_groupby df by_ k g :
  (k, g) ∈ groupby df by_ ↔ g = keyed df by_ k ∧ g ≠ [].
Proof.
  rewrite (groupby_Permutation df by_).
  rewrite (elem_of_list_to_map (M := gmap (list cell)))
    by apply factorize_NoDup.
  rewrite factorize_lookup. destruct (keyed df by_ k) eqn:Hk.
  - split; [done|]. by intros [-> ?].
  - split; [by intros [= <-]|]. by intros [-> _].
Qed.

Lemma group_key_Some df by_ r k :
  group_key df by_ r = Some k ↔
  k = (λ col, cell_of df col r) <$> by_ ∧ Forall (λ c, c ≠ NaN) k.
Proof.
  unfold group_key. cbn zeta.
  set (key := (λ col, cell_of df col r) <$> by_).
  destruct (forallb (λ c, negb (isna c)) key) eqn:Hall.
  - assert (Forall (λ c, c ≠ NaN) key) as HF.
    { apply Forall_forall. intros c Hc%list_elem_of_In.
      rewrite forallb_forall in Hall. apply Hall in Hc. by destruct c. }
    split; [by intros [= <-]|]. by intros [-> _].
  - split; [done|]. intros [-> HF]. exfalso.
    assert (forallb (λ c, negb (isna c)) key = true) as Ht; [|congruence].
    apply forallb_forall. intros c Hc%list_elem_of_In.
    rewrite Forall_forall in HF. apply HF in Hc. by destruct c.
Qed.

End groupby_facts.


(** ** The rollup *)

Section rollup_facts.

Lemma elem_of_groupby_agg df by_ aggs node :
  node ∈ rows (groupby_agg df by_ aggs) ↔
  ∃ k, keyed df by_ k ≠ [] ∧
       node = k ++ ((λ a : string * (list (list cell) → cell), a.2 (keyed df by_ k)) <$> aggs).
Proof.
  unfold groupby_agg. cbn [rows]. rewrite list_elem_of_fmap. split.
  - intros ([k g] & -> & [-> Hne]%elem_of_groupby). by exists k.
  - intros (k & Hne & ->). exists (k, keyed df by_ k). split; [done|].
    by apply elem_of_groupby.
Qed.

Lemma keyed_no_NaN df by_ k :
  keyed df by_ k ≠ [] → length k = length by_ ∧ Forall (λ c, c ≠ NaN) k.
Proof.
  unfold keyed. intros Hne.
  destruct (filter _ (rows df)) as [|r g] eqn:Hf; [done|].
  assert (r ∈ filter (λ r, group_key df by_ r = Some k) (rows df)) as Hr
    by (rewrite Hf; left).
  apply list_elem_of_filter in Hr as [[-> HF]%group_key_Some _].
  by rewrite length_fmap.
Qed.

Lemma keyed_path df p :
  Forall (λ c, c ≠ NaN) p → keyed df sunburst.path p = rows_with_path df p.
Proof.
  intros HF. unfold keyed, rows_with_path. apply list_filter_iff. intros r.
  rewrite group_key_Some. unfold path_of.
  split; [by intros [-> _]|]. intros Hp. by rewrite Hp.
Qed.

Lemma groupby_agg_keys df by_ aggs :
  take (length by_) <$> rows (groupby_agg df by_ aggs) = (groupby df by_).*1.
Proof.
  unfold groupby_agg. cbn [rows]. rewrite <- list_fmap_compose.
  apply list_fmap_ext. intros i [k g] Hi. cbn.
  apply list_elem_of_lookup_2, elem_of_groupby in Hi as [-> Hne].
  apply keyed_no_NaN in Hne as [<- _]. by rewrite take_app_length.
Qed.

End rollup_facts.

(** C8. The rollup has exactly one node per distinct path of the table: a
    row whose path has a missing segment belongs to no node, the node of a
    path carries the sum of the measure column and the mean of the
    [incremental_margin%] column over the rows on that path, and no two
    nodes share a path.  Two rows on one path with measures 10 and 20 give
    one node with measure 30. *)
Theorem rollup_one_node_per_path (df : DataFrame) (col : string) :
  (∀ node, node ∈ rows (sunburst.agg df col) ↔
     ∃ p, Forall (λ c, c ≠ NaN) p ∧ rows_with_path df p ≠ [] ∧
          node = p ++ [ Num (series_sum (cell_of df col <$> rows_with_path df p));
                        series_mean (cell_of df "incremental_margin%"
                                       <$> rows_with_path df p) ]) ∧
  NoDup (take 4 <$> rows (sunburst.agg df col)) ∧
  rows (sunburst.agg sample.two_rows "revenue_after_promo")
  = [ [ Str "C1"; Str "BOGOF"; Str "Grocery"; Str "P01"; sample.num 30; sample.num 40 ] ].
Proof.
  split; [|split].
  - intros node. unfold sunburst.agg. rewrite elem_of_groupby_agg. split.
    + intros (k & Hne & ->). destruct (keyed_no_NaN _ _ _ Hne) as [_ HF].
      exists k. rewrite <- (keyed_path df k HF). done.
    + intros (p & HF & Hne & ->). exists p. by rewrite (keyed_path df p HF).
  - unfold sunburst.agg. change 4 with (length sunburst.path).
    rewrite groupby_agg_keys. apply groupby_NoDup.
  - by_evaluation.
Qed.


(** ** Top-N pruning *)

Section nlargest_facts.
Implicit Types (x y : cell * Qc) (l s : list (cell * Qc)).

Lemma elem_of_drop_elem {A} (n : nat) (l : list A) (a : A) :
  a ∈ drop n l → a ∈ l.
Proof.
  revert n. induction l as [|b l IH]; intros [|n]; simpl; try done.
  intros H. right. by eapply IH.
Qed.

Lemma elem_of_take_elem {A} (n : nat) (l : list A) (a : A) :
  a ∈ take n l → a ∈ l.
Proof.
  revert n. induction l as [|b l IH]; intros [|n]; simpl; try done.
  - by intros ?%elem_of_nil.
  - intros [->|H]%elem_of_cons; [left|right; by eapply IH].
Qed.

Lemma insert_desc_Permutation x l : insert_desc x l ≡ₚ x :: l.
Proof.
  induction l as [|y l IH]; simpl; [done|].
  case_bool_decide; [done|]. rewrite IH. apply Permutation_swap.
Qed.

Lemma sort_desc_Permutation s : sort_desc s ≡ₚ s.
Proof.
  unfold sort_desc. induction s as [|x s IH] using rev_ind; [done|].
  rewrite foldl_app. simpl. rewrite insert_desc_Permutation, IH.
  by rewrite Permutation_app_comm.
Qed.

Lemma insert_desc_sorted x l :
  StronglySorted desc l → StronglySorted desc (insert_desc x l).
Proof.
  induction l as [|y l IH]; simpl; intros Hs.
  - repeat constructor.
  - apply StronglySorted_inv in Hs as [Hs Hy]. case_bool_decide as Hlt.
    + constructor; [by constructor|]. constructor.
      * by apply Qclt_le_weak.
      * eapply Forall_impl; [exact Hy|]. intros z Hz. unfold desc in *.
        eapply Qcle_trans; [exact Hz|]. by apply Qclt_le_weak.
    + constructor; [by apply IH|].
      rewrite (insert_desc_Permutation x l). constructor; [|done].
      by apply Qcnot_lt_le.
Qed.

Lemma sort_desc_sorted s : StronglySorted desc (sort_desc s).
Proof.
  unfold sort_desc. induction s as [|x s IH] using rev_ind; [constructor|].
  rewrite foldl_app. simpl. by apply insert_desc_sorted.
Qed.

Lemma sorted_take_drop n l x y :
  StronglySorted desc l → x ∈ take n l → y ∈ drop n l → (y.2 ≤ x.2)%Qc.
Proof.
  revert n. induction l as [|z l IH]; intros n Hs Hx Hy.
  - by rewrite take_nil in Hx; apply elem_of_nil in Hx.
  - destruct n as [|n]; [by apply elem_of_nil in Hx|]. simpl in Hx, Hy.
    apply StronglySorted_inv in Hs as [Hs Hz].
    apply elem_of_cons in Hx as [->|Hx]; [|by eapply IH].
    rewrite Forall_forall in Hz. apply Hz. by eapply elem_of_drop_elem.
Qed.

(** What [nlargest] keeps is at least as large as what it leaves. *)
Lemma nlargest_dominates n s x y :
  NoDup s.*1 → x ∈ nlargest n s → y ∈ s → y.1 ∉ (nlargest n s).*1 →
  (y.2 ≤ x.2)%Qc.
Proof.
  unfold nlargest. intros Hnd Hx Hy Hout.
  apply (sorted_take_drop n (sort_desc s)); [apply sort_desc_sorted|done|].
  rewrite <- (sort_desc_Permutation s) in Hy.
  rewrite <- (take_drop n (sort_desc s)) in Hy.
  apply elem_of_app in Hy as [Hy|Hy]; [|done].
  destruct Hout. apply list_elem_of_fmap. by exists y.
Qed.

Lemma nlargest_subseteq n s x : x ∈ nlargest n s → x ∈ s.
Proof.
  unfold nlargest. intros Hx%elem_of_take_elem.
  by rewrite (sort_desc_Permutation s) in Hx.
Qed.

Lemma nlargest_NoDup n s : NoDup s.*1 → NoDup (nlargest n s).*1.
Proof.
  unfold nlargest. intros Hnd. rewrite fmap_take.
  apply (sublist_NoDup _ ((sort_desc s).*1)); [|apply sublist_take].
  by rewrite (sort_desc_Permutation s).
Qed.

Lemma nlargest_length n s : length (nlargest n s) = n `min` length s.
Proof.
  unfold nlargest. rewrite length_take.
  by rewrite (Permutation_length (sort_desc_Permutation s)).
Qed.

(** Short of [n] entries, [nlargest] keeps the whole series. *)
Lemma nlargest_all n s x : length (nlargest n s) ≠ n → x ∈ s → x ∈ nlargest n s.
Proof.
  rewrite nlargest_length. intros Hlen Hx. unfold nlargest.
  rewrite take_ge; [by rewrite (sort_desc_Permutation s)|].
  rewrite (Permutation_length (sort_desc_Permutation s)). lia.
Qed.

End nlargest_facts.


Section leaf_facts.

Lemma keyed_leaf agg x :
  x ≠ NaN →
  keyed agg ["product_code"] [x] = filter (λ r, leaf_of agg r = x) (rows agg).
Proof.
  intros Hx. unfold keyed. apply list_filter_iff. intros r.
  rewrite group_key_Some. unfold leaf_of. cbn [fmap list_fmap]. split.
  - by intros [[= ->] _].
  - intros <-. split; [done|]. by repeat constructor.
Qed.

Lemma keyed_leaf_inv agg k :
  keyed agg ["product_code"] k ≠ [] → ∃ x, k = [x] ∧ x ≠ NaN.
Proof.
  intros [Hlen HF]%keyed_no_NaN.
  destruct k as [|x [|??]]; simplify_eq/=. exists x. split; [done|].
  by apply Forall_cons in HF as [? _].
Qed.

Lemma is_leaf_keyed agg x :
  is_leaf agg x ↔ x ≠ NaN ∧ keyed agg ["product_code"] [x] ≠ [].
Proof.
  unfold is_leaf. split.
  - intros [Hx (r & Hr & Hl)]. split; [done|]. rewrite keyed_leaf by done.
    intros Hnil. assert (r ∈ filter (λ r, leaf_of agg r = x) (rows agg)) as Hin
      by (by apply list_elem_of_filter).
    rewrite Hnil in Hin. by apply elem_of_nil in Hin.
  - intros [Hx Hne]. split; [done|]. rewrite keyed_leaf in Hne by done.
    destruct (filter _ (rows agg)) as [|r g] eqn:Hf; [done|].
    assert (r ∈ filter (λ r, leaf_of agg r = x) (rows agg)) as Hin
      by (rewrite Hf; left).
    apply list_elem_of_filter in Hin as [? ?]. by exists r.
Qed.

(** The series of leaf totals has one entry per leaf, its total. *)
Lemma elem_of_leaf_totals agg col x t :
  (x, t) ∈ sunburst.leaf_totals agg col ↔ is_leaf agg x ∧ t = leaf_total agg col x.
Proof.
  unfold sunburst.leaf_totals. rewrite list_elem_of_fmap. split.
  - intros ([k g] & Heq & [-> Hne]%elem_of_groupby). cbn in Heq.
    destruct (keyed_leaf_inv _ _ Hne) as (x0 & -> & Hx0). cbn in Heq.
    injection Heq as -> ->. split.
    + by apply is_leaf_keyed.
    + unfold leaf_total. by rewrite keyed_leaf.
  - intros [[Hx Hne]%is_leaf_keyed ->].
    exists ([x], keyed agg ["product_code"] [x]). split.
    + cbn. unfold leaf_total. by rewrite keyed_leaf.
    + by apply elem_of_groupby.
Qed.

Lemma leaf_totals_NoDup agg col : NoDup (sunburst.leaf_totals agg col).*1.
Proof.
  unfold sunburst.leaf_totals. rewrite <- list_fmap_compose.
  apply NoDup_fmap_2_strong.
  - intros [k1 g1] [k2 g2] [-> Hne1]%elem_of_groupby [-> Hne2]%elem_of_groupby Heq.
    destruct (keyed_leaf_inv _ _ Hne1) as (x1 & -> & _).
    destruct (keyed_leaf_inv _ _ Hne2) as (x2 & -> & _).
    cbn in Heq. by subst.
  - apply (NoDup_fmap_1 fst). apply groupby_NoDup.
Qed.

Lemma elem_of_top_leaves agg col n x :
  x ∈ sunburst.top_leaves agg col n ↔
  (x, leaf_total agg col x) ∈ nlargest (Z.to_nat n) (sunburst.leaf_totals agg col).
Proof.
  unfold sunburst.top_leaves. rewrite list_elem_of_fmap. split.
  - intros ([x' t] & -> & Hin). cbn.
    pose proof (nlargest_subseteq _ _ _ Hin) as [_ ->]%elem_of_leaf_totals. done.
  - intros Hin. by exists (x, leaf_total agg col x).
Qed.

End leaf_facts.

(** C7. With a cap [N > 0] the pruning keeps exactly the rollup rows whose
    leaf is one of the top leaves.  The top leaves are distinct leaves of
    the rollup, [N] of them or else all of them, and no leaf left out has
    a larger total, summed across all of its groups, than a leaf kept.
    With [N = 1] and totals A: 5, B: 50, C: 20 only the groups with leaf B
    remain. *)
Theorem top_n_pruning (agg : DataFrame) (col : string) (N : Z) :
  (0 < N)%Z →
  columns (sunburst.prune agg col N) = columns agg ∧
  rows (sunburst.prune agg col N)
  = filter (λ r, leaf_of agg r ∈ sunburst.top_leaves agg col N) (rows agg) ∧
  NoDup (sunburst.top_leaves agg col N) ∧
  length (sunburst.top_leaves agg col N) ≤ Z.to_nat N ∧
  (length (sunburst.top_leaves agg col N) = Z.to_nat N ∨
   ∀ y, is_leaf agg y → y ∈ sunburst.top_leaves agg col N) ∧
  (∀ x, x ∈ sunburst.top_leaves agg col N → is_leaf agg x) ∧
  (∀ x y, x ∈ sunburst.top_leaves agg col N → is_leaf agg y →
          y ∉ sunburst.top_leaves agg col N →
          (leaf_total agg col y ≤ leaf_total agg col x)%Qc) ∧
  rows (sunburst.prune (sunburst.agg sample.three_leaves "revenue_after_promo")
                       "revenue_after_promo" 1)
  = [ [ Str "C1"; Str "BOGOF"; Str "Grocery"; Str "B"; sample.num 30; sample.num 20 ];
      [ Str "C2"; Str "Cashback"; Str "Grocery"; Str "B"; sample.num 20; sample.num 30 ] ].
Proof.
  intros HN.
  assert (sunburst.prune agg col N
          = boolean_index agg (isin (column agg "product_code")
                                    (sunburst.top_leaves agg col N))) as Hprune.
  { unfold sunburst.prune. rewrite bool_decide_eq_false_2 by lia.
    by rewrite bool_decide_eq_true_2 by done. }
  rewrite Hprune. cbn [boolean_index columns rows].
  split; [done|]. split.
  { unfold isin, column. rewrite <- list_fmap_compose, compress_fmap.
    apply list_filter_iff. intros r. apply bool_decide_spec. }
  split.
  { unfold sunburst.top_leaves. apply nlargest_NoDup, leaf_totals_NoDup. }
  split.
  { unfold sunburst.top_leaves. rewrite length_fmap, nlargest_length. lia. }
  split.
  { destruct (decide (length (sunburst.top_leaves agg col N) = Z.to_nat N)) as [|Hlen];
      [by left|right].
    intros y Hy. apply elem_of_top_leaves. apply nlargest_all.
    - unfold sunburst.top_leaves in Hlen. by rewrite length_fmap in Hlen.
    - by apply elem_of_leaf_totals. }
  split.
  { intros x Hx%elem_of_top_leaves. by apply nlargest_subseteq, elem_of_leaf_totals in Hx as [? _]. }
  split.
  { intros x y Hx%elem_of_top_leaves Hy Hout.
    apply (nlargest_dominates (Z.to_nat N) (sunburst.leaf_totals agg col)
             (x, leaf_total agg col x) (y, leaf_total agg col y)).
    - apply leaf_totals_NoDup.
    - done.
    - by apply elem_of_leaf_totals.
    - exact Hout. }
  by_evaluation.
Qed.

Lemma top_n_pruning_witness :
  rows (sunburst.prune (sunburst.agg sample.clean_all "revenue_after_promo")
                       "revenue_after_promo" 2)
  = filter (λ r, leaf_of (sunburst.agg sample.clean_all "revenue_after_promo") r
                 ∈ sunburst.top_leaves (sunburst.agg sample.clean_all "revenue_after_promo")
                                       "revenue_after_promo" 2)
           (rows (sunburst.agg sample.clean_all "revenue_after_promo")) ∧
  NoDup (sunburst.top_leaves (sunburst.agg sample.clean_all "revenue_after_promo")
                             "revenue_after_promo" 2) ∧
  length (sunburst.top_leaves (sunburst.agg sample.clean_all "revenue_after_promo")
                              "revenue_after_promo" 2) ≤ 2.
Proof.
  pose proof (top_n_pruning (sunburst.agg sample.clean_all "revenue_after_promo")
                "revenue_after_promo" 2 ltac:(lia)) as (_ & Hrows & Hnd & Hlen & _).
  split; [exact Hrows|]. split; [exact Hnd|exact Hlen].
Defined.


(** ** The flow graph *)

Section sankey_facts.

Lemma elem_of_unique_from seen s x :
  x ∈ unique_from seen s ↔ x ∈ s ∧ x ∉ seen.
Proof.
  revert seen. induction s as [|c s IH]; intros seen; simpl.
  - rewrite !elem_of_nil. tauto.
  - case_decide as Hc.
    + rewrite IH, elem_of_cons. split; [tauto|].
      intros [[->|?] ?]; [done|tauto].
    + rewrite !elem_of_cons, IH, elem_of_cons. split.
      * intros [->|[? ?]]; [tauto|]. split; [tauto|]. tauto.
      * intros [[->|?] ?]; [tauto|].
        destruct (decide (x = c)); [tauto|]. right. split; [done|]. tauto.
Qed.

Lemma unique_from_NoDup seen s : NoDup (unique_from seen s).
Proof.
  revert seen. induction s as [|c s IH]; intros seen; simpl; [constructor|].
  case_decide; [apply IH|]. constructor; [|apply IH].
  rewrite elem_of_unique_from, elem_of_cons. tauto.
Qed.

Lemma elem_of_unique s x : x ∈ unique s ↔ x ∈ s.
Proof. unfold unique. rewrite elem_of_unique_from, elem_of_nil. tauto. Qed.

Lemma unique_NoDup s : NoDup (unique s).
Proof. apply unique_from_NoDup. Qed.

Lemma enumerate_dict_snoc (l : list cell) (y : cell) :
  enumerate_dict (l ++ [y]) = <[y := length l]> (enumerate_dict l).
Proof.
  unfold enumerate_dict. rewrite length_app. cbn [length].
  rewrite seq_app. cbn [seq]. rewrite Nat.add_0_l.
  rewrite zip_with_app by (by rewrite length_seq).
  by rewrite foldl_app.
Qed.

(** The dictionary gives a label its last position in the list. *)
Lemma enumerate_dict_lookup (l : list cell) (x : cell) (i : nat) :
  enumerate_dict l !! x = Some i ↔
  l !! i = Some x ∧ ∀ j, i < j → l !! j ≠ Some x.
Proof.
  revert i. induction l as [|y l IH] using rev_ind; intros i.
  - unfold enumerate_dict. cbn. rewrite lookup_empty. split; [done|].
    by intros [? _].
  - rewrite enumerate_dict_snoc. destruct (decide (x = y)) as [->|Hne].
    + rewrite lookup_insert_eq. split.
      * intros [= <-]. split; [by rewrite lookup_app_r, Nat.sub_diag|].
        intros j Hj. rewrite lookup_ge_None_2; [done|].
        rewrite length_app. cbn. lia.
      * intros [Hi Hlast]. f_equal.
        destruct (decide (i = length l)) as [|Hi']; [done|]. exfalso.
        assert (i < length l).
        { apply lookup_lt_Some in Hi. rewrite length_app in Hi. cbn in Hi. lia. }
        apply (Hlast (length l)); [done|].
        by rewrite lookup_app_r, Nat.sub_diag.
    + rewrite lookup_insert_ne by done. rewrite IH. split.
      * intros [Hi Hlast]. split; [by apply lookup_app_l_Some|].
        intros j Hj. destruct (decide (j < length l)) as [Hlt|Hge].
        -- rewrite lookup_app_l by done. by apply Hlast.
        -- rewrite lookup_app_r by lia.
           destruct (j - length l) as [|n]; cbn; [congruence|done].
      * intros [Hi Hlast].
        assert (i < length l) as Hlt.
        { destruct (decide (i < length l)) as [|Hge]; [done|]. exfalso.
          rewrite lookup_app_r in Hi by lia.
          destruct (i - length l) as [|n]; cbn in Hi; [congruence|done]. }
        rewrite lookup_app_l in Hi by done. split; [done|].
        intros j Hj Hl. apply (Hlast j Hj). by apply lookup_app_l_Some.
Qed.

Lemma enumerate_dict_elem_of (l : list cell) (x : cell) :
  x ∈ l → ∃ i, enumerate_dict l !! x = Some i ∧ l !! i = Some x.
Proof.
  induction l as [|y l IH] using rev_ind; [by intros ?%elem_of_nil|].
  rewrite enumerate_dict_snoc. intros Hx. destruct (decide (x = y)) as [->|Hne].
  - exists (length l). rewrite lookup_insert_eq.
    by rewrite lookup_app_r, Nat.sub_diag.
  - apply elem_of_app in Hx as [Hx|Hx%list_elem_of_singleton]; [|done].
    destruct (IH Hx) as (i & Hi & Hl). exists i.
    rewrite lookup_insert_ne by done. split; [done|]. by apply lookup_app_l_Some.
Qed.

(** The two label columns of a links table hold cells of the grouped
    columns of the table it was built from. *)
Lemma df_links_labels df from to col x :
  from ≠ to →
  (x ∈ column (sankey.df_links df from to col) from → x ∈ column df from) ∧
  (x ∈ column (sankey.df_links df from to col) to → x ∈ column df to).
Proof.
  intros Hne. unfold sankey.df_links, column, groupby_agg, cell_of, get_loc.
  cbn [columns rows app fmap list_fmap fst snd].
  assert (list_find (λ c, c = from) [from; to; col] = Some (0, from)) as ->.
  { cbn. by rewrite decide_True. }
  assert (list_find (λ c, c = to) [from; to; col] = Some (1, to)) as ->.
  { cbn. rewrite decide_False by done. by rewrite decide_True. }
  cbn [fmap option_fmap option_map fst].
  rewrite <- !list_fmap_compose.
  split; intros ([k g] & -> & [-> Hg]%elem_of_groupby)%list_elem_of_fmap.
  all: destruct (keyed df [from; to] k) as [|r g] eqn:Hk; [done|].
  all: assert (r ∈ keyed df [from; to] k) as Hr by (rewrite Hk; left).
  all: apply list_elem_of_filter in Hr as [[-> _]%group_key_Some Hr].
  all: cbn; apply list_elem_of_fmap; by exists r.
Qed.

End sankey_facts.


Section sankey_edges.

Lemma labels_resolve (labels : list cell) (s : list cell) :
  (∀ x, x ∈ s → x ∈ labels) →
  Forall2 (resolves labels) (series_map (enumerate_dict labels) s) s.
Proof.
  intros Hin. unfold series_map. apply Forall2_fmap_l, Forall_Forall2_diag.
  apply Forall_forall. intros x Hx.
  destruct (enumerate_dict_elem_of labels x (Hin x Hx)) as (i & Hi & Hl).
  by exists i.
Qed.

Lemma elem_of_labels df x :
  x ∈ sankey.labels df ↔
  x ∈ column df "campaign_id" ∨ x ∈ column df "promo_type" ∨ x ∈ column df "category".
Proof. unfold sankey.labels. cbn zeta. by rewrite !elem_of_app, !elem_of_unique. Qed.

End sankey_edges.

(** C4, as the code has it.  The node list is the distinct values of
    level 1, then those of level 2, then those of level 3: a value of two
    levels is listed once per level.  The index dictionary gives every
    label one index, the position of its last occurrence in the node list,
    and every source and target index of an edge is a position of the node
    list that holds the label at that end of the edge. *)
Theorem flow_graph_nodes_and_edges (df_sankey : DataFrame) (col : string) :
  (∃ level1 level2 level3,
     sankey.labels df_sankey = level1 ++ level2 ++ level3 ∧
     NoDup level1 ∧ NoDup level2 ∧ NoDup level3 ∧
     (∀ x, x ∈ level1 ↔ x ∈ column df_sankey "campaign_id") ∧
     (∀ x, x ∈ level2 ↔ x ∈ column df_sankey "promo_type") ∧
     (∀ x, x ∈ level3 ↔ x ∈ column df_sankey "category")) ∧
  (∀ x i, sankey.label_indices df_sankey !! x = Some i ↔
          sankey.labels df_sankey !! i = Some x ∧
          ∀ j, i < j → sankey.labels df_sankey !! j ≠ Some x) ∧
  Forall2 (resolves (sankey.labels df_sankey))
          (sankey.sources df_sankey col) (source_labels df_sankey col) ∧
  Forall2 (resolves (sankey.labels df_sankey))
          (sankey.targets df_sankey col) (target_labels df_sankey col).
Proof.
  split; [|split; [|split]].
  - eexists _, _, _. split; [reflexivity|].
    repeat split; try apply unique_NoDup; by apply elem_of_unique.
  - intros x i. apply enumerate_dict_lookup.
  - unfold sankey.sources, source_labels, sankey.label_indices.
    apply Forall2_app; apply labels_resolve; intros x Hx; apply elem_of_labels.
    + left. by apply (df_links_labels df_sankey "campaign_id" "promo_type" col x).
    + right; left. by apply (df_links_labels df_sankey "promo_type" "category" col x).
  - unfold sankey.targets, target_labels, sankey.label_indices.
    apply Forall2_app; apply labels_resolve; intros x Hx; apply elem_of_labels.
    + right; left. by apply (df_links_labels df_sankey "campaign_id" "promo_type" col x).
    + right; right. by apply (df_links_labels df_sankey "promo_type" "category" col x).
Qed.

(** C4 as stated fails: with "Clearance" both a promotion type and a
    category the node list holds it twice, so it is not the union of the
    three levels with each value listed once. *)
Lemma flow_graph_nodes_not_a_union :
  sankey.labels sample.clearance = [ Str "CAMP_EOS"; Str "Clearance"; Str "Clearance" ] ∧
  ordered_union (column sample.clearance "campaign_id")
                (column sample.clearance "promo_type")
                (column sample.clearance "category")
  = [ Str "CAMP_EOS"; Str "Clearance" ] ∧
  sankey.labels sample.clearance
  ≠ ordered_union (column sample.clearance "campaign_id")
                  (column sample.clearance "promo_type")
                  (column sample.clearance "category").
Proof.
  split; [by vm_compute|]. split; [by vm_compute|].
  by_evaluation.
Qed.


(** ** The KPI summary *)

Section kpi_facts.

(** The cards show the percentage change, and 0 for a zero base. *)
Lemma percent_guarded_eq (before after : Qc) :
  dashboard.percent_guarded before after
  = if decide (before = Q2Qc 0) then Fin (Q2Qc 0)
    else Fin ((after - before) / before * Q2Qc 100)%Qc.
Proof.
  unfold dashboard.percent_guarded, nonzero, np_truediv.
  case_bool_decide; case_decide; done.
Qed.

(** The recomputed percentage is the same quotient without the guard:
    on a zero base it is never a number. *)
Lemma percent_zero_before (after : Qc) :
  dashboard.percent (Q2Qc 0) after
  = if decide (Q2Qc 0 < after)%Qc then PosInf
    else if decide (after < Q2Qc 0)%Qc then NegInf
    else NotANumber.
Proof.
  unfold dashboard.percent, np_truediv. rewrite decide_True by done.
  assert (after - Q2Qc 0 = after)%Qc as -> by ring.
  repeat case_decide; done.
Qed.

Lemma percent_nonzero_before (before after : Qc) :
  before ≠ Q2Qc 0 →
  dashboard.percent before after = Fin ((after - before) / before * Q2Qc 100)%Qc.
Proof.
  intros Hne. unfold dashboard.percent, np_truediv. by rewrite decide_False.
Qed.

End kpi_facts.

(** C1, on a launch table whose revenue before the promotion sums to zero:
    the card shows the guarded 0, but lines 203-208 recompute both
    percentages without the guard, and the page variables and the chart
    carry infinity. *)
Theorem kpi_zero_before_is_infinite :
  data_loader.apply_global_filters (Some sample.launch) sample.no_selection
  = Some sample.launch ∧
  dashboard.kpi_summary sample.launch sample.no_selection
  = ( [ metric_card "Revenue Before" (Fin (Q2Qc 0));
        metric_card "Revenue After" (Fin (Q2Qc 50));
        metric_card "Incremental Revenue %" (Fin (Q2Qc 0));
        plotly_chart (KpiBars [Q2Qc 0; Q2Qc 50] "Revenue (₹)"
                              "Incremental Revenue %" PosInf) ],
      Py.Ok {| dashboard.total_before := Q2Qc 0;
               dashboard.total_after := Q2Qc 50;
               dashboard.ir_percent := PosInf;
               dashboard.total_units_before := Q2Qc 0;
               dashboard.total_units_after := Q2Qc 5;
               dashboard.isu_percent := PosInf |} ).
Proof. split; by_evaluation. Qed.


(** ** Missing columns, empty tables, unknown aliases *)

Section error_facts.

Lemma series_max_nil : series_max [] = NaN.
Proof. reflexivity. Qed.

(** The Sankey block on a table with the required columns and no row:
    the slider bound is [int] of a missing maximum. *)
Lemma sankey_no_rows slider df metric :
  sankey.required_cols ⊆ list_to_set (columns df) → rows df = [] →
  sankey.run slider df metric
  = ([], Py.Raise (Py.Exn "ValueError" "cannot convert float NaN to integer")).
Proof.
  intros Hsub Hrows. unfold sankey.run.
  rewrite bool_decide_eq_true_2 by done.
  unfold column. by rewrite Hrows.
Qed.

Lemma named_set_repr text s : named [Py.Text text; Py.SetRepr s] = s.
Proof.
  unfold named. cbn. by rewrite (left_id_L ∅ (∪)), (right_id_L ∅ (∪)).
Qed.

Lemma named_list_repr text (s : gset string) (l : list string) :
  l ≡ₚ elements s → named [Py.Text text; Py.ListRepr l] = s.
Proof.
  intros Hl. unfold named. cbn. rewrite Hl, list_to_set_elements_L.
  by rewrite (left_id_L ∅ (∪)), (right_id_L ∅ (∪)).
Qed.

Lemma missing_columns_subseteq required df :
  missing_columns required df ≠ ∅ → ¬ required ⊆ list_to_set (columns df).
Proof.
  unfold missing_columns. intros Hne Hsub. apply Hne.
  apply set_eq. intros x. rewrite elem_of_difference, elem_of_empty.
  split; [|done]. intros [Hx Hnx]. apply Hnx, Hsub, Hx.
Qed.

(** The KPI summary indexes its columns without a check: with the
    Revenue focus, no category selected and no [revenue_before_promo]
    column, the page ends in a [KeyError] that names the column. *)
Lemma kpi_summary_missing_column df state :
  categories state = [] → kpi_focus state = "Revenue" →
  "revenue_before_promo" ∉ columns df →
  dashboard.kpi_summary df state = ([], Py.Raise (Py.Exn "KeyError" "revenue_before_promo")).
Proof.
  intros Hcat Hfocus Hcol. unfold dashboard.kpi_summary.
  assert (∃ scope, dashboard.scope_df df state = Py.Ok scope
                   ∧ columns scope = columns df) as (scope & -> & Hscope).
  { unfold dashboard.scope_df. rewrite Hcat. cbn [truthy].
    eexists. split; [reflexivity|].
    destruct (selected_city state) as [c|]; [|done]. by destruct (_ && _). }
  rewrite Hfocus. cbn [mbind page_mbind page_bind lift].
  unfold dashboard.kpi_cards. rewrite decide_True by done.
  unfold dashboard.total, getitem. rewrite Hscope.
  by rewrite (decide_False (P := "revenue_before_promo" ∈ columns df)) by done.
Qed.

Lemma alias_file_None alias :
  alias ∉ (fst <$> data_loader.CSV_ALIASES) → data_loader.alias_file alias = None.
Proof.
  intros Hnot. unfold data_loader.alias_file.
  destruct (list_find _ _) as [[i [a f]]|] eqn:Hfind; [|done].
  apply list_find_Some in Hfind as (Hi & Ha & _). cbn in Ha. subst a.
  destruct Hnot. apply list_elem_of_fmap. exists (alias, f).
  split; [done|]. by eapply list_elem_of_lookup_2.
Qed.

End error_facts.

(** C3, on the table a selection that matches no event leaves: it has the
    five required columns and no row, and the Sankey block ends in a
    [ValueError] before any node or edge is built. *)
Theorem sankey_empty_table_raises (slider : Z → Z → Py.result Z) :
  data_loader.apply_global_filters (Some sample.clean_all) sample.disjoint
  = Some sample.no_match ∧
  sankey.run slider sample.no_match "Revenue"
  = ([], Py.Raise (Py.Exn "ValueError" "cannot convert float NaN to integer")).
Proof.
  split; [by_evaluation|].
  apply sankey_no_rows; [|done].
  by_evaluation.
Qed.

(** C2, as the code has it.  For every table and every aggregation of the
    Advanced Analytics page (the before/after KPI pair, the rollup, the
    flow graph), when a required column is absent the block raises nothing
    and draws nothing: its only call is a warning, which names exactly the
    required columns that are absent. *)
Theorem missing_column_warning (a : aggregation) (df : DataFrame) :
  missing_columns (required_columns a) df ≠ ∅ →
  ∃ msg, run_aggregation a df = ([st_warning msg], Py.Ok ()) ∧
         named msg = missing_columns (required_columns a) df.
Proof.
  intros Hmiss. destruct a as [kpi_option|state top_n|slider metric]; cbn in *.
  - unfold facet.run. rewrite bool_decide_eq_true_2 by done.
    eexists. split; [reflexivity|]. apply named_set_repr.
  - unfold sunburst.run. rewrite bool_decide_eq_true_2 by done.
    eexists. split; [reflexivity|]. apply named_list_repr.
    apply merge_sort_Permutation.
  - unfold sankey.run.
    rewrite bool_decide_eq_false_2 by (by apply missing_columns_subseteq).
    eexists. split; [reflexivity|]. apply named_set_repr.
Qed.

Lemma missing_column_warning_witness :
  ∃ msg, run_aggregation (KpiPair "Revenue") sample.no_revenue_before
         = ([st_warning msg], Py.Ok ()) ∧
         named msg = missing_columns (required_columns (KpiPair "Revenue"))
                                     sample.no_revenue_before.
Proof.
  apply (missing_column_warning (KpiPair "Revenue") sample.no_revenue_before).
  by_evaluation.
Defined.

(** C2 as stated fails: on a table without [revenue_before_promo] the KPI
    pair of the Advanced Analytics page warns and raises nothing, and the
    KPI summary of the dashboard raises a [KeyError]; neither raises a
    [MissingColumnError]. *)
Lemma missing_column_not_raised :
  facet.run sample.no_revenue_before "Revenue"
  = ([st_warning [Py.Text "Missing columns: "; Py.SetRepr {[ "revenue_before_promo" ]}]],
     Py.Ok ()) ∧
  dashboard.kpi_summary sample.no_revenue_before sample.no_selection
  = ([], Py.Raise (Py.Exn "KeyError" "revenue_before_promo")) ∧
  ¬ raises (facet.run sample.no_revenue_before "Revenue") "MissingColumnError" ∧
  ¬ raises (dashboard.kpi_summary sample.no_revenue_before sample.no_selection)
           "MissingColumnError".
Proof.
  assert (facet.run sample.no_revenue_before "Revenue"
          = ([st_warning [Py.Text "Missing columns: ";
                          Py.SetRepr {[ "revenue_before_promo" ]}]], Py.Ok ())) as Hf
    by by_evaluation.
  assert (dashboard.kpi_summary sample.no_revenue_before sample.no_selection
          = ([], Py.Raise (Py.Exn "KeyError" "revenue_before_promo"))) as Hk
    by by_evaluation.
  split; [exact Hf|]. split; [exact Hk|]. unfold raises. rewrite Hf, Hk.
  split; intros [arg Harg]; discriminate Harg.
Qed.

(** C9, as the code has it.  For an alias outside the registry the loader
    raises a [KeyError] whose message is "Unknown dataset alias: " followed
    by the alias; it makes no Streamlit call and returns no table. *)
Theorem load_csv_unknown_alias (e : data_loader.env) (alias : string) :
  alias ∉ (fst <$> data_loader.CSV_ALIASES) →
  data_loader.load_csv e alias
  = ([], Py.Raise (Py.Exn "KeyError" ("Unknown dataset alias: " +:+ alias))).
Proof.
  intros Hnot. unfold data_loader.load_csv. by rewrite alias_file_None.
Qed.

Lemma load_csv_unknown_alias_witness :
  data_loader.load_csv sample.no_files "sales_2024"
  = ([], Py.Raise (Py.Exn "KeyError" ("Unknown dataset alias: " +:+ "sales_2024"))).
Proof.
  apply (load_csv_unknown_alias sample.no_files "sales_2024").
  by_evaluation.
Defined.

(** C9 as stated fails: the exception for an alias outside the registry is
    a [KeyError], not a [ConfigurationError]. *)
Lemma load_csv_unknown_alias_not_configuration_error :
  ("sales_2024" ∉ fst <$> data_loader.CSV_ALIASES) ∧
  (data_loader.load_csv sample.no_files "sales_2024").2
  = Py.Raise (Py.Exn "KeyError" "Unknown dataset alias: sales_2024") ∧
  ¬ raises (data_loader.load_csv sample.no_files "sales_2024") "ConfigurationError".
Proof.
  split; [by_evaluation|].
  assert ((data_loader.load_csv sample.no_files "sales_2024").2
          = Py.Raise (Py.Exn "KeyError" "Unknown dataset alias: sales_2024")) as Hl
    by reflexivity.
  split; [exact Hl|]. unfold raises. rewrite Hl. intros [arg Harg]. discriminate Harg.
Qed.


(** ** The blocks on well-formed input *)

Section block_facts.

(** A sum over cells that are all present is the sum of their values. *)
Lemma series_sum_present (qs : list Qc) :
  series_sum (Num <$> qs) = foldr Qcplus (Q2Qc 0) qs.
Proof.
  unfold series_sum.
  assert (∀ acc, foldl (λ acc c, match numeric c with
                                 | Some q => (acc + q)%Qc
                                 | None => acc
                                 end) acc (Num <$> qs)
                 = (acc + foldr Qcplus (Q2Qc 0) qs)%Qc) as Hgen.
  { induction qs as [|q qs IH]; intros acc; cbn.
    - by rewrite Qcplus_0_r.
    - rewrite IH. by rewrite Qcplus_assoc. }
  rewrite Hgen. by rewrite Qcplus_0_l.
Qed.

(** A mean over cells that are all present is their sum over their
    number. *)
Lemma series_mean_present (q : Qc) (qs : list Qc) :
  series_mean (Num <$> q :: qs)
  = Num (foldr Qcplus (Q2Qc 0) (q :: qs)
         / Q2Qc (inject_Z (Z.of_nat (length (q :: qs)))))%Qc.
Proof.
  unfold series_mean. rewrite series_sum_present.
  assert (omap numeric (Num <$> q :: qs) = q :: qs) as ->; [|done].
  generalize (q :: qs). intros l. induction l as [|a l IH]; [done|].
  cbn. cbn in IH. by rewrite IH.
Qed.

(** With nothing selected the filter returns the table as it is. *)
Lemma apply_global_filters_no_selection df state :
  campaigns state = [] → categories state = [] → products state = [] →
  promo_types state = [] → cities state = [] →
  data_loader.apply_global_filters (Some df) state = Some df.
Proof.
  intros H1 H2 H3 H4 H5. rewrite apply_global_filters_eq.
  destruct (empty df); [done|].
  assert (active (columns df) state = []) as ->; [|done].
  unfold active, data_loader.filter_map. cbn [omap list_omap fst snd].
  change (state_get state "campaigns") with (campaigns state).
  change (state_get state "categories") with (categories state).
  change (state_get state "products") with (products state).
  change (state_get state "promo_types") with (promo_types state).
  change (state_get state "cities") with (cities state).
  rewrite H1, H2, H3, H4, H5. cbn [truthy]. by rewrite !andb_false_r.
Qed.

(** The Sankey block once the slider has returned. *)
Lemma sankey_run_ok slider df metric (max_value min_value : Z) :
  sankey.required_cols ⊆ list_to_set (columns df) →
  int (series_max (column df (sankey.value_col metric))) = Py.Ok max_value →
  slider 0%Z max_value = Py.Ok min_value →
  sankey.run slider df metric
  = ([plotly_chart
        (sankey.fig_sankey
           (boolean_index df (series_ge (column df (sankey.value_col metric)) min_value))
           (sankey.value_col metric))],
     Py.Ok ()).
Proof.
  intros Hsub Hmax Hslider. unfold sankey.run.
  rewrite bool_decide_eq_true_2 by done. cbn zeta. rewrite Hmax.
  cbn [mbind page_mbind page_bind lift]. rewrite Hslider. done.
Qed.

(** The Sunburst block on a table that has its columns. *)
Lemma sunburst_run_ok df state top_n :
  missing_columns sunburst.required_cols df = ∅ →
  sunburst.run df state top_n
  = ([plotly_chart
        (Sunburst
           (sunburst.prune
              (sunburst.agg (sunburst.df_sb df state)
                            (sunburst.value_col (kpi_focus state)))
              (sunburst.value_col (kpi_focus state)) top_n)
           sunburst.path (sunburst.value_col (kpi_focus state))
           "incremental_margin_pct")],
     Py.Ok ()).
Proof.
  intros Hmiss. unfold sunburst.run. cbn zeta.
  by rewrite bool_decide_eq_false_2 by (by rewrite Hmiss; intros []).
Qed.

(** A known alias whose file is absent: a warning and an empty table. *)
Lemma load_csv_missing_file e alias filename :
  data_loader.alias_file alias = Some filename →
  data_loader.path_exists e (data_loader.path_join (data_loader.DATA_DIR e) filename)
  = false →
  data_loader.load_csv e alias
  = ([st_warning [Py.Text "Missing data file: "; Py.Text filename;
                  Py.Text " under "; Py.Text (data_loader.DATA_DIR e)]],
     Py.Ok DataFrame_new).
Proof.
  intros Hfile Hpath. unfold data_loader.load_csv. rewrite Hfile. cbn zeta.
  by rewrite Hpath.
Qed.

(** One row with before 100 and after 150: an increment of 50 percent, on
    both paths. *)
Lemma percent_100_150 :
  dashboard.percent_guarded (Q2Qc 100) (Q2Qc 150) = Fin (Q2Qc 50) ∧
  dashboard.percent (Q2Qc 100) (Q2Qc 150) = Fin (Q2Qc 50).
Proof. split; by_evaluation. Qed.

End block_facts.


(** * Further properties *)

(** ** The filter engine *)

Section filter_more.
Import data_loader.

Lemma keeps_passes df state r : keeps df state r = true ↔ passes df state r.
Proof.
  unfold keeps, active, passes.
  induction filter_map as [|item items IH]; cbn [omap list_omap forallb].
  - split; [constructor|done].
  - rewrite Forall_cons, <- IH.
    destruct (bool_decide (item.1 ∈ columns df)) eqn:Hcol; cbn [andb].
    + apply bool_decide_eq_true in Hcol.
      destruct (state_get state item.2) as [|v vs] eqn:Hsel; cbn [truthy forallb fst snd].
      * split; [|tauto]. intros ->. split; [done|done].
      * rewrite andb_true_iff, bool_decide_eq_true. split.
        -- intros [Hin ->]. split; [|done]. by intros _ _.
        -- intros [Hin ->]. split; [|done]. by apply Hin.
    + apply bool_decide_eq_false in Hcol. split; [|tauto].
      intros ->. split; [|done]. by intros ?.
Qed.

Lemma filter_all {A} (P : A → Prop) `{!∀ x, Decision (P x)} (l : list A) :
  (∀ x, x ∈ l → P x) → filter P l = l.
Proof.
  intros Hall. induction l as [|x l IH]; [done|].
  rewrite filter_cons, decide_True by (apply Hall; left).
  rewrite IH; [done|]. intros y Hy. apply Hall. by right.
Qed.

(** The result in one form for every table: the header is kept, and the
    rows are those that pass. *)
Lemma apply_global_filters_passes df state :
  apply_global_filters (Some df) state
  = Some {| columns := columns df; rows := filter (passes df state) (rows df) |}.
Proof.
  rewrite apply_global_filters_eq. f_equal.
  destruct (empty df) eqn:Hempty.
  - destruct df as [cols rs]. cbn [columns rows]. f_equal.
    unfold empty in Hempty. cbn [columns rows] in Hempty.
    apply orb_prop in Hempty as [Hc|Hr].
    + apply bool_decide_eq_true in Hc. subst cols. symmetry.
      apply filter_all. intros r _. unfold passes. cbn [columns].
      apply Forall_forall. intros item _ Hin. by apply elem_of_nil in Hin.
    + apply bool_decide_eq_true in Hr. by subst rs.
  - destruct (truthy (active (columns df) state)) eqn:Hact.
    + f_equal. apply list_filter_iff. intros r.
      rewrite <- keeps_passes. by destruct (keeps df state r).
    + destruct df as [cols rs]. cbn [columns rows]. f_equal. symmetry.
      apply filter_all. intros r _. apply keeps_passes. unfold keeps.
      cbn [columns]. cbn [columns] in Hact. by rewrite (truthy_nil _ Hact).
Qed.

Lemma passes_same_header df df' state r :
  columns df' = columns df → passes df' state r ↔ passes df state r.
Proof. intros Hc. unfold passes, cell_of, get_loc. by rewrite Hc. Qed.

End filter_more.

(** X1. The filter keeps the header of the table and exactly the rows that
    pass every active selection, in their order: a selection is active
    when the table has its column and the selection is not empty, the
    selections combine with "and", the values of one selection with
    "or". *)
Theorem filter_keeps_passing_rows (D : DataFrame) (S : State) :
  ∃ D', data_loader.apply_global_filters (Some D) S = Some D' ∧
        columns D' = columns D ∧
        rows D' = filter (passes D S) (rows D).
Proof. rewrite apply_global_filters_passes. by eexists. Qed.

(** X2. Filtering by one selection state and then by another gives the
    same table in either order. *)
Theorem filters_commute (D : option DataFrame) (S1 S2 : State) :
  data_loader.apply_global_filters (data_loader.apply_global_filters D S1) S2
  = data_loader.apply_global_filters (data_loader.apply_global_filters D S2) S1.
Proof.
  destruct D as [df|]; [|done].
  rewrite !apply_global_filters_passes. cbn [columns rows]. do 2 f_equal.
  rewrite !list_filter_filter. apply list_filter_iff. intros r.
  pose proof (passes_same_header df
                {| columns := columns df; rows := filter (passes df S1) (rows df) |}
                S2 r eq_refl) as H12.
  pose proof (passes_same_header df
                {| columns := columns df; rows := filter (passes df S2) (rows df) |}
                S1 r eq_refl) as H21.
  tauto.
Qed.


(** ** The KPI summary of the dashboard *)

Section dashboard_more.

Lemma city_scope_columns df state : columns (city_scope df state) = columns df.
Proof.
  unfold city_scope. destruct (selected_city state); [|done]. by destruct (_ && _).
Qed.

Lemma city_scope_rows df state r : r ∈ rows (city_scope df state) → r ∈ rows df.
Proof.
  unfold city_scope. destruct (selected_city state) as [c|]; [|done].
  destruct (_ && _); [|done]. unfold boolean_index, series_eq, column. cbn [rows].
  rewrite <- list_fmap_compose, compress_fmap. by intros [_ ?]%list_elem_of_filter.
Qed.

Lemma scope_df_city df state :
  dashboard.scope_df df state
  = if truthy (categories state) then
      match getitem (city_scope df state) "category" with
      | Py.Ok category =>
          Py.Ok (boolean_index (city_scope df state) (isin category (categories state)))
      | Py.Raise e => Py.Raise e
      end
    else Py.Ok (city_scope df state).
Proof. reflexivity. Qed.

Lemma percent_guarded_finite before after :
  finite (dashboard.percent_guarded before after).
Proof. rewrite percent_guarded_eq. case_decide; by eexists. Qed.

End dashboard_more.

(** X3. The category filter of the KPI summary changes nothing on a table
    that came out of the global filter: when the unfiltered table has a
    category column, the scope of the KPI summary is the city drill-down
    of the filtered table, with no row removed by the second category
    test. *)
Theorem category_filter_is_redundant (D F : DataFrame) (S : State) :
  "category" ∈ columns D →
  data_loader.apply_global_filters (Some D) S = Some F →
  dashboard.scope_df F S = Py.Ok (city_scope F S).
Proof.
  intros Hcat. rewrite apply_global_filters_passes. intros [= <-].
  rewrite scope_df_city. destruct (truthy (categories S)) eqn:Hsel; [|done].
  set (F := {| columns := columns D; rows := filter (passes D S) (rows D) |}).
  unfold getitem. rewrite city_scope_columns. cbn [columns F].
  rewrite decide_True by done. f_equal.
  unfold boolean_index, isin, column. rewrite <- list_fmap_compose, compress_fmap.
  rewrite filter_all; [generalize (city_scope F S); by intros []|].
  intros r Hr%city_scope_rows. unfold compose. apply bool_decide_pack.
  unfold cell_of, get_loc. rewrite city_scope_columns. cbn [columns rows F] in *.
  apply list_elem_of_filter in Hr as [Hpass _]. unfold passes in Hpass.
  rewrite Forall_forall in Hpass.
  apply (Hpass ("category", "categories")); [by_evaluation|done|].
  cbn [snd]. change (state_get S "categories") with (categories S).
  intros Hnil. by rewrite Hnil in Hsel.
Qed.

Lemma category_filter_is_redundant_witness :
  dashboard.scope_df
    {| columns := sample.header;
       rows := [ sample.row "CAMP_DIW_01" "BOGOF" "Grocery" "P01" "Delhi" 100 150 10 15 25 40;
                 sample.row "CAMP_SAN_01" "BOGOF" "Grocery" "P01" "Pune" 300 420 30 42 72 35;
                 sample.row "CAMP_SAN_01" "Cashback" "Grocery" "P03" "Delhi" 50 90 5 9 14 20 ] |}
    sample.grocery_in_delhi
  = Py.Ok (city_scope
             {| columns := sample.header;
                rows := [ sample.row "CAMP_DIW_01" "BOGOF" "Grocery" "P01" "Delhi" 100 150 10 15 25 40;
                          sample.row "CAMP_SAN_01" "BOGOF" "Grocery" "P01" "Pune" 300 420 30 42 72 35;
                          sample.row "CAMP_SAN_01" "Cashback" "Grocery" "P03" "Delhi" 50 90 5 9 14 20 ] |}
             sample.grocery_in_delhi).
Proof.
  apply (category_filter_is_redundant sample.clean_all _ sample.grocery_in_delhi).
  - by_evaluation.
  - by_evaluation.
Defined.

(** X4. Every value shown on a KPI card is a finite number: the guarded
    percentage is never infinite and never not-a-number. *)
Theorem kpi_cards_are_finite (scope : DataFrame) (focus label : string) (v : npfloat) :
  metric_card label v ∈ (dashboard.kpi_cards scope focus).1 → finite v.
Proof.
  unfold dashboard.kpi_cards, dashboard.total, getitem.
  pose proof percent_guarded_finite as Hfin.
  repeat case_decide; cbn.
  all: rewrite ?elem_of_cons, ?elem_of_nil.
  all: intros Hin; repeat destruct Hin as [Hin|Hin]; try done.
  all: injection Hin as _ ->; first [by eexists|apply Hfin].
Qed.

Lemma kpi_cards_are_finite_witness :
  finite (dashboard.percent_guarded (Q2Qc 0) (Q2Qc 50)).
Proof.
  apply (kpi_cards_are_finite sample.launch "Revenue" "Incremental Revenue %").
  apply list_elem_of_In. vm_compute. right. right. left. reflexivity.
Defined.

(** X5. The KPI summary needs the columns of both metric families whatever
    the focus: with the Revenue focus, the revenue columns present and
    [quantity_sold (before_promo)] absent, the three revenue cards are
    shown and the page then ends in a [KeyError] naming the absent
    column. *)
Theorem kpi_summary_needs_both_families (df scope : DataFrame) (state : State) :
  dashboard.scope_df df state = Py.Ok scope →
  kpi_focus state = "Revenue" →
  "revenue_before_promo" ∈ columns scope →
  "revenue_after_promo" ∈ columns scope →
  "quantity_sold (before_promo)" ∉ columns scope →
  dashboard.kpi_summary df state
  = ( [ metric_card "Revenue Before"
          (Fin (series_sum (column scope "revenue_before_promo")));
        metric_card "Revenue After"
          (Fin (series_sum (column scope "revenue_after_promo")));
        metric_card "Incremental Revenue %"
          (dashboard.percent_guarded (series_sum (column scope "revenue_before_promo"))
                                     (series_sum (column scope "revenue_after_promo"))) ],
      Py.Raise (Py.Exn "KeyError" "quantity_sold (before_promo)") ).
Proof.
  intros Hscope Hfocus Hb Ha Hu. unfold dashboard.kpi_summary.
  rewrite Hscope, Hfocus. cbn [mbind page_mbind page_bind lift].
  unfold dashboard.kpi_cards, dashboard.recompute, dashboard.total, getitem.
  rewrite (decide_True (P := "Revenue" = "Revenue")) by done.
  rewrite !(decide_True (P := "revenue_before_promo" ∈ columns scope)) by done.
  rewrite !(decide_True (P := "revenue_after_promo" ∈ columns scope)) by done.
  rewrite !(decide_False (P := "quantity_sold (before_promo)" ∈ columns scope)) by done.
  reflexivity.
Qed.

Lemma kpi_summary_needs_both_families_witness :
  dashboard.kpi_summary sample.revenue_only sample.no_selection
  = ( [ metric_card "Revenue Before"
          (Fin (series_sum (column sample.revenue_only "revenue_before_promo")));
        metric_card "Revenue After"
          (Fin (series_sum (column sample.revenue_only "revenue_after_promo")));
        metric_card "Incremental Revenue %"
          (dashboard.percent_guarded
             (series_sum (column sample.revenue_only "revenue_before_promo"))
             (series_sum (column sample.revenue_only "revenue_after_promo"))) ],
      Py.Raise (Py.Exn "KeyError" "quantity_sold (before_promo)") ).
Proof.
  apply (kpi_summary_needs_both_families sample.revenue_only sample.revenue_only
           sample.no_selection).
  - reflexivity.
  - reflexivity.
  - by_evaluation.
  - by_evaluation.
  - by_evaluation.
Defined.

(** X6. The recomputed percentage of lines 205 and 208 equals the guarded
    percentage of the cards exactly when the total before the promotion is
    not zero. *)
Theorem percent_agrees_off_zero (before after : Qc) :
  dashboard.percent before after = dashboard.percent_guarded before after
  ↔ before ≠ Q2Qc 0.
Proof.
  rewrite percent_guarded_eq. split.
  - intros Heq ->. rewrite percent_zero_before in Heq.
    rewrite (decide_True (P := Q2Qc 0 = Q2Qc 0)) in Heq by done.
    by repeat case_decide.
  - intros Hne. rewrite decide_False by done. by apply percent_nonzero_before.
Qed.


(** ** The dataset loader *)

Section loader_more.
Import data_loader.

Lemma alias_file_Some alias :
  alias ∈ fst <$> CSV_ALIASES → ∃ filename, alias_file alias = Some filename.
Proof.
  intros ([a f] & -> & Hin)%list_elem_of_fmap. unfold alias_file.
  destruct (list_find (λ p : string * string, p.1 = (a, f).1) CSV_ALIASES)
    as [[i [a' f']]|] eqn:Hfind; [by eexists|].
  apply list_find_None in Hfind. rewrite Forall_forall in Hfind.
  by destruct (Hfind (a, f) Hin).
Qed.

Lemma alias_file_elem_of alias filename :
  (alias, filename) ∈ CSV_ALIASES → alias_file alias = Some filename.
Proof.
  unfold CSV_ALIASES. rewrite !elem_of_cons, elem_of_nil.
  intros H. repeat destruct H as [H|H]; try done; by injection H as -> ->.
Qed.

Lemma elem_of_rename_columns (cols : list string) (old new x : string) :
  x ∈ (λ c, if decide (c = old) then new else c) <$> cols
  ↔ (x = new ∧ old ∈ cols) ∨ (x ≠ old ∧ x ∈ cols).
Proof.
  rewrite list_elem_of_fmap. split.
  - intros (c & -> & Hc). case_decide; subst; tauto.
  - intros [[-> Hold]|[Hne Hx]].
    + exists old. by rewrite decide_True.
    + exists x. by rewrite decide_False.
Qed.

Lemma harmonize_with_snoc rm kv df :
  harmonize_with (rm ++ [kv]) df
  = (if bool_decide (kv.1 ∈ columns (harmonize_with rm df))
        && negb (bool_decide (kv.2 ∈ columns (harmonize_with rm df)))
     then rename (harmonize_with rm df) kv.1 kv.2
     else harmonize_with rm df).
Proof. unfold harmonize_with. by rewrite foldl_app. Qed.

(** With no old spelling among the new ones, every pair of the table is
    settled after the loop: the old spelling is gone or the new one is
    there. *)
Lemma harmonize_with_settled rm df :
  (∀ p q, p ∈ rm → q ∈ rm → p.1 ≠ q.2) →
  ∀ p, p ∈ rm → p.1 ∈ columns (harmonize_with rm df) →
       p.2 ∈ columns (harmonize_with rm df).
Proof.
  induction rm as [|kv rm IH] using rev_ind; intros Hdisj p Hp.
  { by apply elem_of_nil in Hp. }
  rewrite harmonize_with_snoc.
  assert (∀ p q, p ∈ rm → q ∈ rm → p.1 ≠ q.2) as Hdisj'.
  { intros p' q' Hp' Hq'. apply Hdisj; apply elem_of_app; by left. }
  specialize (IH Hdisj').
  assert (kv ∈ rm ++ [kv]) as Hkv by (apply elem_of_app; right; left).
  set (df' := harmonize_with rm df) in *.
  destruct (bool_decide (kv.1 ∈ columns df')) eqn:Hk; cbn [andb].
  - destruct (bool_decide (kv.2 ∈ columns df')) eqn:Hv; cbn [negb].
    + apply bool_decide_eq_true in Hv.
      apply elem_of_app in Hp as [Hp|Hp%list_elem_of_singleton]; [by apply IH|by subst].
    + unfold rename. cbn [columns]. rewrite !elem_of_rename_columns.
      intros [[Heq _]|[Hne Hin]].
      * by destruct (Hdisj p kv Hp Hkv).
      * apply elem_of_app in Hp as [Hp|Hp%list_elem_of_singleton]; [|by subst].
        right. split; [|by apply IH].
        intros Heq. apply (Hdisj kv p); [done|apply elem_of_app; by left|done].
  - apply bool_decide_eq_false in Hk.
    apply elem_of_app in Hp as [Hp|Hp%list_elem_of_singleton]; [by apply IH|by subst].
Qed.

Lemma harmonize_with_NoDup rm df :
  NoDup (columns df) → NoDup (columns (harmonize_with rm df)).
Proof.
  intros Hnd. induction rm as [|kv rm IH] using rev_ind; [done|].
  rewrite harmonize_with_snoc. set (df' := harmonize_with rm df) in *.
  destruct (bool_decide (kv.1 ∈ columns df')); cbn [andb]; [|done].
  destruct (bool_decide (kv.2 ∈ columns df')) eqn:Hv; cbn [negb]; [done|].
  apply bool_decide_eq_false in Hv. unfold rename. cbn [columns].
  apply NoDup_fmap_2_strong; [|done].
  intros x y Hx Hy Heq. repeat case_decide; subst; try done; by destruct Hv.
Qed.

Lemma harmonize_with_shape rm df :
  rows (harmonize_with rm df) = rows df ∧
  length (columns (harmonize_with rm df)) = length (columns df).
Proof.
  induction rm as [|kv rm [IHr IHc]] using rev_ind; [done|].
  rewrite harmonize_with_snoc. destruct (_ && _); [|done].
  unfold rename. cbn [rows columns]. by rewrite length_fmap.
Qed.

Lemma parse_dates_untouched e df :
  "start_date" ∉ columns df → "end_date" ∉ columns df → parse_dates e df = df.
Proof.
  intros Hs He. unfold parse_dates. cbn [foldl].
  rewrite (bool_decide_eq_false_2 _ Hs). by rewrite (bool_decide_eq_false_2 _ He).
Qed.

Lemma setitem_shape df col s :
  col ∈ columns df → length s = length (rows df) →
  columns (setitem df col s) = columns df ∧
  length (rows (setitem df col s)) = length (rows df).
Proof.
  intros Hcol Hlen. unfold setitem, get_loc.
  destruct (list_find (λ c, c = col) (columns df)) as [[i c]|] eqn:Hfind.
  - cbn. split; [done|]. rewrite length_zip_with. lia.
  - apply list_find_None in Hfind. rewrite Forall_forall in Hfind.
    by destruct (Hfind col Hcol).
Qed.

Lemma parse_dates_step_shape e d col :
  let d' := if bool_decide (col ∈ columns d)
            then setitem d col (to_datetime e <$> column d col) else d in
  columns d' = columns d ∧ length (rows d') = length (rows d).
Proof.
  cbn zeta. case_bool_decide as Hc; [|done].
  apply setitem_shape; [done|]. unfold column. by rewrite !length_fmap.
Qed.

Lemma parse_dates_shape e df :
  columns (parse_dates e df) = columns df ∧
  length (rows (parse_dates e df)) = length (rows df).
Proof.
  unfold parse_dates. cbn [foldl].
  pose proof (parse_dates_step_shape e df "start_date") as [Hc1 Hr1].
  cbn zeta in Hc1, Hr1.
  set (d1 := if bool_decide ("start_date" ∈ columns df)
             then setitem df "start_date" (to_datetime e <$> column df "start_date")
             else df) in *.
  pose proof (parse_dates_step_shape e d1 "end_date") as [Hc2 Hr2].
  cbn zeta in Hc2, Hr2. split; congruence.
Qed.

Lemma load_csv_known_alias_total e alias :
  alias ∈ fst <$> CSV_ALIASES → ∃ log df, load_csv e alias = (log, Py.Ok df).
Proof.
  intros [filename Hfile]%alias_file_Some. unfold load_csv.
  rewrite Hfile. cbn zeta. destruct (path_exists e _); cbn [negb].
  - destruct (read_csv e _) as [df|[cls exc]]; by eexists _, _.
  - by eexists _, _.
Qed.

End loader_more.

(** X7. For every alias of the registry the loader returns a table and
    raises nothing, whatever the file system and the parser do; it makes
    at most one Streamlit call. *)
Theorem load_csv_known_alias_returns (e : data_loader.env) (alias : string) :
  alias ∈ fst <$> data_loader.CSV_ALIASES →
  ∃ log df, data_loader.load_csv e alias = (log, Py.Ok df) ∧ length log ≤ 1.
Proof.
  intros [filename Hfile]%alias_file_Some. unfold data_loader.load_csv.
  rewrite Hfile. cbn zeta. destruct (data_loader.path_exists e _); cbn [negb].
  - destruct (data_loader.read_csv e _) as [df|[cls exc]].
    + eexists _, _. split; [reflexivity|]. cbn. lia.
    + eexists _, _. split; [reflexivity|]. cbn. lia.
  - eexists _, _. split; [reflexivity|]. cbn. lia.
Qed.

Lemma load_csv_known_alias_returns_witness :
  ∃ log df, data_loader.load_csv sample.unreadable "clean_all" = (log, Py.Ok df)
            ∧ length log ≤ 1.
Proof.
  apply (load_csv_known_alias_returns sample.unreadable "clean_all").
  by_evaluation.
Defined.

(** X8. A registered alias whose file is not in the data directory loads
    as the empty table, with one warning that names the file and the
    directory. *)
Theorem load_csv_absent_file (e : data_loader.env) (alias filename : string) :
  (alias, filename) ∈ data_loader.CSV_ALIASES →
  data_loader.path_exists e (data_loader.path_join (data_loader.DATA_DIR e) filename)
  = false →
  data_loader.load_csv e alias
  = ([st_warning [Py.Text "Missing data file: "; Py.Text filename;
                  Py.Text " under "; Py.Text (data_loader.DATA_DIR e)]],
     Py.Ok DataFrame_new).
Proof.
  intros Hfile%alias_file_elem_of Hpath. unfold data_loader.load_csv.
  rewrite Hfile. cbn zeta. by rewrite Hpath.
Qed.

Lemma load_csv_absent_file_witness :
  data_loader.load_csv sample.no_files "city_sales"
  = ([st_warning [Py.Text "Missing data file: "; Py.Text "city_sales.csv";
                  Py.Text " under "; Py.Text (data_loader.DATA_DIR sample.no_files)]],
     Py.Ok DataFrame_new).
Proof.
  apply (load_csv_absent_file sample.no_files "city_sales" "city_sales.csv").
  - by_evaluation.
  - reflexivity.
Defined.

(** X9. A registered alias whose file exists and cannot be read loads as
    the empty table, with one error message that carries the file name and
    the text of the exception; the exception does not leave the loader. *)
Theorem load_csv_unreadable_file (e : data_loader.env) (alias filename cls exc : string) :
  (alias, filename) ∈ data_loader.CSV_ALIASES →
  data_loader.path_exists e (data_loader.path_join (data_loader.DATA_DIR e) filename)
  = true →
  data_loader.read_csv e (data_loader.path_join (data_loader.DATA_DIR e) filename)
  = Py.Raise (Py.Exn cls exc) →
  data_loader.load_csv e alias
  = ([st_error [Py.Text "Failed reading "; Py.Text filename; Py.Text ": "; Py.Text exc]],
     Py.Ok DataFrame_new).
Proof.
  intros Hfile%alias_file_elem_of Hpath Hread. unfold data_loader.load_csv.
  rewrite Hfile. cbn zeta. by rewrite Hpath, Hread.
Qed.

Lemma load_csv_unreadable_file_witness :
  data_loader.load_csv sample.unreadable "event_data"
  = ([st_error [Py.Text "Failed reading "; Py.Text "fact_events.csv"; Py.Text ": ";
                Py.Text "Error tokenizing data"]],
     Py.Ok DataFrame_new).
Proof.
  apply (load_csv_unreadable_file sample.unreadable "event_data" "fact_events.csv"
           "ParserError" "Error tokenizing data").
  - by_evaluation.
  - reflexivity.
  - reflexivity.
Defined.

(** X10. A file that reads as a table loads with as many rows and as many
    columns as it was read with: parsing the dates, trimming the headers
    and renaming the old spellings add and drop nothing. *)
Theorem load_csv_keeps_shape (e : data_loader.env) (alias filename : string)
    (df : DataFrame) :
  (alias, filename) ∈ data_loader.CSV_ALIASES →
  data_loader.path_exists e (data_loader.path_join (data_loader.DATA_DIR e) filename)
  = true →
  data_loader.read_csv e (data_loader.path_join (data_loader.DATA_DIR e) filename)
  = Py.Ok df →
  ∃ loaded, data_loader.load_csv e alias = ([], Py.Ok loaded) ∧
            length (rows loaded) = length (rows df) ∧
            length (columns loaded) = length (columns df).
Proof.
  intros Hfile%alias_file_elem_of Hpath Hread. unfold data_loader.load_csv.
  rewrite Hfile. cbn zeta. rewrite Hpath, Hread. cbn [negb].
  eexists. split; [reflexivity|].
  change data_loader.harmonize with (harmonize_with data_loader.rename_map).
  destruct (harmonize_with_shape data_loader.rename_map
              (data_loader.strip_columns (data_loader.parse_dates e df))) as [-> ->].
  unfold data_loader.strip_columns. cbn [rows columns]. rewrite length_fmap.
  destruct (parse_dates_shape e df) as [-> ->]. done.
Qed.

Lemma load_csv_keeps_shape_witness :
  ∃ loaded, data_loader.load_csv sample.padded_headers "campaign_data" = ([], Py.Ok loaded) ∧
            length (rows loaded) = 1 ∧ length (columns loaded) = 3.
Proof.
  apply (load_csv_keeps_shape sample.padded_headers "campaign_data" "dim_campaigns.csv"
           {| columns := [ "campaign_id"; " start_date"; "end_date " ];
              rows := [ [ Str "CAMP_DIW_01"; Str "2023-11-10"; Str "2023-11-16" ] ] |}).
  - by_evaluation.
  - reflexivity.
  - reflexivity.
Defined.

(** X11. After the renaming loop every pair of the rename table is
    settled: a column with an old spelling is left only beside a column
    that already carries the new name. *)
Theorem harmonize_settles_spellings (df : DataFrame) (old new : string) :
  (old, new) ∈ data_loader.rename_map →
  old ∈ columns (data_loader.harmonize df) →
  new ∈ columns (data_loader.harmonize df).
Proof.
  intros Hin.
  assert (∀ p q : string * string,
            p ∈ data_loader.rename_map → q ∈ data_loader.rename_map → p.1 ≠ q.2)
    as Hdisj.
  { intros p q Hp Hq. revert Hp Hq. unfold data_loader.rename_map.
    rewrite !elem_of_cons, !elem_of_nil. intros Hp Hq.
    repeat destruct Hp as [Hp|Hp]; try done; subst p;
      repeat destruct Hq as [Hq|Hq]; try done; subst q; done. }
  exact (harmonize_with_settled data_loader.rename_map df Hdisj (old, new) Hin).
Qed.

Lemma harmonize_settles_spellings_witness :
  "ir%" ∈ columns (data_loader.harmonize {| columns := [ "IR%"; "ir%" ]; rows := [] |}).
Proof.
  apply (harmonize_settles_spellings {| columns := [ "IR%"; "ir%" ]; rows := [] |} "IR%").
  - by_evaluation.
  - by_evaluation.
Defined.

(** X12. The renaming loop creates no duplicate column: a table whose
    column names are distinct keeps distinct column names. *)
Theorem harmonize_keeps_columns_distinct (df : DataFrame) :
  NoDup (columns df) → NoDup (columns (data_loader.harmonize df)).
Proof. apply (harmonize_with_NoDup data_loader.rename_map). Qed.

Lemma harmonize_keeps_columns_distinct_witness :
  NoDup (columns (data_loader.harmonize
                    {| columns := [ "IR%"; "ISU%"; "isu%" ]; rows := [] |})).
Proof.
  apply (harmonize_keeps_columns_distinct
           {| columns := [ "IR%"; "ISU%"; "isu%" ]; rows := [] |}).
  by_evaluation.
Defined.

(** X13. The dates are parsed before the headers are trimmed: when no
    header is exactly [start_date] or [end_date] as read, no cell of the
    table is changed, even when trimming turns a padded header into one of
    the two names. *)
Theorem padded_date_headers_stay_unparsed (e : data_loader.env)
    (alias filename : string) (df : DataFrame) :
  (alias, filename) ∈ data_loader.CSV_ALIASES →
  data_loader.path_exists e (data_loader.path_join (data_loader.DATA_DIR e) filename)
  = true →
  data_loader.read_csv e (data_loader.path_join (data_loader.DATA_DIR e) filename)
  = Py.Ok df →
  "start_date" ∉ columns df → "end_date" ∉ columns df →
  ∃ loaded, data_loader.load_csv e alias = ([], Py.Ok loaded) ∧
            rows loaded = rows df ∧
            columns loaded
            = columns (data_loader.harmonize (data_loader.strip_columns df)).
Proof.
  intros Hfile%alias_file_elem_of Hpath Hread Hs He. unfold data_loader.load_csv.
  rewrite Hfile. cbn zeta. rewrite Hpath, Hread. cbn [negb].
  rewrite parse_dates_untouched by done.
  eexists. split; [reflexivity|]. split; [|done].
  change data_loader.harmonize with (harmonize_with data_loader.rename_map).
  by destruct (harmonize_with_shape data_loader.rename_map
                 (data_loader.strip_columns df)) as [-> _].
Qed.

Lemma padded_date_headers_stay_unparsed_witness :
  ∃ loaded, data_loader.load_csv sample.padded_headers "campaign_data" = ([], Py.Ok loaded) ∧
            rows loaded = [ [ Str "CAMP_DIW_01"; Str "2023-11-10"; Str "2023-11-16" ] ] ∧
            columns loaded
            = columns (data_loader.harmonize
                         (data_loader.strip_columns
                            {| columns := [ "campaign_id"; " start_date"; "end_date " ];
                               rows := [ [ Str "CAMP_DIW_01"; Str "2023-11-10";
                                           Str "2023-11-16" ] ] |})).
Proof.
  apply (padded_date_headers_stay_unparsed sample.padded_headers "campaign_data"
           "dim_campaigns.csv"
           {| columns := [ "campaign_id"; " start_date"; "end_date " ];
              rows := [ [ Str "CAMP_DIW_01"; Str "2023-11-10"; Str "2023-11-16" ] ] |}).
  - by_evaluation.
  - reflexivity.
  - reflexivity.
  - by_evaluation.
  - by_evaluation.
Defined.

(** X14. Loading all datasets raises nothing and returns one table per
    alias of the registry, in the order of the registry. *)
Theorem get_all_datasets_covers_registry (e : data_loader.env) :
  ∃ log datasets,
    data_loader.get_all_datasets e = (log, Py.Ok datasets) ∧
    datasets.*1 = fst <$> data_loader.CSV_ALIASES.
Proof.
  unfold data_loader.get_all_datasets.
  assert (∀ aliases : list string,
            (∀ a, a ∈ aliases → a ∈ fst <$> data_loader.CSV_ALIASES) →
            ∃ log datasets,
              foldr (λ alias rest,
                       df ← data_loader.load_csv e alias;
                       datasets ← rest;
                       mret ((alias, df) :: datasets))
                    (mret []) aliases = (log, Py.Ok datasets)
              ∧ datasets.*1 = aliases) as Hgen.
  { induction aliases as [|a aliases IH]; intros Hknown.
    - by eexists [], [].
    - destruct IH as (log & ds & Heq & Hkeys); [intros a' Ha'; apply Hknown; by right|].
      destruct (load_csv_known_alias_total e a) as (log1 & df & Hload);
        [apply Hknown; left|].
      cbn [foldr]. rewrite Heq, Hload. cbn.
      eexists _, _. split; [reflexivity|]. cbn. by rewrite Hkeys. }
  apply Hgen. by intros a Ha.
Qed.


(** ** What the aggregations conserve *)

Section conservation.

Lemma series_sum_from (acc : Qc) (s : list cell) :
  foldl (λ acc c, match numeric c with Some q => (acc + q)%Qc | None => acc end) acc s
  = (acc + series_sum s)%Qc.
Proof.
  unfold series_sum. revert acc. induction s as [|c s IH] using rev_ind; intros acc.
  - cbn. by rewrite Qcplus_0_r.
  - rewrite !foldl_app. cbn. rewrite (IH acc).
    destruct (numeric c); [|done]. by rewrite Qcplus_assoc.
Qed.

Lemma series_sum_app (s1 s2 : list cell) :
  series_sum (s1 ++ s2) = (series_sum s1 + series_sum s2)%Qc.
Proof. unfold series_sum at 1. rewrite foldl_app. apply series_sum_from. Qed.

Lemma series_sum_Num (q : Qc) (s : list cell) :
  series_sum (Num q :: s) = (q + series_sum s)%Qc.
Proof.
  change (Num q :: s) with ([Num q] ++ s). rewrite series_sum_app.
  f_equal. unfold series_sum. cbn. by rewrite Qcplus_0_l.
Qed.

Lemma groups_total_Permutation df col g1 g2 :
  g1 ≡ₚ g2 → groups_total df col g1 = groups_total df col g2.
Proof.
  unfold groups_total. induction 1 as [|x l l' _ IH|x y l|l l' l'' _ IH1 _ IH2]; cbn.
  - done.
  - by rewrite IH.
  - rewrite !Qcplus_assoc. f_equal. apply Qcplus_comm.
  - congruence.
Qed.

Lemma groups_total_add df col k r groups :
  groups_total df col (add_to_group k r groups)
  = (groups_total df col groups + series_sum [cell_of df col r])%Qc.
Proof.
  unfold groups_total. induction groups as [|[k' g] groups IH]; cbn.
  - apply Qcplus_comm.
  - case_decide; cbn.
    + rewrite fmap_app, series_sum_app. cbn.
      rewrite <- !Qcplus_assoc. f_equal. apply Qcplus_comm.
    + rewrite IH. by rewrite Qcplus_assoc.
Qed.

Lemma factorize_total_rows df by_ col (rs : list (list cell)) :
  groups_total df col
    (foldl (λ groups r,
              match group_key df by_ r with
              | Some k => add_to_group k r groups
              | None => groups
              end) [] rs)
  = series_sum (cell_of df col <$> filter (λ r, is_Some (group_key df by_ r)) rs).
Proof.
  induction rs as [|r rs IH] using rev_ind; [done|].
  rewrite foldl_app, filter_app, fmap_app, series_sum_app. cbn [foldl].
  rewrite filter_cons, filter_nil.
  destruct (group_key df by_ r) as [k|] eqn:Hk.
  - rewrite groups_total_add, IH. by rewrite decide_True by done.
  - rewrite IH. rewrite decide_False by (by intros [? ?]). cbn.
    change (series_sum []) with (Q2Qc 0). by rewrite Qcplus_0_r.
Qed.

Lemma is_Some_group_key df by_ r :
  is_Some (group_key df by_ r) ↔ complete df by_ r.
Proof.
  unfold complete. split.
  - intros [k Hk]. apply group_key_Some in Hk as [-> HF].
    rewrite Forall_fmap in HF. exact HF.
  - intros HF. exists ((λ col, cell_of df col r) <$> by_).
    apply group_key_Some. split; [done|]. rewrite Forall_fmap. exact HF.
Qed.

(** The group sums of a column add up to its sum over the rows with a
    complete key. *)
Lemma groupby_total df by_ col :
  groups_total df col (groupby df by_)
  = series_sum (cell_of df col <$> filter (complete df by_) (rows df)).
Proof.
  rewrite (groups_total_Permutation df col _ _ (groupby_Permutation df by_)).
  unfold factorize. rewrite factorize_total_rows. do 2 f_equal.
  apply list_filter_iff. intros r. apply is_Some_group_key.
Qed.

Lemma series_sum_group_sums df col groups :
  series_sum ((λ kg : list cell * list (list cell), agg_sum df col kg.2) <$> groups)
  = groups_total df col groups.
Proof.
  induction groups as [|kg groups IH]; [done|].
  rewrite fmap_cons. unfold agg_sum at 1. by rewrite series_sum_Num, IH.
Qed.

(** The column of the first aggregate of a grouped table. *)
Lemma groupby_agg_first_column df by_ name
    (f : list (list cell) → cell) (others : list (string * (list (list cell) → cell))) :
  name ∉ by_ →
  column (groupby_agg df by_ ((name, f) :: others)) name
  = (λ kg : list cell * list (list cell), f kg.2) <$> groupby df by_.
Proof.
  intros Hname. unfold column, groupby_agg, cell_of, get_loc. cbn [columns rows].
  assert (list_find (λ c, c = name) (by_ ++ ((name, f) :: others).*1)
          = Some (length by_, name)) as ->.
  { apply list_find_Some. split; [|split].
    - by rewrite lookup_app_r, Nat.sub_diag.
    - done.
    - intros j y Hj Hlt ->. apply Hname.
      rewrite lookup_app_l in Hj by done. by eapply list_elem_of_lookup_2. }
  cbn [fmap option_fmap option_map fst]. rewrite <- list_fmap_compose.
  apply list_fmap_ext. intros i [k g] Hi. cbn.
  apply list_elem_of_lookup_2, elem_of_groupby in Hi as [-> Hne].
  apply keyed_no_NaN in Hne as [Hlen _]. unfold cell_at.
  by rewrite lookup_app_r, Hlen, Nat.sub_diag by lia.
Qed.

End conservation.

(** X15. Each hop of the flow graph conserves the metric: the weights of
    the hop-1 edges add up to the metric summed over the rows that have
    both a campaign and a promotion type, those of the hop-2 edges to the
    metric summed over the rows that have both a promotion type and a
    category.  A row with a missing label at a hop adds to no edge of that
    hop. *)
Theorem sankey_hops_conserve_metric (df_sankey : DataFrame) (metric : string) :
  series_sum (column (sankey.df_links1 df_sankey (sankey.value_col metric))
                     (sankey.value_col metric))
  = series_sum (cell_of df_sankey (sankey.value_col metric)
                  <$> filter (complete df_sankey ["campaign_id"; "promo_type"])
                             (rows df_sankey)) ∧
  series_sum (column (sankey.df_links2 df_sankey (sankey.value_col metric))
                     (sankey.value_col metric))
  = series_sum (cell_of df_sankey (sankey.value_col metric)
                  <$> filter (complete df_sankey ["promo_type"; "category"])
                             (rows df_sankey)).
Proof.
  unfold sankey.df_links1, sankey.df_links2, sankey.df_links.
  assert ((sankey.value_col metric ∉ ["campaign_id"; "promo_type"])
          ∧ (sankey.value_col metric ∉ ["promo_type"; "category"])) as [H1 H2].
  { unfold sankey.value_col. case_decide; split; by_evaluation. }
  rewrite !groupby_agg_first_column by done.
  rewrite !series_sum_group_sums. split; apply groupby_total.
Qed.

(** X16. The rollup conserves the measure: the measures of its nodes add
    up to the measure summed over the rows of the table that have no
    missing path segment. *)
Theorem rollup_conserves_measure (df : DataFrame) (focus : string) :
  series_sum (column (sunburst.agg df (sunburst.value_col focus))
                     (sunburst.value_col focus))
  = series_sum (cell_of df (sunburst.value_col focus)
                  <$> filter (complete df sunburst.path) (rows df)).
Proof.
  unfold sunburst.agg.
  assert (sunburst.value_col focus ∉ sunburst.path) as Hcol.
  { unfold sunburst.value_col. case_decide; by_evaluation. }
  rewrite groupby_agg_first_column by done.
  rewrite series_sum_group_sums. apply groupby_total.
Qed.


(** ** The session defaults *)

Section session_defaults.
Import session.

Lemma setdefaults_cons kv d s :
  setdefaults (kv :: d) s
  = setdefaults d (if decide (is_Some (s !! kv.1)) then s else <[kv.1 := kv.2]> s).
Proof. done. Qed.

(** The loop is the union of the session with the default table, the
    session winning. *)
Lemma setdefaults_union d (s : gmap string value) :
  setdefaults d s = s ∪ list_to_map d.
Proof.
  revert s. induction d as [|[k v] d IH]; intros s.
  - cbn. by rewrite (right_id_L ∅ (∪)).
  - rewrite setdefaults_cons, IH. cbn [fst snd list_to_map foldr].
    apply map_eq. intros i. case_decide as Hk.
    + rewrite !lookup_union. destruct (decide (i = k)) as [Heq|Hne].
      * subst i. rewrite lookup_insert_eq. destruct Hk as [x Hx]. rewrite Hx.
        by destruct (list_to_map d !! k).
      * by rewrite lookup_insert_ne.
    + rewrite !lookup_union. destruct (decide (i = k)) as [Heq|Hne].
      * subst i. rewrite !lookup_insert_eq.
        apply eq_None_not_Some in Hk. rewrite Hk.
        by destruct (list_to_map d !! k).
      * by rewrite !lookup_insert_ne.
Qed.

(** Entries under keys the session already has are skipped. *)
Lemma setdefaults_skip (K : list string) d (s : gmap string value) :
  Forall (λ k, is_Some (s !! k)) K →
  setdefaults d s = setdefaults (filter (λ kv, kv.1 ∉ K) d) s.
Proof.
  revert s. induction d as [|[k v] d IH]; intros s HK; [done|].
  rewrite filter_cons. cbn [fst]. destruct (decide (k ∉ K)) as [Hk|Hk].
  - rewrite !setdefaults_cons. apply IH. case_decide; [done|].
    eapply Forall_impl; [exact HK|]. intros k' Hk'. cbn [fst snd].
    rewrite lookup_insert_is_Some. destruct (decide (k = k')); [by left|by right].
  - rewrite setdefaults_cons. cbn [fst snd].
    apply dec_stable in Hk. rewrite Forall_forall in HK.
    rewrite decide_True by (by apply HK). apply IH. by apply Forall_forall.
Qed.

End session_defaults.

(** X17. [init_session_state] only fills gaps: the session after it is the
    session before it, extended by the defaults under the keys it did not
    have.  No value of the session is overwritten, and a second call
    changes nothing. *)
Theorem init_session_state_fills_gaps (s : gmap string session.value) :
  session.init_session_state s = s ∪ list_to_map session.ui_defaults ∧
  s ⊆ session.init_session_state s ∧
  session.init_session_state (session.init_session_state s)
  = session.init_session_state s.
Proof.
  unfold session.init_session_state.
  rewrite !setdefaults_union.
  split; [done|]. split.
  - apply map_union_subseteq_l.
  - by rewrite <- (assoc_L (∪)), (idemp_L (∪)).
Qed.

(** X18. In a session that went through [init_session_state], the first
    default loop of the dashboard sets nothing and the second sets only
    [show_before], [show_after], [positive_only] and [normalize_store]:
    its other twelve entries are dead, so the focus city stays what the
    session had and is never defaulted to "All", and the incremental
    revenue range is never defaulted to (0, 100000). *)
Theorem dashboard_defaults_after_init (s : gmap string session.value) :
  Forall (λ k, is_Some (s !! k)) session.ui_defaults.*1 →
  session.setdefaults session.default_state_1 s = s ∧
  session.setdefaults session.default_state_2 s
  = session.setdefaults dashboard_only_defaults s ∧
  session.setdefaults session.default_state_2 s !! "selected_city"
  = s !! "selected_city" ∧
  session.setdefaults session.default_state_2 s !! "inc_rev_range"
  = s !! "inc_rev_range".
Proof.
  intros Hinit.
  assert (session.setdefaults session.default_state_2 s
          = session.setdefaults dashboard_only_defaults s) as H2.
  { by rewrite (setdefaults_skip session.ui_defaults.*1 _ s Hinit). }
  split; [|split; [done|]].
  - by rewrite (setdefaults_skip session.ui_defaults.*1 _ s Hinit).
  - rewrite H2, setdefaults_union, !lookup_union.
    rewrite Forall_forall in Hinit.
    destruct (Hinit "selected_city") as [x ->]; [by_evaluation|].
    destruct (Hinit "inc_rev_range") as [y ->]; [by_evaluation|].
    split; vm_compute; reflexivity.
Qed.

Lemma dashboard_defaults_after_init_witness :
  session.setdefaults session.default_state_1 (session.init_session_state ∅)
  = session.init_session_state ∅ ∧
  session.setdefaults session.default_state_2 (session.init_session_state ∅)
  = session.setdefaults dashboard_only_defaults (session.init_session_state ∅) ∧
  session.setdefaults session.default_state_2 (session.init_session_state ∅)
    !! "selected_city"
  = session.init_session_state ∅ !! "selected_city" ∧
  session.setdefaults session.default_state_2 (session.init_session_state ∅)
    !! "inc_rev_range"
  = session.init_session_state ∅ !! "inc_rev_range".
Proof.
  apply (dashboard_defaults_after_init (session.init_session_state ∅)).
  by_evaluation.
Defined.


(** ** The product picker and the filter *)

Section picker.

Lemma filter_none {A} (P : A → Prop) `{!∀ x, Decision (P x)} (l : list A) :
  (∀ x, x ∈ l → ¬ P x) → filter P l = [].
Proof.
  intros Hnone. induction l as [|x l IH]; [done|].
  rewrite filter_cons, decide_False by (apply Hnone; left).
  apply IH. intros y Hy. apply Hnone. by right.
Qed.

Lemma cell_of_elem_of_column df col r :
  r ∈ rows df → cell_of df col r ∈ column df col.
Proof. intros Hr. unfold column. apply list_elem_of_fmap. by exists r. Qed.

End picker.

(** X19. The product picker offers the product names (dashboard, line 93)
    and the filter matches the picks against the product codes (loader,
    line 165): when the table has a code column, no code of the table is
    also a name of it, and at least one name is picked, the filter keeps
    no row. *)
Theorem picked_names_match_no_code (D : DataFrame) (S : State) :
  "product_code" ∈ columns D →
  products S ≠ [] →
  Forall (λ v, v ∈ column D "product_name") (products S) →
  Forall (λ c, c ∉ column D "product_name") (column D "product_code") →
  data_loader.apply_global_filters (Some D) S
  = Some {| columns := columns D; rows := [] |}.
Proof.
  intros Hcol Hsel Hnames Hcodes. rewrite apply_global_filters_passes.
  do 2 f_equal. apply filter_none. intros r Hr Hpass.
  unfold passes in Hpass. rewrite Forall_forall in Hpass.
  specialize (Hpass ("product_code", "products")).
  cbn [fst snd] in Hpass. change (state_get S "products") with (products S) in Hpass.
  rewrite Forall_forall in Hnames, Hcodes.
  apply (Hcodes (cell_of D "product_code" r)).
  - by apply cell_of_elem_of_column.
  - apply Hnames, Hpass; [by_evaluation|done|done].
Qed.

Lemma picked_names_match_no_code_witness :
  data_loader.apply_global_filters (Some sample.catalogue) sample.atta_picked
  = Some {| columns := columns sample.catalogue; rows := [] |}.
Proof.
  apply (picked_names_match_no_code sample.catalogue sample.atta_picked).
  - by_evaluation.
  - by_evaluation.
  - by_evaluation.
  - by_evaluation.
Defined.

(** ** The facet block *)

Section facet_more.

Lemma before_col_neq_after_col kpi_option :
  facet.before_col kpi_option ≠ facet.after_col kpi_option.
Proof. unfold facet.before_col, facet.after_col. case_decide; by_evaluation. Qed.

Lemma period_before kpi_option :
  facet.period kpi_option (Str (facet.before_col kpi_option)) = Str "Before".
Proof.
  unfold facet.period. rewrite decide_False, decide_True; [done|done|].
  intros [= Heq]. by apply (before_col_neq_after_col kpi_option).
Qed.

Lemma period_after kpi_option :
  facet.period kpi_option (Str (facet.after_col kpi_option)) = Str "After".
Proof. unfold facet.period. by rewrite decide_True. Qed.

End facet_more.

(** X20. The melted table of the facet block stacks two copies of the
    filtered table: first every row with the period "Before" and its
    value before the promotion, then every row with the period "After"
    and its value after it, each block in table order.  Its columns are
    the campaign, the product code, the period and the KPI. *)
Theorem facet_melt_stacks_before_and_after (df : DataFrame) (kpi_option : string) :
  columns (facet.df_melt df kpi_option)
  = [ "campaign_id"; "product_code"; "Period"; kpi_option ] ∧
  rows (facet.df_melt df kpi_option)
  = ((λ r, [ cell_of df "campaign_id" r; cell_of df "product_code" r; Str "Before";
             cell_of df (facet.before_col kpi_option) r ]) <$> rows df)
    ++ ((λ r, [ cell_of df "campaign_id" r; cell_of df "product_code" r; Str "After";
                cell_of df (facet.after_col kpi_option) r ]) <$> rows df).
Proof.
  unfold facet.df_melt, setitem. cbn zeta.
  set (m := facet.melt df _ _ _ _).
  assert (get_loc m "Period" = Some 2) as -> by (by vm_compute).
  split; [done|]. cbn [rows].
  unfold column. rewrite <- list_fmap_compose, zip_with_fmap_r, zip_with_diag.
  unfold m, facet.melt. cbn [rows mbind list_bind].
  rewrite (right_id_L [] (++)), fmap_app, <- !list_fmap_compose.
  f_equal; apply list_fmap_ext; intros i r _; cbn.
  - change (cell_of _ "Period" ?r) with (cell_at 2 r).
    cbn. by rewrite period_before.
  - cbn. by rewrite period_after.
Qed.


(** ** The treemap *)

Section treemap_more.

Lemma complete_same_header df df' by_ r :
  columns df' = columns df → complete df' by_ r ↔ complete df by_ r.
Proof. intros Hc. unfold complete, cell_of, get_loc. by rewrite Hc. Qed.

Lemma dropna_present df subset :
  Forall (λ col, col ∈ columns df) subset →
  dropna df subset
  = Py.Ok {| columns := columns df; rows := filter (complete df subset) (rows df) |}.
Proof.
  intros Hall. unfold dropna. rewrite filter_none; [done|].
  rewrite Forall_forall in Hall. intros col Hcol Habs. by apply Habs, Hall.
Qed.

Lemma dropna_columns df subset df' :
  dropna df subset = Py.Ok df' →
  columns df' = columns df ∧ rows df' = filter (complete df subset) (rows df).
Proof.
  unfold dropna. destruct (filter _ subset); [|done]. by intros [= <-].
Qed.

(** The block up to the call of [dropna]. *)
Lemma treemap_run_city filtered state :
  treemap.run filtered state
  = if negb (empty filtered) && bool_decide (treemap.required_cols ⊆ columns filtered)
    then match dropna (city_scope filtered state)
                      [treemap.value_col (kpi_focus state); "incremental_margin%"] with
         | Py.Ok treemap_df =>
             Py.Ok (treemap.px_treemap treemap_df (treemap.value_col (kpi_focus state))
                      (treemap.title_metric (kpi_focus state)))
         | Py.Raise e => Py.Raise e
         end
    else Py.Ok treemap.st_caption.
Proof. reflexivity. Qed.

End treemap_more.

(** X21. The table the treemap is drawn from holds exactly the rows of the
    city drill-down of the filtered table that have both the measure of
    the focus and the margin, in table order, under the header of the
    filtered table. *)
Theorem treemap_draws_complete_rows (F : DataFrame) (S : State)
    (data : DataFrame) (values metric : string) :
  treemap.run F S = Py.Ok (treemap.px_treemap data values metric) →
  values = treemap.value_col (kpi_focus S) ∧
  columns data = columns F ∧
  rows data = filter (complete F [values; "incremental_margin%"])
                     (rows (city_scope F S)).
Proof.
  rewrite treemap_run_city. destruct (_ && _); [|done].
  destruct (dropna _ _) as [df'|e] eqn:Hdrop; [|done].
  intros [= <- <- _]. split; [done|].
  apply dropna_columns in Hdrop as [Hc Hr]. rewrite Hc, Hr, city_scope_columns.
  split; [done|]. apply list_filter_iff. intros r.
  apply complete_same_header, city_scope_columns.
Qed.

Lemma treemap_draws_complete_rows_witness :
  "revenue_after_promo" = treemap.value_col (kpi_focus sample.no_selection) ∧
  columns {| columns := columns sample.with_gaps;
             rows := [ [ Str "CAMP_DIW_01"; Str "Atta (10KG)"; Str "BOGOF";
                         sample.num 40; sample.num 150 ];
                       [ Str "CAMP_SAN_01"; Str "Atta (10KG)"; NaN;
                         sample.num 35; sample.num 420 ] ] |}
  = columns sample.with_gaps ∧
  rows {| columns := columns sample.with_gaps;
          rows := [ [ Str "CAMP_DIW_01"; Str "Atta (10KG)"; Str "BOGOF";
                      sample.num 40; sample.num 150 ];
                    [ Str "CAMP_SAN_01"; Str "Atta (10KG)"; NaN;
                      sample.num 35; sample.num 420 ] ] |}
  = filter (complete sample.with_gaps [ "revenue_after_promo"; "incremental_margin%" ])
           (rows (city_scope sample.with_gaps sample.no_selection)).
Proof.
  apply (treemap_draws_complete_rows sample.with_gaps sample.no_selection _ _ "Revenue (₹)").
  by_evaluation.
Defined.



(** ** The violin plot *)

Section violin_more.

Lemma filter_iff_elem {A} (P Q : A → Prop)
    `{!∀ x, Decision (P x)} `{!∀ x, Decision (Q x)} (l : list A) :
  (∀ x, x ∈ l → P x ↔ Q x) → filter P l = filter Q l.
Proof.
  intros Hiff. induction l as [|x l IH]; [done|].
  rewrite !filter_cons, IH by (intros y Hy; apply Hiff; by right).
  destruct (decide (P x)) as [HP|HP].
  - rewrite decide_True; [done|]. apply Hiff; [by left|done].
  - rewrite decide_False; [done|]. intros HQ. apply HP, Hiff; [by left|done].
Qed.

Lemma elem_of_series_dropna s x : x ∈ series_dropna s ↔ x ∈ s ∧ x ≠ NaN.
Proof. unfold series_dropna. rewrite list_elem_of_filter. tauto. Qed.

Lemma elem_of_promo_options df x :
  x ∈ violin.promo_options df ↔ x ∈ column df "promo_type" ∧ x ≠ NaN.
Proof. unfold violin.promo_options. by rewrite elem_of_unique, elem_of_series_dropna. Qed.

Lemma violin_df_plot_rows df selected :
  rows (violin.df_plot df selected)
  = filter (λ r, cell_of df "promo_type" r ∈ selected) (rows df).
Proof.
  unfold violin.df_plot, boolean_index, isin, column. cbn [rows].
  rewrite <- list_fmap_compose, compress_fmap.
  apply list_filter_iff. intros r. unfold compose.
  by rewrite bool_decide_spec.
Qed.

End violin_more.

(** X23. With the default of its picker, the violin plot is drawn from
    exactly the rows that have a promotion type; whatever is picked among
    the options, no row without a promotion type is drawn. *)
Theorem violin_default_drops_untyped_rows (F : DataFrame) :
  rows (violin.df_plot F (violin.promo_options F))
  = filter (λ r, cell_of F "promo_type" r ≠ NaN) (rows F) ∧
  ∀ selected_promos r,
    selected_promos ⊆ violin.promo_options F →
    r ∈ rows (violin.df_plot F selected_promos) →
    cell_of F "promo_type" r ≠ NaN.
Proof.
  split.
  - rewrite violin_df_plot_rows. apply filter_iff_elem.
    intros r Hr. rewrite elem_of_promo_options. split; [by intros [_ ?]|].
    intros Hne. split; [|done]. by apply cell_of_elem_of_column.
  - intros selected r Hsub. rewrite violin_df_plot_rows.
    intros [Hin _]%list_elem_of_filter.
    by apply Hsub, elem_of_promo_options in Hin as [_ ?].
Qed.

(** ** The options of the pickers *)

Section safe_unique_more.

Lemma cell_compare_antisym a b :
  cell_compare b a = CompOpp (cell_compare a b).
Proof.
  destruct a, b; cbn; try done.
  - apply String.compare_antisym.
  - unfold Qccompare. by rewrite <- Qcompare_antisym.
  - apply Z.compare_antisym.
Qed.

Global Instance cell_le_total : Total cell_le.
Proof.
  intros a b. unfold cell_le. rewrite (cell_compare_antisym a b).
  destruct (cell_compare a b); cbn; [by left|by left|by right].
Qed.

Lemma one_kind_true l :
  one_kind l = true ↔ ∀ a b, a ∈ l → b ∈ l → kind_of a = kind_of b.
Proof.
  destruct l as [|c l]; cbn [one_kind].
  - split; [|done]. intros _ a b Ha. by apply elem_of_nil in Ha.
  - rewrite forallb_forall. split.
    + intros Hall a b Ha Hb.
      assert (∀ x, x ∈ c :: l → kind_of x = kind_of c) as Hc.
      { intros x [->|Hx]%elem_of_cons; [done|].
        apply list_elem_of_In, Hall in Hx. by apply bool_decide_eq_true in Hx. }
      by rewrite (Hc a Ha), (Hc b Hb).
    + intros Hall x Hx%list_elem_of_In. apply bool_decide_eq_true.
      apply Hall; [by right|by left].
Qed.

Lemma one_kind_false l :
  one_kind l = false → ∃ a b, a ∈ l ∧ b ∈ l ∧ kind_of a ≠ kind_of b.
Proof.
  destruct l as [|c l]; cbn [one_kind]; [done|].
  induction l as [|x l IH]; cbn [forallb]; [done|].
  destruct (bool_decide (kind_of x = kind_of c)) eqn:Hx; cbn [andb].
  - intros (a & b & Ha & Hb & Hkind)%IH. exists a, b.
    split; [|split; [|done]].
    + apply elem_of_cons in Ha as [->|Ha]; [by left|by do 2 right].
    + apply elem_of_cons in Hb as [->|Hb]; [by left|by do 2 right].
  - intros _. apply bool_decide_eq_false in Hx. exists x, c.
    split; [by right; left|]. split; [by left|done].
Qed.

Lemma safe_unique_Some s :
  safe_unique (Some s) = sorted (unique (series_dropna s)).
Proof. destruct s; [|done]. reflexivity. Qed.

End safe_unique_more.

(** X24. The options a picker is given are the distinct values of the
    column that are present, in ascending order: whenever [safe_unique]
    returns, its list is sorted, has no repetition and no missing value,
    and holds every present value of the series. *)
Theorem safe_unique_options (s l : list cell) :
  safe_unique (Some s) = Some l →
  Sorted cell_le l ∧ NoDup l ∧ ∀ x, x ∈ l ↔ x ∈ s ∧ x ≠ NaN.
Proof.
  rewrite safe_unique_Some. unfold sorted. destruct (one_kind _); [|done].
  intros [= <-]. split; [apply (Sorted_merge_sort cell_le)|]. split.
  - rewrite merge_sort_Permutation. apply unique_NoDup.
  - intros x. by rewrite merge_sort_Permutation, elem_of_unique, elem_of_series_dropna.
Qed.

Lemma safe_unique_options_witness :
  Sorted cell_le [ Str "Delhi"; Str "Pune" ] ∧ NoDup [ Str "Delhi"; Str "Pune" ] ∧
  ∀ x, x ∈ [ Str "Delhi"; Str "Pune" ] ↔ x ∈ sample.city_series ∧ x ≠ NaN.
Proof.
  apply (safe_unique_options sample.city_series). by_evaluation.
Defined.

(** X25. [safe_unique] fails, with the [TypeError] of the sort, exactly
    when the series holds two present values of different types. *)
Theorem safe_unique_fails_on_mixed_types (s : list cell) :
  safe_unique (Some s) = None ↔
  ∃ a b, a ∈ s ∧ a ≠ NaN ∧ b ∈ s ∧ b ≠ NaN ∧ kind_of a ≠ kind_of b.
Proof.
  rewrite safe_unique_Some. unfold sorted.
  destruct (one_kind _) eqn:Hone.
  - split; [done|]. intros (a & b & Ha & Hna & Hb & Hnb & Hkind). exfalso.
    apply Hkind. rewrite one_kind_true in Hone.
    apply Hone; by rewrite elem_of_unique, elem_of_series_dropna.
  - split; [|done]. intros _.
    apply one_kind_false in Hone as (a & b & Ha & Hb & Hkind).
    apply elem_of_unique, elem_of_series_dropna in Ha as [? ?].
    apply elem_of_unique, elem_of_series_dropna in Hb as [? ?].
    by exists a, b.
Qed.


(** ** The parallel-categories block *)

Section parallel_more.

Lemma length_fit n r : length (fit n r) = n.
Proof. unfold fit. rewrite length_app, length_take, length_replicate. lia. Qed.

Lemma cell_at_fit n r i : i < n → cell_at i (fit n r) = cell_at i r.
Proof.
  intros Hi. unfold cell_at, fit. destruct (decide (i < length r)) as [Hlt|Hge].
  - rewrite lookup_app_l by (rewrite length_take; lia).
    by rewrite lookup_take_lt by lia.
  - rewrite lookup_app_r by (rewrite length_take; lia).
    rewrite (lookup_ge_None_2 r) by lia.
    rewrite lookup_replicate_2; [done|]. rewrite length_take. lia.
Qed.

Lemma cell_at_fit_end n r c : cell_at n (fit n r ++ [c]) = c.
Proof.
  unfold cell_at. rewrite lookup_app_r by (by rewrite length_fit).
  by rewrite length_fit, Nat.sub_diag.
Qed.

Lemma get_loc_new df col : col ∉ columns df → ∀ l,
  fst <$> list_find (λ c, c = col) (columns df ++ col :: l)
  = Some (length (columns df)).
Proof.
  intros Hcol l.
  assert (list_find (λ c, c = col) (columns df ++ col :: l)
          = Some (length (columns df), col)) as ->; [|done].
  apply list_find_Some. split; [|split].
  - by rewrite lookup_app_r, Nat.sub_diag.
  - done.
  - intros j y Hj Hlt ->. apply Hcol.
    rewrite lookup_app_l in Hj by done. by eapply list_elem_of_lookup_2.
Qed.

Lemma bind_singletons {A B} (f : A → list B) (g : A → B) (l : list A) :
  (∀ x, x ∈ l → f x = [g x]) → l ≫= f = g <$> l.
Proof.
  intros Hf. induction l as [|x l IH]; [done|]. cbn.
  rewrite (Hf x) by left. cbn. f_equal. apply IH. intros y Hy. apply Hf. by right.
Qed.

Lemma compress_fmap_fmap {A B} (p : A → bool) (f : A → B) (l : list A) :
  compress (p <$> l) (f <$> l) = f <$> filter (λ x, p x) l.
Proof.
  induction l as [|x l IH]; [done|]. cbn [fmap list_fmap compress].
  rewrite filter_cons, IH. by destruct (p x).
Qed.

Lemma filter_key_unique {K V} `{EqDecision K} (l : list (K * V)) k v :
  NoDup l.*1 → (k, v) ∈ l → filter (λ kv, kv.1 = k) l = [(k, v)].
Proof.
  intros Hnd Hin. induction l as [|[k' v'] l IH]; [by apply elem_of_nil in Hin|].
  cbn in Hnd. apply NoDup_cons in Hnd as [Hk' Hnd].
  rewrite filter_cons. cbn [fst]. apply elem_of_cons in Hin as [[= <- <-]|Hin].
  - rewrite decide_True by done. f_equal. apply filter_none.
    intros [k'' v''] Hin' Heq. cbn in Heq. subst k''. apply Hk'.
    apply list_elem_of_fmap. by exists (k, v'').
  - rewrite decide_False; [by apply IH|]. intros ->. apply Hk'.
    apply list_elem_of_fmap. by exists (k, v).
Qed.

Lemma Qc_inject_le (a b : Z) :
  (Q2Qc (inject_Z a) ≤ Q2Qc (inject_Z b))%Qc ↔ (a ≤ b)%Z.
Proof.
  unfold Qcle. cbn [this Q2Qc]. rewrite !Qred_correct. by rewrite Zle_Qle.
Qed.

Context (T : DataFrame).

Lemma combo_counts_columns :
  columns (parallel.combo_counts T) = [ "campaign_id"; "promo_type"; "category"; "count" ].
Proof. reflexivity. Qed.

Lemma combo_counts_rows :
  rows (parallel.combo_counts T)
  = (λ kg : list cell * list (list cell), kg.1 ++ [ parallel.size kg.2 ])
      <$> groupby T parallel.dimensions.
Proof. reflexivity. Qed.

Lemma combo_counts_key k g :
  (k, g) ∈ groupby T parallel.dimensions →
  merge_key (parallel.combo_counts T) parallel.dimensions (k ++ [ parallel.size g ]) = k.
Proof.
  intros [-> Hne]%elem_of_groupby. apply keyed_no_NaN in Hne as [Hlen _].
  destruct k as [|a [|b [|c [|d k]]]]; try done.
Qed.

Lemma group_key_merge_key r :
  complete T parallel.dimensions r →
  group_key T parallel.dimensions r = Some (merge_key T parallel.dimensions r).
Proof.
  intros Hc. apply group_key_Some. split; [done|].
  unfold merge_key. rewrite Forall_fmap. exact Hc.
Qed.

Lemma combo_counts_matches r :
  r ∈ rows T →
  filter (λ r', merge_key (parallel.combo_counts T) parallel.dimensions r'
                = merge_key T parallel.dimensions r)
         (rows (parallel.combo_counts T))
  = if decide (complete T parallel.dimensions r)
    then [ merge_key T parallel.dimensions r
           ++ [ parallel.size (keyed T parallel.dimensions
                                 (merge_key T parallel.dimensions r)) ] ]
    else [].
Proof.
  intros Hr. rewrite combo_counts_rows.
  set (k0 := merge_key T parallel.dimensions r).
  assert (filter (λ r', merge_key (parallel.combo_counts T) parallel.dimensions r' = k0)
            ((λ kg : list cell * list (list cell), kg.1 ++ [ parallel.size kg.2 ])
               <$> groupby T parallel.dimensions)
          = (λ kg : list cell * list (list cell), kg.1 ++ [ parallel.size kg.2 ])
              <$> filter (λ kg, kg.1 = k0) (groupby T parallel.dimensions)) as ->.
  { pose proof (λ k g, combo_counts_key k g) as Hkey.
    induction (groupby T parallel.dimensions) as [|[k g] l IH]; [done|].
    rewrite fmap_cons, !filter_cons. cbn [fst snd].
    rewrite (Hkey k g) by left.
    rewrite IH by (intros k' g' Hin; apply Hkey; by right).
    by destruct (decide (k = k0)). }
  case_decide as Hc.
  - rewrite (filter_key_unique _ k0 (keyed T parallel.dimensions k0)); [done| |].
    + apply groupby_NoDup.
    + apply elem_of_groupby. split; [done|]. intros Hnil.
      assert (r ∈ keyed T parallel.dimensions k0) as Hin.
      { apply list_elem_of_filter. split; [|done]. by apply group_key_merge_key. }
      rewrite Hnil in Hin. by apply elem_of_nil in Hin.
  - rewrite filter_none; [done|]. subst k0. intros [k g] Hin Heq. cbn in Heq.
    apply elem_of_groupby in Hin as [-> Hne]. apply keyed_no_NaN in Hne as [_ HF].
    apply Hc. unfold complete, parallel.dimensions.
    rewrite Heq in HF. rewrite !Forall_cons in HF. rewrite !Forall_cons.
    destruct HF as (? & ? & ? & _). by repeat split.
Qed.

Lemma merge_left_counts :
  "count" ∉ columns T →
  merge_left T (parallel.combo_counts T) parallel.dimensions
  = Py.Ok {| columns := columns T ++ [ "count" ];
             rows := (λ r, fit (length (columns T)) r ++ [ merged_count T r ])
                       <$> rows T |}.
Proof.
  intros Hcount. unfold merge_left. rewrite combo_counts_columns.
  change (filter (λ c, c ∉ parallel.dimensions)
                 [ "campaign_id"; "promo_type"; "category"; "count" ])
    with [ "count" ].
  cbn zeta.
  rewrite (filter_none (λ c, c ∈ [ "count" ] ∧ _)); last first.
  { intros c Hc [Hin _]. apply list_elem_of_singleton in Hin. by subst c. }
  rewrite (filter_none (λ c, c ∈ columns T ∧ _)); last first.
  { intros c Hc [Hin _]. apply list_elem_of_singleton in Hc. by subst c. }
  cbn [fmap list_fmap app]. f_equal. f_equal.
  - f_equal.
    + rewrite <- (list_fmap_id (columns T)) at 2. apply list_fmap_ext.
      intros i c Hi. rewrite decide_False; [done|].
      intros Hin%list_elem_of_singleton. subst c. apply Hcount.
      by eapply list_elem_of_lookup_2.
    + by rewrite decide_False.
  - apply bind_singletons. intros r Hr. rewrite (combo_counts_matches r Hr).
    unfold merged_count. case_decide; [|done]. cbn [fmap list_fmap].
    by do 3 f_equal.
Qed.

Lemma merged_count_ge min_count r :
  match numeric (merged_count T r) with
  | Some q => bool_decide (Q2Qc (inject_Z min_count) ≤ q)%Qc
  | None => false
  end = bool_decide (drawn T min_count r).
Proof.
  unfold merged_count, drawn. case_decide as Hc; cbn.
  - apply bool_decide_ext. rewrite Qc_inject_le. unfold combination_size. tauto.
  - symmetry. apply bool_decide_eq_false. tauto.
Qed.

(** The block on the scoped table, once the guard has passed. *)
Lemma threshold_rows min_count :
  "count" ∉ columns T →
  match merge_left T (parallel.combo_counts T) parallel.dimensions with
  | Py.Ok df_para =>
      match getitem df_para "count" with
      | Py.Ok count => Py.Ok (parallel.px_parallel_categories
                                (boolean_index df_para (series_ge count min_count)))
      | Py.Raise e => Py.Raise e
      end
  | Py.Raise e => Py.Raise e
  end
  = Py.Ok (parallel.px_parallel_categories
             {| columns := columns T ++ [ "count" ];
                rows := (λ r, fit (length (columns T)) r ++ [ merged_count T r ])
                          <$> filter (drawn T min_count) (rows T) |}).
Proof.
  intros Hcount. rewrite (merge_left_counts Hcount).
  unfold getitem. cbn [columns]. rewrite decide_True by (apply elem_of_app; right; left).
  do 2 f_equal. unfold boolean_index, series_ge, column, cell_of, get_loc.
  cbn [columns rows]. rewrite (get_loc_new T "count" Hcount []).
  f_equal. rewrite <- !list_fmap_compose. rewrite compress_fmap_fmap. f_equal.
  apply list_filter_iff. intros r. unfold compose.
  rewrite cell_at_fit_end, merged_count_ge. by rewrite bool_decide_spec.
Qed.

(** A table that already has a [count] column never reaches the chart. *)
Lemma count_clash min_count :
  "count" ∈ columns T →
  ∃ e,
    match merge_left T (parallel.combo_counts T) parallel.dimensions with
    | Py.Ok df_para =>
        match getitem df_para "count" with
        | Py.Ok count => Py.Ok (parallel.px_parallel_categories
                                  (boolean_index df_para (series_ge count min_count)))
        | Py.Raise e => Py.Raise e
        end
    | Py.Raise e => Py.Raise e
    end = Py.Raise e ∧
    ("count_x" ∉ columns T → e = Py.Exn "KeyError" "count").
Proof.
  intros Hcount. unfold merge_left. rewrite combo_counts_columns.
  change (filter (λ c, c ∉ parallel.dimensions)
                 [ "campaign_id"; "promo_type"; "category"; "count" ])
    with [ "count" ].
  cbn zeta.
  destruct (decide ("count_x" ∈ columns T)) as [Hx|Hx].
  - assert (filter (λ c, c ∈ [ "count" ] ∧ String.append c "_x" ∈ columns T) (columns T)
            ≠ []) as Hdup.
    { intros Hnil. assert ("count" ∈ @nil string) as Hin; [|by apply elem_of_nil in Hin].
      rewrite <- Hnil. apply list_elem_of_filter. split; [|done].
      split; [by left|done]. }
    destruct (filter _ (columns T)) as [|c l]; [done|]. cbn.
    eexists. split; [done|]. by intros ?.
  - rewrite (filter_none (λ c, c ∈ [ "count" ] ∧ _)); last first.
    { intros c Hc [Hin Hcx]. apply list_elem_of_singleton in Hin. by subst c. }
    rewrite filter_cons, filter_nil.
    rewrite decide_False; last first.
    { intros [_ Hy%list_elem_of_singleton]. cbn in Hy. discriminate Hy. }
    cbn [fmap list_fmap app]. rewrite decide_True by done.
    unfold getitem. cbn [columns]. rewrite decide_False.
    + eexists. split; [done|]. by intros _.
    + intros [Hin|Hin]%elem_of_app.
      * apply list_elem_of_fmap in Hin as (c & Hc & Hin). case_decide as Hd.
        -- apply list_elem_of_singleton in Hd. by subst c.
        -- subst c. apply Hd. by left.
      * apply list_elem_of_singleton in Hin. done.
Qed.

End parallel_more.

Lemma parallel_scope_columns df selected_city :
  columns (parallel_scope df selected_city) = columns df.
Proof. unfold parallel_scope. by case_decide. Qed.

(** The block from the merge on, on the city drill-down. *)
Lemma parallel_draw_scope df selected_city min_count :
  parallel.draw df selected_city min_count
  = match merge_left (parallel_scope df selected_city)
                     (parallel.combo_counts (parallel_scope df selected_city))
                     parallel.dimensions with
    | Py.Ok df_para =>
        match getitem df_para "count" with
        | Py.Ok count => Py.Ok (parallel.px_parallel_categories
                                  (boolean_index df_para (series_ge count min_count)))
        | Py.Raise e => Py.Raise e
        end
    | Py.Raise e => Py.Raise e
    end.
Proof. reflexivity. Qed.

(** X26. The parallel-categories chart is drawn from whole combinations:
    of the city drill-down of the filtered table it keeps, in table order,
    exactly the rows whose campaign, promotion type and category are all
    present and whose combination has at least the threshold number of
    rows in the drill-down, each with that number in a new [count]
    column.  A combination is kept with all its rows or dropped with all
    of them. *)
Theorem parallel_draws_whole_combinations (F : DataFrame)
    (type_error : list cell → string) (selectbox : list cell → cell)
    (min_count : Z) (data : DataFrame) :
  parallel.run F type_error selectbox min_count
  = Py.Ok (parallel.px_parallel_categories data) →
  ∃ cities, parallel.cities F = Some cities ∧
    columns data = columns F ++ [ "count" ] ∧
    rows data
    = (λ r, fit (length (columns F)) r
            ++ [ parallel.size
                   (keyed (parallel_scope F (selectbox cities)) parallel.dimensions
                      (merge_key (parallel_scope F (selectbox cities))
                         parallel.dimensions r)) ])
        <$> filter (drawn (parallel_scope F (selectbox cities)) min_count)
                   (rows (parallel_scope F (selectbox cities))).
Proof.
  unfold parallel.run. destruct (_ && _); [|done].
  destruct (parallel.cities F) as [cities|]; [|done].
  rewrite parallel_draw_scope. intros Hrun. exists cities. split; [done|].
  revert Hrun. set (T := parallel_scope F (selectbox cities)).
  destruct (decide ("count" ∈ columns T)) as [Hcount|Hcount].
  - destruct (count_clash T min_count Hcount) as (e & -> & _). done.
  - rewrite (threshold_rows T min_count Hcount). intros [= <-]. cbn [columns rows].
    unfold T at 1 2. rewrite parallel_scope_columns. split; [done|].
    apply list_fmap_ext. intros i r Hr.
    apply list_elem_of_lookup_2, list_elem_of_filter in Hr as [[Hc _] _].
    unfold merged_count. by rewrite decide_True.
Qed.

Lemma parallel_draws_whole_combinations_witness :
  ∃ cities, parallel.cities sample.two_rows = Some cities ∧
    columns sample.two_rows_counted = columns sample.two_rows ++ [ "count" ] ∧
    rows sample.two_rows_counted
    = (λ r, fit (length (columns sample.two_rows)) r
            ++ [ parallel.size
                   (keyed (parallel_scope sample.two_rows (Str "All")) parallel.dimensions
                      (merge_key (parallel_scope sample.two_rows (Str "All"))
                         parallel.dimensions r)) ])
        <$> filter (drawn (parallel_scope sample.two_rows (Str "All")) 2)
                   (rows (parallel_scope sample.two_rows (Str "All"))).
Proof.
  apply (parallel_draws_whole_combinations sample.two_rows (λ _, "")
           (λ _, Str "All") 2).
  by_evaluation.
Defined.

(** X27. The block cannot draw a table that already has a [count] column:
    when the cities sort, the merge renames the column and the threshold
    test that follows ends in a [KeyError] for [count]. *)
Theorem parallel_count_column_clash (F : DataFrame)
    (type_error : list cell → string) (selectbox : list cell → cell)
    (min_count : Z) :
  parallel.required_cols ⊆ columns F →
  empty F = false →
  is_Some (parallel.cities F) →
  "count" ∈ columns F →
  "count_x" ∉ columns F →
  parallel.run F type_error selectbox min_count
  = Py.Raise (Py.Exn "KeyError" "count").
Proof.
  intros Hreq Hrows [cities Hcities] Hcount Hx. unfold parallel.run.
  rewrite Hrows, Hcities, bool_decide_eq_true_2 by done. cbn [negb andb].
  rewrite parallel_draw_scope.
  rewrite <- (parallel_scope_columns F (selectbox cities)) in Hcount, Hx.
  destruct (count_clash _ min_count Hcount) as (e & -> & He). by rewrite (He Hx).
Qed.

Lemma parallel_count_column_clash_witness :
  parallel.run sample.two_rows_counted (λ _, "") (λ _, Str "All") 2
  = Py.Raise (Py.Exn "KeyError" "count").
Proof.
  apply (parallel_count_column_clash sample.two_rows_counted).
  - by_evaluation.
  - reflexivity.
  - by_evaluation.
  - by_evaluation.
  - by_evaluation.
Defined.
